(** * xw: instance scheduler, request router and format translator

    A shallow embedding of the parts of the xw daemon that its
    specification makes promises about, module by module:

    - [GoInt], [GoStrings]  the Go integers and string functions used;
    - [Ports]       internal/runtime/port.go: [PortAllocator];
    - [Runtime]     the records of package runtime;
    - [Scheduler]   internal/runtime: [Manager.List], [Manager.Run],
                    [parseDeviceList], the registry and the lifecycle
                    methods of the manager, and a container engine [Host]
                    to run them against;
    - [Router]      internal/server/handlers: [ProxyCore.FindInstanceByModel],
                    [AcquireConcurrency], [ForwardRequest], [copyHeaders];
    - [Apiformat]   internal/apiformat: [ConvertResponse], [ConvertRequest],
                    [StreamAdapter];
    - [Handlers]    internal/server/handlers: [HandleCountTokens],
                    [HandleMessages];
    - [OmniInfer]   internal/runtime/omni-infer-docker: [Runtime.Create];
    - [Models]      internal/models: [ModelSpec], [LoadModelsFromConfig].

    Go [int] is a 64-bit two's-complement integer; it is modelled as [Z],
    with the wrap-around of an increment written out where a counter is
    incremented.  Go strings are byte strings and are modelled as [string]
    (a list of 8-bit characters).  Go maps are [gmap]s.  An [error] is
    the right injection of a sum, or [Some] of an [option] for functions
    that return only an error.  Mutexes are dropped: every method that
    takes one holds it for its whole body.  Logging is dropped.

    Code outside this repository that the sources call (encoding/json,
    net.Listen, crypto/rand, the clock) and interfaces whose
    implementations are not among the sources appear as parameters:
    [Variable]s of a [Section], fields of a record, or methods of the
    class [Scheduler.Backend].

    The definitions come first.  The properties follow, one module of
    facts for each module of definitions. *)

From Stdlib Require Import ZArith String Ascii List Lia Bool.
From stdpp Require Import base gmap strings list pretty.

#[local] Open Scope Z_scope.

(** ** Go machine integers *)

Module GoInt.

Definition max_int : Z := 2 ^ 63 - 1.
Definition min_int : Z := - 2 ^ 63.

(** The value of a 64-bit signed computation whose mathematical result is [z]. *)
Definition wrap (z : Z) : Z := (z + 2 ^ 63) mod 2 ^ 64 - 2 ^ 63.

Definition in_range (z : Z) : Prop := min_int <= z <= max_int.

End GoInt.

(** ** The Go string functions the sources call *)

Module GoStrings.

#[local] Open Scope nat_scope.

Definition bytes_of (l : list nat) : list ascii := map ascii_of_nat l.

(** The UTF-8 encodings of the code points for which [unicode.IsSpace]
    holds: tab, LF, VT, FF, CR, space, U+0085, U+00A0, U+1680,
    U+2000..U+200A, U+2028, U+2029, U+202F, U+205F, U+3000. *)
Definition space_runes : list (list ascii) :=
  map bytes_of
    ([ [9]; [10]; [11]; [12]; [13]; [32]; [194; 133]; [194; 160]; [225; 154; 128] ]
     ++ map (fun b => [226; 128; b]) (seq 128 11)
     ++ [ [226; 128; 168]; [226; 128; 169]; [226; 128; 175]; [226; 129; 159];
          [227; 128; 128] ]).

Fixpoint is_prefix (p l : list ascii) : bool :=
  match p, l with
  | [], _ => true
  | a :: p', b :: l' => Ascii.eqb a b && is_prefix p' l'
  | _ :: _, [] => false
  end.

(** Width in bytes of the rune of [runes] that starts [l]; [0] when none does. *)
Definition leading_width (runes : list (list ascii)) (l : list ascii) : nat :=
  match find (fun r => is_prefix r l) runes with
  | Some r => length r
  | None => 0
  end.

Fixpoint trim_leading (runes : list (list ascii)) (fuel : nat) (l : list ascii) : list ascii :=
  match fuel with
  | O => l
  | S fuel' =>
      match leading_width runes l with
      | O => l
      | w => trim_leading runes fuel' (drop w l)
      end
  end.

Definition trim_left (l : list ascii) : list ascii :=
  trim_leading space_runes (length l) l.

(** Trailing runes are matched on the reversed bytes. *)
Definition trim_right (l : list ascii) : list ascii :=
  rev (trim_leading (map (@rev ascii) space_runes) (length l) (rev l)).

(** [strings.TrimSpace]. *)
Definition TrimSpace (s : string) : string :=
  string_of_list_ascii (trim_right (trim_left (list_ascii_of_string s))).

(** [strings.HasPrefix s prefix]. *)
Definition HasPrefix (s prefix : string) : bool := String.prefix prefix s.

(** [strings.Split s sep] for a one-byte separator. *)
Fixpoint Split (s : string) (sep : ascii) : list string :=
  match s with
  | EmptyString => [EmptyString]
  | String c s' =>
      if Ascii.eqb c sep then EmptyString :: Split s' sep
      else match Split s' sep with
           | part :: parts => String c part :: parts
           | [] => [String c EmptyString]
           end
  end.

Definition digit_of (c : ascii) : option Z :=
  let n := nat_of_ascii c in
  if (48 <=? n) && (n <=? 57) then Some (Z.of_nat (n - 48)) else None.

(** Value of a string of decimal digits, most significant first. *)
Fixpoint digits_value (acc : Z) (s : string) : option Z :=
  match s with
  | EmptyString => Some acc
  | String c s' =>
      match digit_of c with
      | Some d => digits_value (acc * 10 + d)%Z s'
      | None => None
      end
  end.

(** [strconv.Atoi]: an optional sign and at least one decimal digit; the
    value has to fit a 64-bit [int]. *)
Definition Atoi (s : string) : option Z :=
  let '(neg, body) :=
    match s with
    | String "-" s' => (true, s')
    | String "+" s' => (false, s')
    | _ => (false, s)
    end in
  match body with
  | EmptyString => None
  | _ =>
      match digits_value 0 body with
      | Some v =>
          let z := if neg then (- v)%Z else v in
          if ((GoInt.min_int <=? z) && (z <=? GoInt.max_int))%Z then Some z else None
      | None => None
      end
  end.

(** [fmt.Sprintf("%d", z)]. *)
Definition Itoa (z : Z) : string := pretty z.

(** ASCII case folding; it agrees with [strings.ToLower] on strings whose
    bytes are all below 128. *)
Definition lower_byte (c : ascii) : ascii :=
  let n := nat_of_ascii c in
  if (65 <=? n) && (n <=? 90) then ascii_of_nat (n + 32) else c.

Fixpoint ascii_ToLower (s : string) : string :=
  match s with
  | EmptyString => EmptyString
  | String c s' => String (lower_byte c) (ascii_ToLower s')
  end.

(** Decimal numerals: the non-empty strings of the bytes [0] to [9]. *)
Definition is_digit (c : ascii) : bool :=
  match digit_of c with
  | Some _ => true
  | None => false
  end.

Definition numeral (s : string) : Prop :=
  s <> EmptyString /\ Forall (fun c => is_digit c = true) (list_ascii_of_string s).

(** The first byte of a rune of [runes] is never a decimal digit. *)
Definition digit_free (runes : list (list ascii)) : bool :=
  forallb (fun r => match r with
                    | [] => false
                    | b :: _ => negb (is_digit b)
                    end) runes.

(** A string with a decimal digit at both ends. *)
Definition tight (s : string) : Prop :=
  (exists c, head (list_ascii_of_string s) = Some c /\ is_digit c = true) /\
  (exists c, last (list_ascii_of_string s) = Some c /\ is_digit c = true).

(** [strings.SplitN s sep 2] for a one-byte separator: [s] cut at the
    first separator, or [s] alone when it has none. *)
Fixpoint SplitN2 (s : string) (sep : ascii) : list string :=
  match s with
  | EmptyString => [EmptyString]
  | String c s' =>
      if Ascii.eqb c sep then [EmptyString; s']
      else match SplitN2 s' sep with
           | part :: parts => String c part :: parts
           | [] => [String c EmptyString]
           end
  end.

(** The byte [c] occurs in [s]. *)
Fixpoint contains_byte (s : string) (c : ascii) : bool :=
  match s with
  | EmptyString => false
  | String c' s' => Ascii.eqb c' c || contains_byte s' c
  end.

End GoStrings.

(** ** internal/runtime/port.go: the port allocator *)

Module Ports.

(** [PortAllocator]; the mutex is dropped, every method holds it for its
    whole body. *)
Record PortAllocator := mkPortAllocator {
  allocated : gmap Z bool;
  minPort : Z;
  maxPort : Z
}.

(** [pa.allocated[p]]: a missing key reads as [false]. *)
Definition is_allocated (pa : PortAllocator) (p : Z) : bool :=
  default false (allocated pa !! p).

Definition NewPortAllocator (minPort0 maxPort0 : Z) : PortAllocator :=
  let minPort1 := if minPort0 <=? 0 then 10881 else minPort0 in
  let maxPort1 := if maxPort0 <=? minPort1 then GoInt.wrap (minPort1 + 1000) else maxPort0 in
  mkPortAllocator ∅ minPort1 maxPort1.

(** [GetGlobalPortAllocator]: the process-wide allocator. *)
Definition globalPortAllocator : PortAllocator := NewPortAllocator 10881 11881.

Inductive error :=
| ErrNoAvailablePorts (lo hi : Z).

Section WithHost.

(** The host's answer to [net.Listen("tcp", "127.0.0.1:<port>")]: [true]
    when the bind succeeds.  [isPortAvailable] closes the listener and
    returns that answer. *)
Variable listen_ok : Z -> bool.

Definition isPortAvailable (port : Z) : bool := listen_ok port.

(** The [for p := pa.minPort; p <= pa.maxPort; p++] loop of [GetFreePort],
    entered with counter [p].  [fuel] bounds the number of iterations; the
    result is [None] when it runs out. *)
Fixpoint scan (fuel : nat) (pa : PortAllocator) (p : Z)
  : option (PortAllocator * (Z + error)) :=
  match fuel with
  | O => None
  | S fuel' =>
      if p <=? maxPort pa then
        if is_allocated pa p then scan fuel' pa (GoInt.wrap (p + 1))
        else if isPortAvailable p then
          Some (mkPortAllocator (<[p := true]> (allocated pa)) (minPort pa) (maxPort pa),
                inl p)
        else scan fuel' pa (GoInt.wrap (p + 1))
      else Some (pa, inr (ErrNoAvailablePorts (minPort pa) (maxPort pa)))
  end.

Definition GetFreePort (fuel : nat) (pa : PortAllocator)
  : option (PortAllocator * (Z + error)) :=
  scan fuel pa (minPort pa).

End WithHost.

Definition ReleasePort (pa : PortAllocator) (port : Z) : PortAllocator :=
  if is_allocated pa port
  then mkPortAllocator (delete port (allocated pa)) (minPort pa) (maxPort pa)
  else pa.

Definition MarkPortUsed (pa : PortAllocator) (port : Z) : PortAllocator :=
  if port <=? 0 then pa
  else mkPortAllocator (<[port := true]> (allocated pa)) (minPort pa) (maxPort pa).

(** A port the allocator can hand out: not leased and bindable. *)
Definition usable (listen_ok : Z -> bool) (pa : PortAllocator) (p : Z) : bool :=
  negb (is_allocated pa p) && listen_ok p.

(** Iterations that always suffice for the range of [pa]. *)
Definition enough_fuel (pa : PortAllocator) : nat :=
  S (Z.to_nat (maxPort pa - minPort pa + 1)).

(** Three ports of the default range: 10881 is leased, 10882 is held by
    another process, 10883 is free. *)
Definition sample_allocator : PortAllocator :=
  MarkPortUsed globalPortAllocator 10881.
Definition sample_host (p : Z) : bool := negb (p =? 10882).

End Ports.

(** ** internal/runtime: the data the scheduler and the router exchange *)

Module Runtime.

(** A value of type [interface{}] in an option map, as far as the type
    assertions [.(string)] and [.(int)] of the sources tell them apart. *)
Inductive any :=
| VString (s : string)
| VInt (z : Z)
| VOther.

(** An [error] of a collaborator, by its message. *)
Definition gerror := string.

(** [InstanceState] is a string type; its constants are declared outside
    the listed sources and take the values the specification and the
    router's literal ["running"] give them. *)
Definition StateCreated : string := "created".
Definition StateRunning : string := "running".

(** [device.DeviceInfo], the allocator's view of a logical chip. *)
Module Device.
Record t := mk {
  Type_ : string;
  Index : Z;
  BusAddress : string;
  ModelName : string;
  Properties : gmap string string
}.
End Device.

(** [runtime.DeviceInfo]. *)
Module DeviceInfo.
Record t := mk {
  Type_ : string;
  Index : Z;
  PCIAddress : string;
  ModelName : string;
  ConfigKey : string;
  Properties : gmap string string
}.
End DeviceInfo.

(** [runtime.Instance]; times are Unix seconds. *)
Module Instance.
Record t := mk {
  ID : string;
  RuntimeName : string;
  ModelID : string;
  Alias : string;
  ModelVersion : string;
  State : string;
  Port : Z;
  Endpoint : string;
  Error : string;
  CreatedAt : Z;
  StartedAt : Z;
  Metadata : gmap string string
}.
End Instance.

(** [runtime.RunOptions], the options of the legacy run API. *)
Module RunOptions.
Record t := mk {
  ModelID : string;
  BackendType : string;
  DeploymentMode : string;
  ModelPath : string;
  Port : Z;
  AdditionalConfig : gmap string any
}.
End RunOptions.

(** [runtime.RunInstance]. *)
Module RunInstance.
Record t := mk {
  ID : string;
  ModelID : string;
  BackendType : string;
  DeploymentMode : string;
  State : string;
  CreatedAt : Z;
  StartedAt : Z;
  Port : Z;
  Error : string;
  Config : gmap string any
}.
End RunInstance.

(** [runtime.CreateParams]. *)
Module CreateParams.
Record t := mk {
  InstanceID : string;
  ModelID : string;
  Alias : string;
  ModelPath : string;
  ModelVersion : string;
  BackendType : string;
  DeploymentMode : string;
  ServerName : string;
  Devices : list DeviceInfo.t;
  Port : Z;
  TensorParallel : Z;
  Environment : gmap string string;
  ExtraConfig : gmap string any
}.
End CreateParams.

(** [m[k]] on a [map[string]string]: the zero value when [k] is missing. *)
Definition get (m : gmap string string) (k : string) : string :=
  default EmptyString (m !! k).

End Runtime.

(** ** internal/runtime: [Manager.Run] and what it calls *)

Module Scheduler.

Import Runtime.

(** *** [parseDeviceList] *)

Inductive ParseError :=
| ErrEmptyDeviceList
| ErrInvalidDeviceIndex (part : string)
| ErrNegativeDeviceIndex (idx : Z)
| ErrNoValidDeviceIndices.

(** The loop over the comma-separated parts; [indices] is the slice built so far. *)
Fixpoint parseParts (parts : list string) (indices : list Z) : list Z + ParseError :=
  match parts with
  | [] => inl indices
  | part :: rest =>
      let part := GoStrings.TrimSpace part in
      if String.eqb part "" then parseParts rest indices
      else match GoStrings.Atoi part with
           | None => inr (ErrInvalidDeviceIndex part)
           | Some idx =>
               if idx <? 0 then inr (ErrNegativeDeviceIndex idx)
               else parseParts rest (indices ++ [idx])
           end
  end.

Definition parseDeviceList (deviceList : string) : list Z + ParseError :=
  let deviceList := GoStrings.TrimSpace deviceList in
  if String.eqb deviceList "" then inr ErrEmptyDeviceList
  else match parseParts (GoStrings.Split deviceList ",") [] with
       | inr e => inr e
       | inl [] => inr ErrNoValidDeviceIndices
       | inl indices => inl indices
       end.

(** *** The collaborators of the manager

    [Manager] is written against the [Runtime] interface and the device
    allocator of package [device].  Their implementations act on the
    container engine and the host; [W] is the state of that world, and
    each method is a function on it.  A runtime is addressed by the name
    it is registered under. *)
Class Backend (W : Type) := {
  (** [Runtime.List] *)
  rtList : string -> W -> list Instance.t + gerror;
  (** [Runtime.Create] *)
  rtCreate : string -> CreateParams.t -> W -> (Instance.t + gerror) * W;
  (** [Runtime.Start] *)
  rtStart : string -> string -> W -> option gerror * W;
  (** [Runtime.Remove] *)
  rtRemove : string -> string -> W -> option gerror * W;
  (** [device.NewAllocator] *)
  NewAllocator : W -> option gerror;
  (** [Allocator.GetAllDevices] *)
  GetAllDevices : W -> list Device.t;
  (** [Allocator.Allocate] *)
  Allocate : string -> Z -> W -> (list Device.t + gerror) * W;
  (** [Allocator.Release] *)
  Release : string -> W -> option gerror * W;
  (** [time.Now().Unix()] *)
  timeNowUnix : W -> Z
}.

(** [Manager].  [runtimes] lists the registered names in the order in
    which this call's [range m.runtimes] visits the map (Go leaves that
    order open); [deviceAllocator] tells whether the lazily created
    allocator exists. *)
Record Manager := mkManager {
  runtimes : list string;
  deviceAllocator : bool
}.

Inductive RunError :=
| ErrNilOptions
| ErrRuntimeNotAvailable (runtimeName : string)
| ErrModelPathRequired
| ErrAllocatorInit (cause : gerror)
| ErrInvalidDeviceList (cause : ParseError)
| ErrDeviceIndexOutOfRange (idx : Z) (available : Z)
| ErrAllocateDevices (cause : gerror)
| ErrCreateInstance (cause : gerror)
| ErrStartInstance (cause : gerror)
| PanicIndexOutOfRange.

Definition toDeviceInfo (dev : Device.t) : DeviceInfo.t :=
  DeviceInfo.mk (Device.Type_ dev) (Device.Index dev) (Device.BusAddress dev)
                (Device.ModelName dev) EmptyString (Device.Properties dev).

(** The loop of [Run] that picks the requested devices out of
    [allDevices]; [devices] is the slice built so far. *)
Fixpoint selectDevices (allDevices : list Device.t) (deviceIndices : list Z)
                       (devices : list DeviceInfo.t) : list DeviceInfo.t + RunError :=
  match deviceIndices with
  | [] => inl devices
  | idx :: rest =>
      if idx >=? Z.of_nat (length allDevices)
      then inr (ErrDeviceIndexOutOfRange idx (Z.of_nat (length allDevices)))
      else if idx <? 0 then inr PanicIndexOutOfRange
      else match allDevices !! Z.to_nat idx with
           | Some dev => selectDevices allDevices rest (devices ++ [toDeviceInfo dev])
           | None => inr PanicIndexOutOfRange
           end
  end.

(** The [RunInstance] returned for an instance that is already running. *)
Definition existingRunInstance (inst : Instance.t) : RunInstance.t :=
  RunInstance.mk (Instance.ID inst) (Instance.ModelID inst)
    (get (Instance.Metadata inst) "backend_type")
    (get (Instance.Metadata inst) "deployment_mode")
    (Instance.State inst) (Instance.CreatedAt inst) (Instance.StartedAt inst)
    (Instance.Port inst) (Instance.Error inst) ∅.

Section WithBackend.

Context {W : Type} `{Backend W}.

(** [Manager.List]: the instances of every runtime; a runtime whose
    [List] fails is skipped with a warning. *)
Definition List (m : Manager) (w : W) : list Instance.t :=
  concat (map (fun rt => match rtList rt w with
                         | inl instances => instances
                         | inr _ => []
                         end) (runtimes m)).

(** [Manager.getOrCreateAllocator]. *)
Definition getOrCreateAllocator (m : Manager) (w : W) : Manager + gerror :=
  if deviceAllocator m then inl m
  else match NewAllocator w with
       | Some err => inr err
       | None => inl (mkManager (runtimes m) true)
       end.

(** The dedup test of [Run]. *)
Definition runsModel (modelID : string) (inst : Instance.t) : bool :=
  String.eqb (Instance.ModelID inst) modelID && String.eqb (Instance.State inst) StateRunning.

(** [Manager.Run]; [None] is the nil options pointer.  The result carries
    the manager and the world as the call leaves them.  The [RunInstance]
    of a fresh instance is built from the instance that [Create] returned. *)
Definition Run (m : Manager) (opts : option RunOptions.t) (w : W)
  : (RunInstance.t + RunError) * Manager * W :=
  match opts with
  | None => (inr ErrNilOptions, m, w)
  | Some opts =>
  match find (runsModel (RunOptions.ModelID opts)) (List m w) with
  | Some inst => (inl (existingRunInstance inst), m, w)
  | None =>
  let runtimeName :=
    (RunOptions.BackendType opts ++ "-" ++ RunOptions.DeploymentMode opts)%string in
  if negb (bool_decide (runtimeName ∈ runtimes m))
  then (inr (ErrRuntimeNotAvailable runtimeName), m, w) else
  let instanceID :=
    (RunOptions.ModelID opts ++ "-" ++ GoStrings.Itoa (timeNowUnix w))%string in
  if String.eqb (RunOptions.ModelPath opts) ""
  then (inr ErrModelPathRequired, m, w) else
  match getOrCreateAllocator m w with
  | inr err => (inr (ErrAllocatorInit err), m, w)
  | inl m =>
  let chosen : (list DeviceInfo.t + RunError) * W :=
    match RunOptions.AdditionalConfig opts !! "device"%string with
    | Some (VString (String c deviceList')) =>
        match parseDeviceList (String c deviceList') with
        | inr err => (inr (ErrInvalidDeviceList err), w)
        | inl deviceIndices => (selectDevices (GetAllDevices w) deviceIndices [], w)
        end
    | _ =>
        match Allocate instanceID 1 w with
        | (inr err, w) => (inr (ErrAllocateDevices err), w)
        | (inl allocatedDevices, w) => (inl (map toDeviceInfo allocatedDevices), w)
        end
    end in
  match chosen with
  | (inr err, w) => (inr err, m, w)
  | (inl devices, w) =>
  let params :=
    CreateParams.mk instanceID (RunOptions.ModelID opts) EmptyString
      (RunOptions.ModelPath opts) "latest" (RunOptions.BackendType opts)
      (RunOptions.DeploymentMode opts) EmptyString devices (RunOptions.Port opts) 0
      ∅ (RunOptions.AdditionalConfig opts) in
  match rtCreate runtimeName params w with
  | (inr err, w) => (inr (ErrCreateInstance err), m, w)
  | (inl instance, w) =>
  match rtStart runtimeName instanceID w with
  | (Some err, w) =>
      let w := snd (rtRemove runtimeName instanceID w) in
      let w := snd (Release instanceID w) in
      (inr (ErrStartInstance err), m, w)
  | (None, w) =>
      (inl (RunInstance.mk (Instance.ID instance) (Instance.ModelID instance)
              (RunOptions.BackendType opts) (RunOptions.DeploymentMode opts)
              (Instance.State instance) (Instance.CreatedAt instance)
              (Instance.StartedAt instance) (Instance.Port instance)
              (Instance.Error instance) (RunOptions.AdditionalConfig opts)),
       m, w)
  end end end end end end.

End WithBackend.

(** *** The rest of the manager's API *)

(** The failures of [Run] that come before a device is allocated or a
    container is created. *)
Definition rejected (err : RunError) : bool :=
  match err with
  | ErrNilOptions | ErrRuntimeNotAvailable _ | ErrModelPathRequired | ErrAllocatorInit _
  | ErrInvalidDeviceList _ | ErrDeviceIndexOutOfRange _ _ | PanicIndexOutOfRange => true
  | ErrAllocateDevices _ | ErrCreateInstance _ | ErrStartInstance _ => false
  end.

(** The methods of the [Runtime] interface that [Run] does not call: [Get],
    which reads, and [Stop]. *)
Class Lifecycle (W : Type) := {
  (** [Runtime.Get] *)
  rtGet : string -> string -> W -> Instance.t + gerror;
  (** [Runtime.Stop] *)
  rtStop : string -> string -> W -> option gerror * W
}.

Inductive ManagerError :=
| ErrNilRuntime
| ErrAlreadyRegistered (name : string)
| ErrRuntimeNotFound (runtimeName : string)
| ErrInstanceNotFound (instanceID : string)
| ErrRuntime (cause : gerror).

(** [Manager.RegisterRuntime]; a runtime is given by its [Name()], [None]
    is the nil interface.  The new name is visited last here; Go leaves
    the place open. *)
Definition RegisterRuntime (m : Manager) (runtime : option string) : Manager + ManagerError :=
  match runtime with
  | None => inr ErrNilRuntime
  | Some name =>
      if bool_decide (name ∈ runtimes m) then inr (ErrAlreadyRegistered name)
      else inl (mkManager (runtimes m ++ [name]) (deviceAllocator m))
  end.

Section WithLifecycle.

Context {W : Type} `{Backend W} `{Lifecycle W}.

(** [Manager.Create]. *)
Definition Create (m : Manager) (runtimeName : string) (params : CreateParams.t) (w : W)
  : (Instance.t + ManagerError) * W :=
  if negb (bool_decide (runtimeName ∈ runtimes m))
  then (inr (ErrRuntimeNotFound runtimeName), w)
  else match rtCreate runtimeName params w with
       | (inr err, w) => (inr (ErrRuntime err), w)
       | (inl instance, w) => (inl instance, w)
       end.

(** The loop of [findInstanceRuntime] over the runtimes. *)
Fixpoint findIn (rts : list string) (instanceID : string) (w : W)
  : option (string * Instance.t) :=
  match rts with
  | [] => None
  | rt :: rest =>
      match rtGet rt instanceID w with
      | inl instance => Some (rt, instance)
      | inr _ => findIn rest instanceID w
      end
  end.

(** [Manager.findInstanceRuntime]. *)
Definition findInstanceRuntime (m : Manager) (instanceID : string) (w : W)
  : string * Instance.t + ManagerError :=
  match findIn (runtimes m) instanceID w with
  | Some found => inl found
  | None => inr (ErrInstanceNotFound instanceID)
  end.

(** [Manager.Get]. *)
Definition Get (m : Manager) (instanceID : string) (w : W) : Instance.t + ManagerError :=
  match findInstanceRuntime m instanceID w with
  | inl (_, instance) => inl instance
  | inr err => inr err
  end.

(** [Manager.Start]. *)
Definition Start (m : Manager) (instanceID : string) (w : W) : option ManagerError * W :=
  match findInstanceRuntime m instanceID w with
  | inr err => (Some err, w)
  | inl (rt, _) =>
      match rtStart rt instanceID w with
      | (Some err, w) => (Some (ErrRuntime err), w)
      | (None, w) => (None, w)
      end
  end.

(** The release of the devices that ends [Stop] and [Remove]: skipped
    while the allocator does not exist; its error is logged only. *)
Definition releaseDevices (m : Manager) (instanceID : string) (w : W) : W :=
  if deviceAllocator m then snd (Release instanceID w) else w.

(** [Manager.Stop]. *)
Definition Stop (m : Manager) (instanceID : string) (w : W) : option ManagerError * W :=
  match findInstanceRuntime m instanceID w with
  | inr err => (Some err, w)
  | inl (rt, _) =>
      match rtStop rt instanceID w with
      | (Some err, w) => (Some (ErrRuntime err), w)
      | (None, w) => (None, releaseDevices m instanceID w)
      end
  end.

(** [Manager.Remove]. *)
Definition Remove (m : Manager) (instanceID : string) (w : W) : option ManagerError * W :=
  match findInstanceRuntime m instanceID w with
  | inr err => (Some err, w)
  | inl (rt, _) =>
      match rtRemove rt instanceID w with
      | (Some err, w) => (Some (ErrRuntime err), w)
      | (None, w) => (None, releaseDevices m instanceID w)
      end
  end.

(** [Manager.ListCompat]; [Manager.List] returns no error. *)
Definition ListCompat (m : Manager) (w : W) : list RunInstance.t :=
  map existingRunInstance (List m w).

(** [Manager.StopCompat]. *)
Definition StopCompat (m : Manager) (instanceID : string) (w : W) : option ManagerError * W :=
  Stop m instanceID w.

End WithLifecycle.

(** *** A container engine to run the manager against *)

Module Host.

(** Backend calls that change or try to change the engine, as logged. *)
Inductive Event :=
| Created (runtimeName instanceID : string)
| CreateFailed (runtimeName instanceID : string)
| Started (runtimeName instanceID : string)
| StartFailed (runtimeName instanceID : string)
| Removed (runtimeName instanceID : string)
| RemoveFailed (runtimeName instanceID : string)
| Allocated (instanceID : string) (indices : list Z)
| Released (instanceID : string).

(** A container with its registry entry and its [xw.device_indices] label. *)
Record Container := mkContainer {
  owner : string;
  instance : Instance.t;
  device_indices : list Z
}.

(** Failures of the engine and the host, decided from outside: which
    runtime cannot list, which instance cannot be created, started or
    removed, and whether the device scan of [NewAllocator] fails. *)
Record Faults := mkFaults {
  listFails : string -> option gerror;
  createFails : string -> option gerror;
  startFails : string -> option gerror;
  removeFails : string -> option gerror;
  scanFails : option gerror
}.

Record t := mk {
  inventory : list Device.t;
  topology : Z -> option Z;
  containers : list Container;
  ports : Ports.PortAllocator;
  clock : Z;
  faults : Faults;
  log : list Event
}.

Definition with_containers (h : t) (cs : list Container) (ports' : Ports.PortAllocator)
                           (evs : list Event) : t :=
  mk (inventory h) (topology h) cs ports' (clock h) (faults h) (log h ++ evs).

Definition emit (h : t) (evs : list Event) : t :=
  with_containers h (containers h) (ports h) evs.

Definition is_instance (runtimeName instanceID : string) (c : Container) : bool :=
  String.eqb (owner c) runtimeName && String.eqb (Instance.ID (instance c)) instanceID.

(** Modelled from the spec: [Runtime.List] of the runtime base (not among
    the sources) returns the registry entries of the runtime's containers
    (section 4.7). *)
Definition listInstances (runtimeName : string) (h : t) : list Instance.t + gerror :=
  match listFails (faults h) runtimeName with
  | Some err => inr err
  | None => inl (map instance (filter (fun c => String.eqb (owner c) runtimeName) (containers h)))
  end.

(** Modelled from the spec: [Runtime.Create] as far as the engine and the
    registry see it (section 4.8, step 8: the container is created with
    its labels and registered in state [created]).  The checks and the
    registry entry are those of omni-infer-docker's [Create]; a failure of
    the sandbox, of the image lookup or of the engine is the fault
    [createFails]. *)
Definition create (runtimeName : string) (params : CreateParams.t) (h : t)
  : (Instance.t + gerror) * t :=
  let id := CreateParams.InstanceID params in
  if String.eqb id "" then (inr "invalid parameters: instance ID is required"%string, h)
  else if existsb (is_instance runtimeName id) (containers h)
  then (inr ("instance " ++ id ++ " already exists")%string, h)
  else match CreateParams.Devices params with
  | [] => (inr "at least one device is required"%string, h)
  | _ :: _ =>
      match createFails (faults h) id with
      | Some err => (inr err, emit h [CreateFailed runtimeName id])
      | None =>
          let inst :=
            Instance.mk id runtimeName (CreateParams.ModelID params)
              (CreateParams.Alias params) (CreateParams.ModelVersion params)
              StateCreated (CreateParams.Port params)
              ("http://localhost:" ++ GoStrings.Itoa (CreateParams.Port params))%string
              EmptyString (clock h) 0
              (<["backend_type"%string := CreateParams.BackendType params]>
                 (<["deployment_mode"%string := CreateParams.DeploymentMode params]> ∅)) in
          let c := mkContainer runtimeName inst
                     (map DeviceInfo.Index (CreateParams.Devices params)) in
          (inl inst, with_containers h (containers h ++ [c]) (ports h)
                       [Created runtimeName id])
      end
  end.

Definition set_state (st : string) (started : Z) (c : Container) : Container :=
  let i := instance c in
  mkContainer (owner c)
    (Instance.mk (Instance.ID i) (Instance.RuntimeName i) (Instance.ModelID i)
       (Instance.Alias i) (Instance.ModelVersion i) st (Instance.Port i)
       (Instance.Endpoint i) (Instance.Error i) (Instance.CreatedAt i) started
       (Instance.Metadata i))
    (device_indices c).

(** Modelled from the spec: [Runtime.Start] (section 4.8, steps 8 and 9);
    a start that succeeds leaves the instance [running], one that fails
    leaves the created container behind for the caller to roll back. *)
Definition start (runtimeName instanceID : string) (h : t) : option gerror * t :=
  if existsb (is_instance runtimeName instanceID) (containers h) then
    match startFails (faults h) instanceID with
    | Some err => (Some err, emit h [StartFailed runtimeName instanceID])
    | None =>
        (None,
         with_containers h
           (map (fun c => if is_instance runtimeName instanceID c
                          then set_state StateRunning (clock h) c else c) (containers h))
           (ports h) [Started runtimeName instanceID])
    end
  else (Some ("instance " ++ instanceID ++ " not found")%string, h).

(** Modelled from the spec: [Runtime.Remove] (section 4.8: stop if
    running, remove the container, release the port, delete the registry
    entry); when the engine cannot remove the container, everything stays
    as it is. *)
Definition remove (runtimeName instanceID : string) (h : t) : option gerror * t :=
  match find (is_instance runtimeName instanceID) (containers h) with
  | Some c =>
      match removeFails (faults h) instanceID with
      | Some err => (Some err, emit h [RemoveFailed runtimeName instanceID])
      | None =>
          (None,
           with_containers h
             (filter (fun c => negb (is_instance runtimeName instanceID c)) (containers h))
             (Ports.ReleasePort (ports h) (Instance.Port (instance c)))
             [Removed runtimeName instanceID])
      end
  | None =>
      (Some ("instance " ++ instanceID ++ " not found")%string,
       emit h [RemoveFailed runtimeName instanceID])
  end.

(** Modelled from the spec: the live set of allocated devices is the union
    of the [xw.device_indices] labels of the running containers (section
    4.3); the allocator keeps no state of its own. *)
Definition allocatedDevices (h : t) : list Z :=
  concat (map device_indices
            (filter (fun c => String.eqb (Instance.State (instance c)) StateRunning)
                    (containers h))).

Definition freeDevices (h : t) : list Device.t :=
  filter (fun d => negb (bool_decide (Device.Index d ∈ allocatedDevices h))) (inventory h).

(** The [n]-element sublists of [l], in lexicographic order of positions. *)
Fixpoint subsets {A : Type} (n : nat) (l : list A) : list (list A) :=
  match n, l with
  | O, _ => [[]]
  | S _, [] => []
  | S n', x :: l' => map (cons x) (subsets n' l') ++ subsets n l'
  end.

Definition dist (topo : Z -> option Z) (a b : Z) : Z :=
  match topo a, topo b with
  | Some x, Some y => Z.abs (x - y)
  | _, _ => Z.abs (a - b)
  end.

(** Sum of the distances of all pairs of [l]. *)
Fixpoint cost (topo : Z -> option Z) (l : list Z) : Z :=
  match l with
  | [] => 0
  | a :: l' => fold_right Z.add 0 (map (dist topo a) l') + cost topo l'
  end.

(** The first candidate of least cost. *)
Fixpoint cheapest (topo : Z -> option Z) (best : list Device.t) (cands : list (list Device.t))
  : list Device.t :=
  match cands with
  | [] => best
  | c :: cands' =>
      if cost topo (map Device.Index c) <? cost topo (map Device.Index best)
      then cheapest topo c cands' else cheapest topo best cands'
  end.

(** Modelled from the spec: [Allocator.Allocate] (section 4.3, selection
    policy 1 and 2). *)
Definition allocate (instanceID : string) (n : Z) (h : t) : (list Device.t + gerror) * t :=
  match subsets (Z.to_nat n) (freeDevices h) with
  | [] => (inr "ResourceExhausted: insufficient free devices"%string, h)
  | c :: cands =>
      let chosen := cheapest (topology h) c cands in
      (inl chosen, emit h [Allocated instanceID (map Device.Index chosen)])
  end.

(** Modelled from the spec: [Allocator.Release] is idempotent and changes
    nothing by itself; a device is free again once the container that
    carries it in its label is gone (section 4.3). *)
Definition release (instanceID : string) (h : t) : option gerror * t :=
  (None, emit h [Released instanceID]).

#[global] Instance backend : Backend t := {|
  rtList := listInstances;
  rtCreate := create;
  rtStart := start;
  rtRemove := remove;
  NewAllocator := fun h => scanFails (faults h);
  GetAllDevices := inventory;
  Allocate := allocate;
  Release := release;
  timeNowUnix := clock
|}.

(** Modelled from the spec: [Runtime.Get] returns the registry entry of
    the instance, or fails when the runtime has none under this id
    (section 4.7). *)
Definition get (runtimeName instanceID : string) (h : t) : Instance.t + gerror :=
  match find (is_instance runtimeName instanceID) (containers h) with
  | Some c => inl (instance c)
  | None => inr ("instance " ++ instanceID ++ " not found")%string
  end.

(** Modelled from the spec: [Runtime.Stop] removes the container as
    [Runtime.Remove] does (section 4.8: in this code base Stop removes). *)
Definition stop (runtimeName instanceID : string) (h : t) : option gerror * t :=
  remove runtimeName instanceID h.

#[global] Instance lifecycle : Lifecycle t := {|
  rtGet := get;
  rtStop := stop
|}.

End Host.

(** *** A host with four chips and one running instance *)

Definition sample_device (i : Z) : Device.t :=
  Device.mk "npu" i ("0000:0" ++ GoStrings.Itoa i ++ ":00.0")%string "ascend-910b" ∅.

Definition sample_qwen : Instance.t :=
  Instance.mk "qwen-1699999999" "vllm-docker" "qwen" "" "latest" StateRunning 10881
    "http://localhost:10881" "" 1699999999 1699999999 ∅.

Definition no_faults : Host.Faults :=
  Host.mkFaults (fun _ => None) (fun _ => None) (fun _ => None) (fun _ => None) None.

Definition start_faults : Host.Faults :=
  Host.mkFaults (fun _ => None) (fun _ => None)
    (fun _ => Some "engine: cannot start container"%string) (fun _ => None) None.


Definition stuck_faults : Host.Faults :=
  Host.mkFaults (fun _ => None) (fun _ => None)
    (fun _ => Some "engine: cannot start container"%string)
    (fun _ => Some "engine: cannot remove container"%string) None.

(** Chips 0..3 in the boxes [0,1] and [2,3]; chip 0 is held by the running
    instance of model qwen, which listens on port 10881. *)
Definition sample_host_with (faults : Host.Faults) (leased : list Z) : Host.t :=
  Host.mk (map sample_device [0; 1; 2; 3]) (fun i => Some (i / 2))
    [Host.mkContainer "vllm-docker" sample_qwen [0]]
    (foldl Ports.MarkPortUsed Ports.globalPortAllocator leased)
    1700000000 faults [].

Definition sample_host : Host.t := sample_host_with no_faults [10881].

Definition sample_manager : Manager := mkManager ["vllm-docker"%string] false.

Definition sample_opts (model : string) (config : gmap string any) : RunOptions.t :=
  RunOptions.mk model "vllm" "docker" ("/data/models/" ++ model)%string 10882 config.

Definition events_since (h h' : Host.t) : list Host.Event :=
  drop (length (Host.log h)) (Host.log h').

End Scheduler.

(** ** internal/server/handlers: the request router *)

Module Router.

Import Runtime Scheduler.

Inductive FindError :=
| ErrListInstances (cause : gerror)
| ErrNoRunningInstance (modelName : string).

Section WithToLower.

(** [strings.ToLower]; Go folds case over all of Unicode, so the function
    is a parameter here.  [GoStrings.ascii_ToLower] is its restriction to
    ASCII strings. *)
Variable ToLower : string -> string.

Context {W : Type} `{Backend W}.

(** [alias := inst.Alias; if alias == "" { alias = inst.ModelID }] *)
Definition aliasOf (inst : Instance.t) : string :=
  if String.eqb (Instance.Alias inst) "" then Instance.ModelID inst else Instance.Alias inst.

(** Pass 1: the first running instance whose alias equals the model name. *)
Fixpoint exactPass (instances : list Instance.t) (modelNameLower : string) : option Instance.t :=
  match instances with
  | [] => None
  | inst :: rest =>
      if negb (String.eqb (Instance.State inst) "running") then exactPass rest modelNameLower
      else if String.eqb (ToLower (aliasOf inst)) modelNameLower then Some inst
      else exactPass rest modelNameLower
  end.

(** Pass 2: the first running instance whose alias is a prefix of the
    model name or has the model name as a prefix. *)
Fixpoint prefixPass (instances : list Instance.t) (modelNameLower : string) : option Instance.t :=
  match instances with
  | [] => None
  | inst :: rest =>
      if negb (String.eqb (Instance.State inst) "running") then prefixPass rest modelNameLower
      else
        let aliasLower := ToLower (aliasOf inst) in
        if GoStrings.HasPrefix aliasLower modelNameLower
           || GoStrings.HasPrefix modelNameLower aliasLower
        then Some inst
        else prefixPass rest modelNameLower
  end.

(** [runtimeManager.List]; the manager's [List] never returns an error. *)
Definition listInstances (m : Manager) (w : W) : list Instance.t + gerror :=
  inl (List m w).

(** [ProxyCore.FindInstanceByModel]. *)
Definition FindInstanceByModel (m : Manager) (w : W) (modelName : string)
  : Instance.t + FindError :=
  match listInstances m w with
  | inr err => inr (ErrListInstances err)
  | inl instances =>
      let modelNameLower := ToLower modelName in
      match exactPass instances modelNameLower with
      | Some inst => inl inst
      | None =>
          match prefixPass instances modelNameLower with
          | Some inst => inl inst
          | None => inr (ErrNoRunningInstance modelName)
          end
      end
  end.

(** What the two passes are to test, in the words of the specification,
    as predicates on an instance: the request model is compared, after
    case folding, with the alias of the instance, or with its model id
    when the alias is empty; it matches exactly when the two are equal,
    and by prefix when one is a prefix of the other. *)
Definition running (inst : Instance.t) : Prop := Instance.State inst = "running"%string.

Definition exactMatch (modelName : string) (inst : Instance.t) : Prop :=
  (Instance.Alias inst <> ""%string /\
   ToLower (Instance.Alias inst) = ToLower modelName) \/
  (Instance.Alias inst = ""%string /\
   ToLower (Instance.ModelID inst) = ToLower modelName).

Definition prefixMatch (modelName : string) (inst : Instance.t) : Prop :=
  (Instance.Alias inst <> ""%string /\
   (GoStrings.HasPrefix (ToLower (Instance.Alias inst)) (ToLower modelName) = true \/
    GoStrings.HasPrefix (ToLower modelName) (ToLower (Instance.Alias inst)) = true)) \/
  (Instance.Alias inst = ""%string /\
   (GoStrings.HasPrefix (ToLower (Instance.ModelID inst)) (ToLower modelName) = true \/
    GoStrings.HasPrefix (ToLower modelName) (ToLower (Instance.ModelID inst)) = true)).

(** [inst] is the first element of [instances] that is running and satisfies [P]. *)
Definition firstRunning (P : Instance.t -> Prop) (instances : list Instance.t)
                        (inst : Instance.t) : Prop :=
  exists before after,
    instances = before ++ inst :: after /\ running inst /\ P inst /\
    forall other, other ∈ before -> ~ (running other /\ P other).

Definition noneRunning (P : Instance.t -> Prop) (instances : list Instance.t) : Prop :=
  forall other, other ∈ instances -> ~ (running other /\ P other).

End WithToLower.

Definition sample_claude : Instance.t :=
  Instance.mk "qwen3-1700000001" "vllm-docker" "qwen3-8b" "Claude-Sonnet" "latest"
    StateRunning 10882 "http://localhost:10882" "" 1700000001 1700000001 ∅.

Definition sample_stopped : Instance.t :=
  Instance.mk "qwen-1600000000" "vllm-docker" "qwen" "QWEN" "latest"
    "stopped" 10883 "http://localhost:10883" "" 1600000000 1600000000 ∅.

(** A stopped instance with alias QWEN, the running qwen of [sample_host]
    (no alias) and a running instance with alias Claude-Sonnet. *)
Definition sample_router_host : Host.t :=
  Host.mk (map sample_device [0; 1; 2; 3]) (fun i => Some (i / 2))
    [Host.mkContainer "vllm-docker" sample_stopped [3];
     Host.mkContainer "vllm-docker" sample_qwen [0];
     Host.mkContainer "vllm-docker" sample_claude [1]]
    Ports.globalPortAllocator 1700000002 no_faults [].

(** *** The concurrency limit of an instance *)

(** The limit that [AcquireConcurrency] reads from the metadata of the
    instance; [0] is no limit. *)
Definition maxConcurrency (instance : Instance.t) : Z :=
  match Instance.Metadata instance !! "max_concurrent"%string with
  | Some v =>
      if negb (String.eqb v "") then
        match GoStrings.Atoi v with
        | Some mc => if 0 <? mc then mc else 0
        | None => 0
        end
      else 0
  | None => 0
  end.

(** What [AcquireConcurrency] returns besides the error: no release
    function for an instance without a limit, or the slot taken from the
    semaphore of the instance. *)
Inductive Slot :=
| Unlimited
| Acquired (instanceID : string) (maxConcurrency : Z).

Section WithSemaphore.

(** [concurrencyManager.acquireSlot] waits on the semaphore channel of the
    instance, which it creates with the given capacity at the first call.
    How the wait ends, with a slot ([None]) or with the error of the
    cancelled request context, is decided by the other requests and is a
    parameter. *)
Variable acquireSlot : string -> Z -> option gerror.

(** [ProxyCore.AcquireConcurrency]. *)
Definition AcquireConcurrency (instance : Instance.t) : Slot + gerror :=
  let maxConcurrency := maxConcurrency instance in
  if maxConcurrency <=? 0 then inl Unlimited
  else match acquireSlot (Instance.ID instance) maxConcurrency with
       | Some err => inr err
       | None => inl (Acquired (Instance.ID instance) maxConcurrency)
       end.

End WithSemaphore.

(** *** Headers and forwarding *)

(** [http.Header]: the values of each key, in the order they were added. *)
Definition Header := gmap string (list string).

(** [h[key]]: no values for a missing key. *)
Definition values (h : Header) (key : string) : list string := default [] (h !! key).

Definition hopByHopHeaders : list string :=
  ["Connection"; "Keep-Alive"; "Proxy-Authenticate"; "Proxy-Authorization"; "Te"; "Trailers";
   "Transfer-Encoding"; "Upgrade"]%string.

(** A header as [for name, values := range src] visits it: the entries of
    the map in the order of this visit. *)
Definition Entries := list (string * list string).

(** [src[name]] for a header given by its entries. *)
Definition entryValues (src : Entries) (name : string) : list string :=
  match find (fun entry => String.eqb (fst entry) name) src with
  | Some entry => snd entry
  | None => []
  end.

(** A request as [ForwardRequest] hands it to the HTTP client. *)
Record ProxyRequest := mkProxyRequest {
  Method : string;
  URL : string;
  Headers : Header;
  Body : string
}.

Inductive ForwardError :=
| ErrCreatingProxyRequest (cause : gerror)
| ErrClient (cause : gerror).

Section WithHTTP.

(** [textproto.CanonicalMIMEHeaderKey], which [Header.Add], [Header.Get]
    and [Header.Set] apply to the key they are given. *)
Variable CanonicalMIMEHeaderKey : string -> string.

(** [http.NewRequestWithContext], as far as it can fail (on the method or
    the URL), and [http.Client.Do] with redirects not followed. *)
Variable BackendResponse : Type.
Variable NewRequest : string -> string -> option gerror.
Variable Do : ProxyRequest -> BackendResponse + gerror.

Definition Add (h : Header) (key value : string) : Header :=
  let key := CanonicalMIMEHeaderKey key in
  <[key := values h key ++ [value]]> h.

Definition Get (h : Header) (key : string) : string :=
  match values h (CanonicalMIMEHeaderKey key) with
  | v :: _ => v
  | [] => ""
  end.

Definition Set_ (h : Header) (key value : string) : Header :=
  <[CanonicalMIMEHeaderKey key := [value]]> h.

(** [copyHeaders]; [copyResponseHeaders] has the same body. *)
Definition copyHeaders (src : Entries) (dst : Header) : Header :=
  foldl (fun dst entry =>
           if bool_decide (fst entry ∈ hopByHopHeaders) then dst
           else foldl (fun dst v => Add dst (fst entry) v) dst (snd entry))
        dst src.

Definition copyResponseHeaders (src : Entries) (dst : Header) : Header :=
  foldl (fun dst entry =>
           if bool_decide (fst entry ∈ hopByHopHeaders) then dst
           else foldl (fun dst v => Add dst (fst entry) v) dst (snd entry))
        dst src.

(** The request that [ForwardRequest] builds. *)
Definition proxyRequest (method path query body : string) (srcHeaders : Entries)
                        (instance : Instance.t) : ProxyRequest :=
  let targetURL := "http://localhost:" +:+ GoStrings.Itoa (Instance.Port instance) +:+ path in
  let targetURL :=
    if negb (String.eqb query "") then targetURL +:+ "?" +:+ query else targetURL in
  let header := copyHeaders srcHeaders ∅ in
  let header :=
    if String.eqb (Get header "Content-Type") "" && (0 <? String.length body)%nat
    then Set_ header "Content-Type" "application/json"
    else header in
  mkProxyRequest method targetURL header body.

(** [ProxyCore.ForwardRequest]. *)
Definition ForwardRequest (method path query body : string) (srcHeaders : Entries)
                          (instance : Instance.t) : BackendResponse + ForwardError :=
  let request := proxyRequest method path query body srcHeaders instance in
  match NewRequest method (URL request) with
  | Some err => inr (ErrCreatingProxyRequest err)
  | None =>
      match Do request with
      | inr err => inr (ErrClient err)
      | inl resp => inl resp
      end
  end.

End WithHTTP.

(** Keys in the form the HTTP server stores them. *)
Definition canonical (CanonicalMIMEHeaderKey : string -> string) (src : Entries) : Prop :=
  Forall (fun entry => CanonicalMIMEHeaderKey (fst entry) = fst entry) src.

(** A request header with one hop-by-hop field. *)
Definition sample_headers : Entries :=
  [("Accept", ["text/event-stream"]); ("Connection", ["keep-alive"]);
   ("X-Api-Key", ["k1"; "k2"])]%string.

End Router.

(** ** internal/apiformat: Anthropic Messages <-> OpenAI Chat Completions *)

Module Apiformat.

Import Runtime.

#[local] Set Warnings "-register-all".

(** A decoded JSON value ([any] after [json.Unmarshal]); an object keeps
    its members as a list, a later member shadowing an earlier one of the
    same name is not needed here. *)
Inductive json :=
| JNull
| JBool (b : bool)
| JNumber (literal : string)
| JString (s : string)
| JArray (items : list json)
| JObject (members : list (string * json)).

(** A [map[string]any]; [None] is the nil map. *)
Definition object := list (string * json).

Fixpoint member (o : object) (k : string) : option json :=
  match o with
  | [] => None
  | (k', v) :: o' => if String.eqb k' k then Some v else member o' k
  end.

(** [v, _ := o[k].(string)] *)
Definition member_string (o : object) (k : string) : string :=
  match member o k with
  | Some (JString s) => s
  | _ => ""
  end.

(** *** types.go *)

Module ContentBlock.
Record t := mk {
  Type_ : string;
  Text : string;
  Source : option object;
  ID : string;
  Name : string;
  Input : option object;
  ToolUseID : string;
  Content : string
}.
Definition text (s : string) : t := mk "text" s None "" "" None "" "".
Definition tool_use (id name : string) (input : object) : t :=
  mk "tool_use" "" None id name (Some input) "" "".
End ContentBlock.

Module Message.
Record t := mk {
  Role : string;
  Content : string
}.
End Message.

Module Usage.
Record t := mk {
  InputTokens : Z;
  OutputTokens : Z;
  CacheCreationInputTokens : Z;
  CacheReadInputTokens : Z
}.
End Usage.

Module MessagesResponse.
Record t := mk {
  ID : string;
  Type_ : string;
  Role : string;
  Model : string;
  Content : list ContentBlock.t;
  StopReason : string;
  StopSequence : option string;
  Usage : Usage.t
}.
End MessagesResponse.

Module OpenAIFunctionCall.
Record t := mk {
  Name : string;
  Arguments : string
}.
End OpenAIFunctionCall.

Module OpenAIToolCall.
Record t := mk {
  ID : string;
  Type_ : string;
  Function : OpenAIFunctionCall.t;
  Index : option Z
}.
End OpenAIToolCall.

Module OpenAIContentPart.
Record t := mk {
  Type_ : string;
  Text : string;
  ImageURL : option string
}.
End OpenAIContentPart.

(** The [Content any] field of an OpenAI message: nil, a string, the
    content parts a request carries, or any other decoded JSON value. *)
Inductive MessageContent :=
| ContentNil
| ContentString (s : string)
| ContentParts (parts : list OpenAIContentPart.t)
| ContentOther (v : json).

Module OpenAIMessage.
Record t := mk {
  Role : string;
  Content : MessageContent;
  ToolCalls : list OpenAIToolCall.t;
  ToolCallID : string
}.
End OpenAIMessage.

Module OpenAIChoice.
Record t := mk {
  Index : Z;
  Message : OpenAIMessage.t;
  FinishReason : string
}.
End OpenAIChoice.

Module OpenAIUsage.
Record t := mk {
  PromptTokens : Z;
  CompletionTokens : Z;
  TotalTokens : Z
}.
End OpenAIUsage.

Module OpenAIChatResponse.
Record t := mk {
  ID : string;
  Choices : list OpenAIChoice.t;
  Usage : OpenAIUsage.t
}.
End OpenAIChatResponse.

Module OpenAIChunkDelta.
Record t := mk {
  Role : string;
  Content : option string;
  ToolCalls : list OpenAIToolCall.t
}.
End OpenAIChunkDelta.

Module OpenAIChunkChoice.
Record t := mk {
  Index : Z;
  Delta : OpenAIChunkDelta.t;
  FinishReason : option string
}.
End OpenAIChunkChoice.

Module OpenAIChatChunk.
Record t := mk {
  ID : string;
  Choices : list OpenAIChunkChoice.t;
  Usage : option OpenAIUsage.t
}.
End OpenAIChatChunk.

(** *** response.go *)

(** [coalesce] for two arguments. *)
Definition coalesce (a b : string) : string :=
  if String.eqb a "" then (if String.eqb b "" then "" else b) else a.

Definition mapFinishReason (reason : string) : string :=
  if String.eqb reason "stop" then "end_turn"
  else if String.eqb reason "length" then "max_tokens"
  else if String.eqb reason "tool_calls" then "tool_use"
  else "end_turn".

(** [messageText].  A content of any other dynamic type goes through
    [json.Marshal] and back into a string variable, which fails for every
    value that is not a string, so the result is empty. *)
Definition messageText (msg : OpenAIMessage.t) : string :=
  match OpenAIMessage.Content msg with
  | ContentString v => v
  | _ => ""
  end.

Inductive ConvertError :=
| ErrParseResponse (cause : gerror)
| ErrNoChoices.

Section WithDecoders.

(** [json.Unmarshal] into an [OpenAIChatResponse] and into a
    [map[string]any]: the decoders of encoding/json are parameters.  The
    decoder of a map answers [None] for an error and otherwise the map it
    leaves, which is nil ([Some None]) for the document [null]. *)
Variable unmarshalResponse : string -> OpenAIChatResponse.t + gerror.
Variable unmarshalObject : string -> option (option object).

(** The hex strings that [randomHex(12)] draws during one call, by the
    number of the draw. *)
Variable randomHex : nat -> string.

Definition generateMessageID (draw : nat) : string := "msg_" +:+ randomHex draw.
Definition generateToolID (draw : nat) : string := "toolu_" +:+ randomHex draw.

(** [parseToolArguments]; the map it returns is nil when the arguments
    decode to nil. *)
Definition parseToolArguments (args : string) : option object :=
  if String.eqb args "" then Some []
  else match unmarshalObject args with
       | None => Some [("raw", JString args)]
       | Some m => m
       end.

(** The loop of [buildContentBlocks] over the tool calls; [draw] counts
    the random ids drawn so far. *)
Fixpoint toolUseBlocks (draw : nat) (calls : list OpenAIToolCall.t) : list ContentBlock.t :=
  match calls with
  | [] => []
  | tc :: rest =>
      ContentBlock.mk "tool_use" "" None
        (coalesce (OpenAIToolCall.ID tc) (generateToolID draw))
        (OpenAIFunctionCall.Name (OpenAIToolCall.Function tc))
        (parseToolArguments (OpenAIFunctionCall.Arguments (OpenAIToolCall.Function tc)))
        "" ""
      :: toolUseBlocks (S draw) rest
  end.

Definition buildContentBlocks (draw : nat) (msg : OpenAIMessage.t) : list ContentBlock.t :=
  let blocks :=
    (if String.eqb (messageText msg) "" then [] else [ContentBlock.text (messageText msg)])
    ++ toolUseBlocks draw (OpenAIMessage.ToolCalls msg) in
  match blocks with
  | [] => [ContentBlock.text ""]
  | _ => blocks
  end.

Definition ConvertResponse (body requestModel : string) : MessagesResponse.t + ConvertError :=
  match unmarshalResponse body with
  | inr err => inr (ErrParseResponse err)
  | inl resp =>
      match OpenAIChatResponse.Choices resp with
      | [] => inr ErrNoChoices
      | choice :: _ =>
          let content := buildContentBlocks 0 (OpenAIChoice.Message choice) in
          let stopReason := mapFinishReason (OpenAIChoice.FinishReason choice) in
          inl (MessagesResponse.mk
                 (coalesce (OpenAIChatResponse.ID resp)
                    (generateMessageID (length (OpenAIMessage.ToolCalls (OpenAIChoice.Message choice)))))
                 "message" "assistant" requestModel content stopReason None
                 (Usage.mk (OpenAIUsage.PromptTokens (OpenAIChatResponse.Usage resp))
                           (OpenAIUsage.CompletionTokens (OpenAIChatResponse.Usage resp)) 0 0))
      end
  end.

End WithDecoders.

(** *** request.go *)

(** [strings.Join]. *)
Fixpoint Join (parts : list string) (sep : string) : string :=
  match parts with
  | [] => ""
  | [part] => part
  | part :: rest => part +:+ sep +:+ Join rest sep
  end.

Inductive RequestError :=
| ErrSystemPrompt (cause : gerror)
| ErrMessageContent (cause : gerror)
| ErrMessage (role : string) (cause : RequestError).

(** [buildImageURL]. *)
Definition buildImageURL (source : option object) : string :=
  match source with
  | None => ""
  | Some source =>
      let srcType := member_string source "type" in
      let fromBase64 :=
        if String.eqb srcType "base64" then
          let mediaType := member_string source "media_type" in
          let data := member_string source "data" in
          if negb (String.eqb mediaType "") && negb (String.eqb data "")
          then Some ("data:" +:+ mediaType +:+ ";base64," +:+ data)
          else None
        else None in
      match fromBase64 with
      | Some url => url
      | None => if String.eqb srcType "url" then member_string source "url" else ""
      end
  end.

Section WithRequestDecoders.

(** [json.Unmarshal] of a raw message into a string, into a slice of
    content blocks, into a slice of [{type, text}] structs and into a
    [map[string]any] ([None]: it fails; [Some None]: it leaves the map
    nil), and [json.Marshal] of a map ([None]: it fails). *)
Variable unmarshalString : string -> option string.
Variable unmarshalBlocks : string -> list ContentBlock.t + gerror.
Variable unmarshalTextBlocks : string -> list (string * string) + gerror.
Variable unmarshalObject : string -> option (option object).
Variable marshalObject : option object -> option string.

(** [parseSystemPrompt]. *)
Definition parseSystemPrompt (raw : string) : string + RequestError :=
  match unmarshalString raw with
  | Some s => inl s
  | None =>
      match unmarshalTextBlocks raw with
      | inr err => inr (ErrSystemPrompt err)
      | inl blocks =>
          inl (Join (map snd (filter (fun b => String.eqb (fst b) "text"
                                               && negb (String.eqb (snd b) ""))
                                     blocks)) (String "010" (String "010" "")))
      end
  end.

(** [extractToolResultContent]. *)
Definition extractToolResultContent (raw : string) : string :=
  if String.eqb raw "" then ""
  else match unmarshalString raw with
  | Some s => s
  | None =>
      match unmarshalBlocks raw with
      | inl blocks =>
          Join (map ContentBlock.Text
                  (filter (fun b => String.eqb (ContentBlock.Type_ b) "text") blocks))
               (String "010" "")
      | inr _ =>
          match unmarshalObject raw with
          | Some obj => default "" (marshalObject obj)
          | None => raw
          end
      end
  end.

(** What the loop of [convertUserToolResults] writes to the string builder. *)
Fixpoint toolResultText (blocks : list ContentBlock.t) : string :=
  match blocks with
  | [] => ""
  | b :: rest =>
      (if String.eqb (ContentBlock.Type_ b) "text" then
         ContentBlock.Text b +:+ String "010" ""
       else if String.eqb (ContentBlock.Type_ b) "tool_result" then
         "Tool result for " +:+ ContentBlock.ToolUseID b +:+ String ":" (String "010" "")
         +:+ extractToolResultContent (ContentBlock.Content b) +:+ String "010" ""
       else "")
      +:+ toolResultText rest
  end.

Definition userMessage (content : MessageContent) : OpenAIMessage.t :=
  OpenAIMessage.mk "user" content [] "".

Definition convertUserToolResults (blocks : list ContentBlock.t)
  : list OpenAIMessage.t + RequestError :=
  let text := GoStrings.TrimSpace (toolResultText blocks) in
  let text := if String.eqb text "" then "..." else text in
  inl [userMessage (ContentString text)].

(** The loop of [convertUserBlocks] over text and image blocks. *)
Fixpoint contentParts (blocks : list ContentBlock.t) : list OpenAIContentPart.t :=
  match blocks with
  | [] => []
  | b :: rest =>
      if String.eqb (ContentBlock.Type_ b) "text" then
        OpenAIContentPart.mk "text" (ContentBlock.Text b) None :: contentParts rest
      else if String.eqb (ContentBlock.Type_ b) "image" then
        let url := buildImageURL (ContentBlock.Source b) in
        if String.eqb url "" then contentParts rest
        else OpenAIContentPart.mk "image_url" "" (Some url) :: contentParts rest
      else contentParts rest
  end.

Definition convertUserBlocks (blocks : list ContentBlock.t)
  : list OpenAIMessage.t + RequestError :=
  let hasToolResult :=
    existsb (fun b => String.eqb (ContentBlock.Type_ b) "tool_result") blocks in
  if hasToolResult then convertUserToolResults blocks
  else
    match contentParts blocks with
    | [part] =>
        if String.eqb (OpenAIContentPart.Type_ part) "text"
        then inl [userMessage (ContentString (OpenAIContentPart.Text part))]
        else inl [userMessage (ContentParts [part])]
    | parts => inl [userMessage (ContentParts parts)]
    end.

(** The loop of [convertAssistantBlocks]: the non-empty texts and the tool calls. *)
Fixpoint assistantParts (blocks : list ContentBlock.t)
  : list string * list OpenAIToolCall.t :=
  match blocks with
  | [] => ([], [])
  | b :: rest =>
      let '(textParts, toolCalls) := assistantParts rest in
      if String.eqb (ContentBlock.Type_ b) "text" then
        if String.eqb (ContentBlock.Text b) "" then (textParts, toolCalls)
        else (ContentBlock.Text b :: textParts, toolCalls)
      else if String.eqb (ContentBlock.Type_ b) "tool_use" then
        let args := default "{}" (marshalObject (ContentBlock.Input b)) in
        (textParts,
         OpenAIToolCall.mk (ContentBlock.ID b) "function"
           (OpenAIFunctionCall.mk (ContentBlock.Name b) args) None :: toolCalls)
      else (textParts, toolCalls)
  end.

Definition convertAssistantBlocks (blocks : list ContentBlock.t)
  : list OpenAIMessage.t + RequestError :=
  let '(textParts, toolCalls) := assistantParts blocks in
  let text := Join textParts (String "010" "") in
  inl [OpenAIMessage.mk "assistant"
         (if String.eqb text "" then ContentNil else ContentString text) toolCalls ""].

(** [convertOneMessage]. *)
Definition convertOneMessage (msg : Message.t) : list OpenAIMessage.t + RequestError :=
  match unmarshalString (Message.Content msg) with
  | Some textContent =>
      inl [OpenAIMessage.mk (Message.Role msg) (ContentString textContent) [] ""]
  | None =>
      match unmarshalBlocks (Message.Content msg) with
      | inr err => inr (ErrMessageContent err)
      | inl blocks =>
          if String.eqb (Message.Role msg) "user" then convertUserBlocks blocks
          else convertAssistantBlocks blocks
      end
  end.

(** The loop of [convertMessages] over the conversation. *)
Fixpoint convertEach (msgs : list Message.t) (out : list OpenAIMessage.t)
  : list OpenAIMessage.t + RequestError :=
  match msgs with
  | [] => inl out
  | msg :: rest =>
      match convertOneMessage msg with
      | inr err => inr (ErrMessage (Message.Role msg) err)
      | inl converted => convertEach rest (out ++ converted)
      end
  end.

(** [convertMessages]. *)
Definition convertMessages (system : string) (msgs : list Message.t)
  : list OpenAIMessage.t + RequestError :=
  if String.eqb system "" then convertEach msgs []
  else match parseSystemPrompt system with
       | inr err => inr err
       | inl sysText =>
           if String.eqb sysText "" then convertEach msgs []
           else convertEach msgs [OpenAIMessage.mk "system" (ContentString sysText) [] ""]
       end.

End WithRequestDecoders.

(** *** stream.go *)

(** The [content_block] of a [content_block_start] event. *)
Inductive Block :=
| TextBlock
| ToolUseBlock (id name : string).

Inductive Delta :=
| TextDelta (text : string)
| InputJSONDelta (partial_json : string).

(** What [Transform] writes: the Anthropic events, and the bare
    [data: [DONE]] line that follows [message_stop]. *)
Inductive Event :=
| MessageStart (id model : string)
| ContentBlockStart (index : Z) (block : Block)
| Ping
| ContentBlockDelta (index : Z) (delta : Delta)
| ContentBlockStop (index : Z)
| MessageDelta (stopReason : string) (outputTokens : Z)
| MessageStop
| DoneLine.

Record StreamAdapter := mkAdapter {
  requestModel : string;
  messageID : string;
  blockIndex : Z;
  textBlockOpen : bool;
  textBlockDone : bool;
  toolIndex : option Z;
  lastBlockIndex : Z;
  inputTokens : Z;
  outputTokens : Z;
  finished : bool
}.

(** The response writer and the random source of a stream: the events
    written so far, oldest first, and the number of random ids drawn. *)
Record Sink := mkSink {
  written : list Event;
  drawn : nat
}.

(** [writeSSE]: the event is written and flushed.  [json.Marshal] of the
    maps the emitters build does not fail, so the early return is not
    modelled.  [DoneLine], which [emitMessageStop] prints itself, is
    written the same way. *)
Definition writeSSE (ev : Event) (out : Sink) : Sink :=
  mkSink (written out ++ [ev]) (drawn out).

Section WithStreamDecoder.

(** [json.Unmarshal] of a payload into an [OpenAIChatChunk], and the
    random hex strings by the number of the draw. *)
Variable unmarshalChunk : string -> option OpenAIChatChunk.t.
Variable randomHex : nat -> string.

(** [NewStreamAdapter]; the message id is the first draw. *)
Definition NewStreamAdapter (model : string) : StreamAdapter * Sink :=
  (mkAdapter model ("msg_" +:+ randomHex 0) 0 false false None 0 0 0 false,
   mkSink [] 1).

Definition set_text (sa : StreamAdapter) (open done : bool) : StreamAdapter :=
  mkAdapter (requestModel sa) (messageID sa) (blockIndex sa) open done (toolIndex sa)
    (lastBlockIndex sa) (inputTokens sa) (outputTokens sa) (finished sa).

Definition set_tool (sa : StreamAdapter) (idx last : Z) : StreamAdapter :=
  mkAdapter (requestModel sa) (messageID sa) (blockIndex sa) (textBlockOpen sa)
    (textBlockDone sa) (Some idx) last (inputTokens sa) (outputTokens sa) (finished sa).

Definition set_usage (sa : StreamAdapter) (input output : Z) : StreamAdapter :=
  mkAdapter (requestModel sa) (messageID sa) (blockIndex sa) (textBlockOpen sa)
    (textBlockDone sa) (toolIndex sa) (lastBlockIndex sa) input output (finished sa).

Definition set_finished (sa : StreamAdapter) : StreamAdapter :=
  mkAdapter (requestModel sa) (messageID sa) (blockIndex sa) (textBlockOpen sa)
    (textBlockDone sa) (toolIndex sa) (lastBlockIndex sa) (inputTokens sa)
    (outputTokens sa) true.

(** One iteration of the loop of [processToolCalls]. *)
Definition processToolCall (tc : OpenAIToolCall.t) (st : StreamAdapter * Sink)
  : StreamAdapter * Sink :=
  let '(sa, out) := st in
  let idx := default 0 (OpenAIToolCall.Index tc) in
  let '(sa, out) :=
    if bool_decide (toolIndex sa = Some idx) then (sa, out)
    else
      let blockIdx := GoInt.wrap (lastBlockIndex sa + 1) in
      let '(toolID, out) :=
        if String.eqb (OpenAIToolCall.ID tc) ""
        then ("toolu_" +:+ randomHex (drawn out), mkSink (written out) (S (drawn out)))
        else (OpenAIToolCall.ID tc, out) in
      (set_tool sa idx blockIdx,
       writeSSE (ContentBlockStart blockIdx
                   (ToolUseBlock toolID (OpenAIFunctionCall.Name (OpenAIToolCall.Function tc))))
                out) in
  if String.eqb (OpenAIFunctionCall.Arguments (OpenAIToolCall.Function tc)) "" then (sa, out)
  else (sa, writeSSE (ContentBlockDelta (lastBlockIndex sa)
                        (InputJSONDelta (OpenAIFunctionCall.Arguments (OpenAIToolCall.Function tc))))
                     out).

(** [processToolCalls]. *)
Definition processToolCalls (toolCalls : list OpenAIToolCall.t) (st : StreamAdapter * Sink)
  : StreamAdapter * Sink :=
  let '(sa, out) := st in
  let st :=
    if bool_decide (toolIndex sa = None) && negb (textBlockDone sa)
    then (set_text sa (textBlockOpen sa) true, writeSSE (ContentBlockStop 0) out)
    else (sa, out) in
  foldl (fun st tc => processToolCall tc st) st toolCalls.

(** [handleFinish].  The loop closes the blocks [1..lastBlockIndex]. *)
Definition handleFinish (reason : string) (st : StreamAdapter * Sink) : StreamAdapter * Sink :=
  let '(sa, out) := st in
  if finished sa then (sa, out)
  else
    let sa := set_finished sa in
    let out := foldl (fun out i => writeSSE (ContentBlockStop i) out) out
                     (seqZ 1 (lastBlockIndex sa)) in
    let '(sa, out) :=
      if negb (textBlockDone sa)
      then (set_text sa (textBlockOpen sa) true, writeSSE (ContentBlockStop 0) out)
      else (sa, out) in
    let out := writeSSE (MessageDelta (mapFinishReason reason) (outputTokens sa)) out in
    (sa, writeSSE DoneLine (writeSSE MessageStop out)).

(** [finalize]. *)
Definition finalize (st : StreamAdapter * Sink) : StreamAdapter * Sink :=
  if finished (fst st) then st else handleFinish "stop" st.

(** [processChunk]. *)
Definition processChunk (chunk : OpenAIChatChunk.t) (st : StreamAdapter * Sink)
  : StreamAdapter * Sink :=
  let '(sa, out) := st in
  let sa :=
    match OpenAIChatChunk.Usage chunk with
    | Some usage =>
        set_usage sa (OpenAIUsage.PromptTokens usage) (OpenAIUsage.CompletionTokens usage)
    | None => sa
    end in
  match OpenAIChatChunk.Choices chunk with
  | [] => (sa, out)
  | choice :: _ =>
      let delta := OpenAIChunkChoice.Delta choice in
      let out :=
        match OpenAIChunkDelta.Content delta with
        | Some (String c text) =>
            if textBlockOpen sa && negb (textBlockDone sa)
            then writeSSE (ContentBlockDelta 0 (TextDelta (String c text))) out
            else out
        | _ => out
        end in
      let st :=
        match OpenAIChunkDelta.ToolCalls delta with
        | [] => (sa, out)
        | toolCalls => processToolCalls toolCalls (sa, out)
        end in
      match OpenAIChunkChoice.FinishReason choice with
      | Some reason => handleFinish reason st
      | None => st
      end
  end.

(** The scan loop of [Transform] over the lines the scanner yields. *)
Fixpoint scanLines (lines : list string) (st : StreamAdapter * Sink) : StreamAdapter * Sink :=
  match lines with
  | [] => st
  | line :: rest =>
      if negb (GoStrings.HasPrefix line "data: ") then scanLines rest st
      else
        let payload := String.substring 6 (String.length line - 6) line in
        if String.eqb payload "[DONE]" then st
        else match unmarshalChunk payload with
             | None => scanLines rest st
             | Some chunk => scanLines rest (processChunk chunk st)
             end
  end.

(** [StreamAdapter.Transform] on the lines the scanner yields before it
    stops and the error it stops with, if any. *)
Definition Transform (lines : list string) (scanErr : option gerror)
                     (st : StreamAdapter * Sink) : StreamAdapter * Sink * option gerror :=
  let '(sa, out) := st in
  let out := writeSSE (MessageStart (messageID sa) (requestModel sa)) out in
  let out := writeSSE (ContentBlockStart 0 TextBlock) out in
  let sa := set_text sa true (textBlockDone sa) in
  let out := writeSSE Ping out in
  (finalize (scanLines lines (sa, out)), scanErr).

End WithStreamDecoder.

(** *** Sample documents and what encoding/json decodes them to *)

(** JSON text is written with apostrophes for the double quotes. *)
Fixpoint quoted (s : string) : string :=
  match s with
  | EmptyString => EmptyString
  | String c s' => String (if Ascii.eqb c "'" then ascii_of_nat 34 else c) (quoted s')
  end.

(** A decoder given by a table of documents; other input is rejected. *)
Fixpoint decode_table {A : Type} (table : list (string * A)) (raw : string) : option A :=
  match table with
  | [] => None
  | (doc, v) :: table' => if String.eqb (quoted doc) raw then Some v else decode_table table' raw
  end.

Definition sample_hex (draw : nat) : string :=
  nth draw ["0123456789abcdef01234567"; "89abcdef0123456789abcdef"]%string
      "ffffffffffffffffffffffff"%string.

(** Scenario E3 of the specification, and a response without choices. *)
Definition sample_unmarshalResponse (raw : string) : OpenAIChatResponse.t + gerror :=
  match decode_table
    [("{'choices':[{'message':{'content':'Hello'},'finish_reason':'stop'}],'usage':{'prompt_tokens':2,'completion_tokens':1,'total_tokens':3}}"%string,
      OpenAIChatResponse.mk ""
        [OpenAIChoice.mk 0 (OpenAIMessage.mk "" (ContentString "Hello") [] "") "stop"]
        (OpenAIUsage.mk 2 1 3));
     ("{'id':'chatcmpl-2','choices':[]}"%string,
      OpenAIChatResponse.mk "chatcmpl-2" [] (OpenAIUsage.mk 0 0 0))] raw with
  | Some resp => inl resp
  | None => inr "invalid character"%string
  end.

(** A user message with a blank text block and one tool result. *)
Definition sample_tool_result_content : string :=
  quoted "[{'type':'text','text':' '},{'type':'tool_result','tool_use_id':'toolu_01','content':'42'}]".

Definition sample_tool_result_blocks : list ContentBlock.t :=
  [ContentBlock.text " ";
   ContentBlock.mk "tool_result" "" None "" "" None "toolu_01" (quoted "'42'")].

Definition sample_unmarshalString : string -> option string :=
  decode_table [("'42'", "42"); ("'Hi'", "Hi")]%string.

Definition sample_unmarshalBlocks (raw : string) : list ContentBlock.t + gerror :=
  match decode_table
          [("[{'type':'text','text':' '},{'type':'tool_result','tool_use_id':'toolu_01','content':'42'}]"%string,
            sample_tool_result_blocks)] raw with
  | Some blocks => inl blocks
  | None => inr "json: cannot unmarshal into Go value of type []apiformat.ContentBlock"%string
  end.

(** The chunks of a stream with one tool call (scenario E4 of the
    specification), a chunk that only finishes, and a late tool call. *)
Definition chunk (content : option string) (toolCalls : list OpenAIToolCall.t)
                 (finish : option string) : OpenAIChatChunk.t :=
  OpenAIChatChunk.mk "chatcmpl-1"
    [OpenAIChunkChoice.mk 0 (OpenAIChunkDelta.mk "" content toolCalls) finish] None.

Definition sample_unmarshalChunk : string -> option OpenAIChatChunk.t :=
  decode_table
    [("{'id':'chatcmpl-1','choices':[{'index':0,'delta':{'content':'Let'}}]}",
      chunk (Some "Let") [] None);
     ("{'id':'chatcmpl-1','choices':[{'index':0,'delta':{'content':' me'}}]}",
      chunk (Some " me") [] None);
     ("{'id':'chatcmpl-1','choices':[{'index':0,'delta':{'tool_calls':[{'index':0,'id':'tc1','function':{'name':'sum','arguments':'{\'a\':'}}]}}]}",
      chunk None [OpenAIToolCall.mk "tc1" ""
                    (OpenAIFunctionCall.mk "sum" (quoted "{'a':")) (Some 0)] None);
     ("{'id':'chatcmpl-1','choices':[{'index':0,'delta':{'tool_calls':[{'index':0,'function':{'arguments':'1}'}}]}}]}",
      chunk None [OpenAIToolCall.mk "" "" (OpenAIFunctionCall.mk "" "1}") (Some 0)] None);
     ("{'id':'chatcmpl-1','choices':[{'index':0,'delta':{},'finish_reason':'tool_calls'}]}",
      chunk None [] (Some "tool_calls"));
     ("{'id':'chatcmpl-1','choices':[{'index':0,'delta':{},'finish_reason':'stop'}]}",
      chunk None [] (Some "stop"));
     ("{'id':'chatcmpl-1','choices':[{'index':0,'delta':{'tool_calls':[{'index':0,'id':'tc9','function':{'name':'sum','arguments':'{}'}}]}}]}",
      chunk None [OpenAIToolCall.mk "tc9" "" (OpenAIFunctionCall.mk "sum" "{}") (Some 0)] None)
    ]%string.

Definition data_line (doc : string) : string := "data: " +:+ quoted doc.

Definition transform (lines : list string) : list Event :=
  written (snd (fst (Transform sample_unmarshalChunk sample_hex lines None
                       (NewStreamAdapter sample_hex "claude-sonnet")))).

(** The upstream lines of scenario E4, and a stream whose tool call
    arrives after the chunk that carries finish_reason. *)
Definition one_tool_call_stream : list string :=
  [data_line "{'id':'chatcmpl-1','choices':[{'index':0,'delta':{'content':'Let'}}]}";
   "";
   data_line "{'id':'chatcmpl-1','choices':[{'index':0,'delta':{'content':' me'}}]}";
   data_line "{'id':'chatcmpl-1','choices':[{'index':0,'delta':{'tool_calls':[{'index':0,'id':'tc1','function':{'name':'sum','arguments':'{\'a\':'}}]}}]}";
   data_line "{'id':'chatcmpl-1','choices':[{'index':0,'delta':{'tool_calls':[{'index':0,'function':{'arguments':'1}'}}]}}]}";
   data_line "{'id':'chatcmpl-1','choices':[{'index':0,'delta':{},'finish_reason':'tool_calls'}]}";
   "data: [DONE]"]%string.

Definition late_tool_call_stream : list string :=
  [data_line "{'id':'chatcmpl-1','choices':[{'index':0,'delta':{},'finish_reason':'stop'}]}";
   data_line "{'id':'chatcmpl-1','choices':[{'index':0,'delta':{'tool_calls':[{'index':0,'id':'tc9','function':{'name':'sum','arguments':'{}'}}]}}]}"]%string.

Definition opened_before (evs : list Event) (n : nat) (i : Z) : Prop :=
  exists a b, (a < n)%nat /\ evs !! a = Some (ContentBlockStart i b).

Definition closed_after (evs : list Event) (n : nat) (i : Z) : Prop :=
  exists c, (n < c)%nat /\ evs !! c = Some (ContentBlockStop i).

(** The ordering the specification asks of the written events: every
    [content_block_delta] at an index lies after a [content_block_start]
    and before a [content_block_stop] of that index, and the stream ends
    with [message_stop] followed by the [DONE] line. *)
Definition bracketed (evs : list Event) : Prop :=
  forall n i d, evs !! n = Some (ContentBlockDelta i d) ->
    opened_before evs n i /\ closed_after evs n i.

Definition stops_last (evs : list Event) : Prop :=
  exists before, evs = before ++ [MessageStop; DoneLine].

(** The chunks that the scan loop of [Transform] hands to [processChunk]. *)
Fixpoint decodedChunks (unmarshalChunk : string -> option OpenAIChatChunk.t)
                       (lines : list string) : list OpenAIChatChunk.t :=
  match lines with
  | [] => []
  | line :: rest =>
      if negb (GoStrings.HasPrefix line "data: ") then decodedChunks unmarshalChunk rest
      else
        let payload := String.substring 6 (String.length line - 6) line in
        if String.eqb payload "[DONE]" then []
        else match unmarshalChunk payload with
             | None => decodedChunks unmarshalChunk rest
             | Some chunk => chunk :: decodedChunks unmarshalChunk rest
             end
  end.

(** The tool calls in the first choice of a chunk, and whether it carries
    a finish_reason. *)
Definition toolCallsOf (chunk : OpenAIChatChunk.t) : list OpenAIToolCall.t :=
  match OpenAIChatChunk.Choices chunk with
  | [] => []
  | choice :: _ => OpenAIChunkDelta.ToolCalls (OpenAIChunkChoice.Delta choice)
  end.

Definition finishes (chunk : OpenAIChatChunk.t) : bool :=
  match OpenAIChatChunk.Choices chunk with
  | [] => false
  | choice :: _ => bool_decide (is_Some (OpenAIChunkChoice.FinishReason choice))
  end.

(** No tool call arrives after the first chunk that carries finish_reason. *)
Fixpoint quietAfterFinish (chunks : list OpenAIChatChunk.t) : bool :=
  match chunks with
  | [] => true
  | chunk :: rest =>
      if finishes chunk then forallb (fun c => bool_decide (toolCallsOf c = [])) rest
      else quietAfterFinish rest
  end.

Definition toolCallCount (chunks : list OpenAIChatChunk.t) : nat :=
  length (concat (map toolCallsOf chunks)).

(** The state of an adapter that has not seen a finish_reason, with the
    events written so far. *)
Definition streaming (sa : StreamAdapter) (evs : list Event) : Prop :=
  finished sa = false /\
  textBlockOpen sa = true /\
  0 <= lastBlockIndex sa /\
  opened_before evs (length evs) 0 /\
  (is_Some (toolIndex sa) ->
     1 <= lastBlockIndex sa /\ opened_before evs (length evs) (lastBlockIndex sa)) /\
  (forall n i d, evs !! n = Some (ContentBlockDelta i d) ->
     opened_before evs n i /\ (i = 0 \/ 1 <= i <= lastBlockIndex sa)) /\
  (textBlockDone sa = true ->
     forall n d, evs !! n = Some (ContentBlockDelta 0 d) -> closed_after evs n 0).

(** The state after the closing sequence. *)
Definition closed (sa : StreamAdapter) (evs : list Event) : Prop :=
  finished sa = true /\ textBlockDone sa = true /\ bracketed evs /\ stops_last evs.

(** The events that the closing sequence appends. *)
Definition closing (sa : StreamAdapter) (reason : string) : list Event :=
  map ContentBlockStop (seqZ 1 (lastBlockIndex sa))
  ++ (if textBlockDone sa then [] else [ContentBlockStop 0])
  ++ [MessageDelta (mapFinishReason reason) (outputTokens sa); MessageStop; DoneLine].

(** *** What a stream reports, by kind of event *)

(** The events of the closing sequence that end the message. *)
Definition is_closing (ev : Event) : bool :=
  match ev with
  | MessageDelta _ _ | MessageStop | DoneLine => true
  | _ => false
  end.

(** The events of the text block after its start: the text deltas and the
    stop of block 0. *)
Definition is_text_event (ev : Event) : bool :=
  match ev with
  | ContentBlockDelta _ (TextDelta _) => true
  | ContentBlockStop i => i =? 0
  | _ => false
  end.

(** The events that [processToolCall] writes. *)
Definition is_tool_event (ev : Event) : bool :=
  match ev with
  | ContentBlockStart _ (ToolUseBlock _ _) => true
  | ContentBlockDelta _ (InputJSONDelta _) => true
  | _ => false
  end.

Definition startIndex (ev : Event) : option Z :=
  match ev with
  | ContentBlockStart i _ => Some i
  | _ => None
  end.

Definition stopIndex (ev : Event) : option Z :=
  match ev with
  | ContentBlockStop i => Some i
  | _ => None
  end.

(** The finish_reason of the first chunk that carries one (["stop"] when
    none does) and the completion tokens of the last usage seen up to and
    including that chunk, starting from [tokens]. *)
Fixpoint closingReport (tokens : Z) (chunks : list OpenAIChatChunk.t) : string * Z :=
  match chunks with
  | [] => ("stop"%string, tokens)
  | chunk :: rest =>
      let tokens :=
        match OpenAIChatChunk.Usage chunk with
        | Some usage => OpenAIUsage.CompletionTokens usage
        | None => tokens
        end in
      match OpenAIChatChunk.Choices chunk with
      | [] => closingReport tokens rest
      | choice :: _ =>
          match OpenAIChunkChoice.FinishReason choice with
          | Some reason => (reason, tokens)
          | None => closingReport tokens rest
          end
      end
  end.

(** The non-empty contents that arrive while the text block is open: up
    to and including the first chunk that carries a tool call or a
    finish_reason. *)
Fixpoint streamedText (chunks : list OpenAIChatChunk.t) : list string :=
  match chunks with
  | [] => []
  | chunk :: rest =>
      match OpenAIChatChunk.Choices chunk with
      | [] => streamedText rest
      | choice :: _ =>
          let delta := OpenAIChunkChoice.Delta choice in
          match OpenAIChunkDelta.Content delta with
          | Some (String c text) => [String c text]
          | _ => []
          end
          ++ match OpenAIChunkDelta.ToolCalls delta, OpenAIChunkChoice.FinishReason choice with
             | [], None => streamedText rest
             | _, _ => []
             end
      end
  end.

(** The adapter fields that tool calls leave alone. *)
Definition same_message (sa sa' : StreamAdapter) : Prop :=
  requestModel sa' = requestModel sa /\ messageID sa' = messageID sa /\
  textBlockOpen sa' = textBlockOpen sa /\ textBlockDone sa' = textBlockDone sa /\
  outputTokens sa' = outputTokens sa /\ finished sa' = finished sa.

(** The tool blocks that [evs] starts while the adapter goes from [sa] to
    [sa']: as long as the block counter cannot overflow over [n] tool
    calls, they are the next [k <= n] blocks. *)
Definition opens (sa sa' : StreamAdapter) (evs : list Event) (n : nat) : Prop :=
  0 <= lastBlockIndex sa -> lastBlockIndex sa + Z.of_nat n <= GoInt.max_int ->
  exists k, 0 <= k <= Z.of_nat n /\ lastBlockIndex sa' = lastBlockIndex sa + k /\
            omap startIndex evs = seqZ (lastBlockIndex sa + 1) k.

(** *** request.go: [ConvertRequest], tools and tool choice *)

Module Tool.
Record t := mk {
  Name : string;
  Description : string;
  InputSchema : option object
}.
End Tool.

(** [OpenAITool] with its [OpenAIFunction]. *)
Module OpenAITool.
Record t := mk {
  Type_ : string;
  Name : string;
  Description : string;
  Parameters : option object
}.
End OpenAITool.

(** [MessagesRequest], as far as [ConvertRequest] and the handler read it.
    A [*float64] is kept as its decimal literal; an absent raw message is
    the empty string. *)
Module MessagesRequest.
Record t := mk {
  Model : string;
  MaxTokens : Z;
  Messages : list Message.t;
  System : string;
  StopSequences : list string;
  Stream : bool;
  Temperature : option string;
  TopP : option string;
  TopK : option Z;
  Tools : list Tool.t;
  ToolChoice : string
}.
End MessagesRequest.

(** The [ToolChoice any] of an OpenAI request: a string, or the object
    that names a function. *)
Inductive ToolChoice :=
| ChoiceString (s : string)
| ChoiceFunction (name : string).

(** [OpenAIChatRequest]; [StreamOptions] holds [IncludeUsage]. *)
Module OpenAIChatRequest.
Record t := mk {
  Model : string;
  Messages : list OpenAIMessage.t;
  MaxTokens : Z;
  Temperature : option string;
  TopP : option string;
  TopK : option Z;
  Stream : bool;
  Stop : list string;
  Tools : list OpenAITool.t;
  ToolChoice : option ToolChoice;
  StreamOptions : option bool
}.
End OpenAIChatRequest.

(** [convertTools]. *)
Definition convertTools (tools : list Tool.t) : list OpenAITool.t :=
  map (fun t => OpenAITool.mk "function" (Tool.Name t) (Tool.Description t)
                  (Tool.InputSchema t)) tools.

Inductive ConvertRequestError :=
| ErrConvertingMessages (cause : RequestError)
| ErrConvertingToolChoice (cause : gerror)
| ErrMarshalRequest (cause : gerror).

Section WithRequestEncoders.

Variable unmarshalString : string -> option string.
Variable unmarshalBlocks : string -> list ContentBlock.t + gerror.
Variable unmarshalTextBlocks : string -> list (string * string) + gerror.
Variable unmarshalObject : string -> option (option object).
Variable marshalObject : option object -> option string.

(** [json.Unmarshal] of a raw tool choice into its [{type, name}] struct,
    and [json.Marshal] of the finished request. *)
Variable unmarshalToolChoice : string -> option (string * string).
Variable marshalRequest : OpenAIChatRequest.t -> string + gerror.

(** [convertToolChoice]. *)
Definition convertToolChoice (raw : string) : ToolChoice + gerror :=
  match unmarshalToolChoice raw with
  | None => inl (ChoiceString "auto")
  | Some (type, name) =>
      if String.eqb type "auto" || String.eqb type "" then inl (ChoiceString "auto")
      else if String.eqb type "any" then inl (ChoiceString "required")
      else if String.eqb type "tool" then
        if String.eqb name "" then inl (ChoiceString "auto") else inl (ChoiceFunction name)
      else inl (ChoiceString "auto")
  end.

(** [ConvertRequest]. *)
Definition ConvertRequest (req : MessagesRequest.t) (modelOverride : string)
  : string + ConvertRequestError :=
  let model :=
    if negb (String.eqb modelOverride "") then modelOverride else MessagesRequest.Model req in
  match convertMessages unmarshalString unmarshalBlocks unmarshalTextBlocks unmarshalObject
          marshalObject (MessagesRequest.System req) (MessagesRequest.Messages req) with
  | inr err => inr (ErrConvertingMessages err)
  | inl messages =>
      let streamOptions := if MessagesRequest.Stream req then Some true else None in
      let tools :=
        match MessagesRequest.Tools req with
        | [] => []
        | tools => convertTools tools
        end in
      let choice : option ToolChoice + gerror :=
        if String.eqb (MessagesRequest.ToolChoice req) "" then inl None
        else match convertToolChoice (MessagesRequest.ToolChoice req) with
             | inl c => inl (Some c)
             | inr err => inr err
             end in
      match choice with
      | inr err => inr (ErrConvertingToolChoice err)
      | inl toolChoice =>
          match marshalRequest
                  (OpenAIChatRequest.mk model messages (MessagesRequest.MaxTokens req)
                     (MessagesRequest.Temperature req) (MessagesRequest.TopP req)
                     (MessagesRequest.TopK req) (MessagesRequest.Stream req)
                     (MessagesRequest.StopSequences req) tools toolChoice streamOptions) with
          | inr err => inr (ErrMarshalRequest err)
          | inl body => inl body
          end
      end
  end.

End WithRequestEncoders.

Definition is_tool_use (b : ContentBlock.t) : bool :=
  String.eqb (ContentBlock.Type_ b) "tool_use".

Definition is_text (b : ContentBlock.t) : bool :=
  String.eqb (ContentBlock.Type_ b) "text".

(** The tool-use blocks a client sends back in an assistant turn: the
    blocks that [ContentBlock.tool_use] builds with a non-empty id. *)
Definition echoed_tool_use (b : ContentBlock.t) : Prop :=
  is_tool_use b = true ->
  exists id name input, id <> ""%string /\ b = ContentBlock.tool_use id name input.

(** An assistant turn that calls a tool, the message it is converted to,
    and a JSON codec for the one input object it carries. *)
Definition sample_input : object := [("a"%string, JNumber "1")].

Definition sample_marshalObject (o : option object) : option string :=
  match o with
  | Some [(k, JNumber literal)] =>
      if String.eqb k "a" && String.eqb literal "1" then Some (quoted "{'a':1}") else None
  | _ => None
  end.

Definition sample_unmarshalObject : string -> option (option object) :=
  decode_table [("{'a':1}"%string, Some sample_input); ("null"%string, None)].

Definition sample_assistant_blocks : list ContentBlock.t :=
  [ContentBlock.text "Let me add."; ContentBlock.tool_use "toolu_01" "sum" sample_input].

Definition sample_assistant_message : OpenAIMessage.t :=
  OpenAIMessage.mk "assistant" (ContentString "Let me add.")
    [OpenAIToolCall.mk "toolu_01" "function"
       (OpenAIFunctionCall.mk "sum" (quoted "{'a':1}")) None] "".

(** A response whose first choice calls two tools, the second without an
    id and with the arguments [null], and the message it converts to. *)
Definition sample_tool_response_doc : string :=
  quoted "{'id':'chatcmpl-3','choices':[{'message':{'tool_calls':[{'id':'tc1','function':{'name':'sum','arguments':'{\'a\':1}'}},{'function':{'name':'now','arguments':'null'}}]},'finish_reason':'tool_calls'}]}".

Definition sample_unmarshalToolResponse (raw : string) : OpenAIChatResponse.t + gerror :=
  if String.eqb raw sample_tool_response_doc
  then inl (OpenAIChatResponse.mk "chatcmpl-3"
              [OpenAIChoice.mk 0
                 (OpenAIMessage.mk "assistant" ContentNil
                    [OpenAIToolCall.mk "tc1" "" (OpenAIFunctionCall.mk "sum" (quoted "{'a':1}"))
                       None;
                     OpenAIToolCall.mk "" "" (OpenAIFunctionCall.mk "now" "null") None] "")
                 "tool_calls"]
              (OpenAIUsage.mk 0 0 0))
  else inr "invalid character"%string.

Definition sample_tool_message : MessagesResponse.t :=
  match ConvertResponse sample_unmarshalToolResponse sample_unmarshalObject sample_hex
          sample_tool_response_doc "claude-sonnet" with
  | inl out => out
  | inr _ => MessagesResponse.mk "" "" "" "" [] "" None (Usage.mk 0 0 0 0)
  end.

End Apiformat.

(** ** internal/server/handlers/proxy_anthropic.go: the Anthropic endpoints *)

Module Handlers.

Import Runtime.

(** [apiformat.TokenCountRequest], as far as the handler reads it. *)
Module TokenCountRequest.
Record t := mk {
  Model : string
}.
End TokenCountRequest.

(** The JSON document a handler writes. *)
Inductive Body :=
| TokenCountResponse (InputTokens : Z)
| AnthropicError (errType message : string).

Record Response := mkResponse {
  StatusCode : Z;
  ContentType : string;
  Payload : Body
}.

Definition writeAnthropicError (statusCode : Z) (errType message : string) : Response :=
  mkResponse statusCode "application/json" (AnthropicError errType message).

Section WithDecoder.

(** [json.Unmarshal(bodyBytes, &req)] for a [TokenCountRequest]. *)
Variable unmarshalTokenCountRequest : string -> TokenCountRequest.t + gerror.

(** [AnthropicHandler.HandleCountTokens]; [body] is what [io.ReadAll]
    returns, the bytes of the request body or an error. *)
Definition HandleCountTokens (method : string) (body : string + gerror) : Response :=
  if negb (String.eqb method "POST")
  then writeAnthropicError 405 "invalid_request_error" "Only POST method is allowed"
  else match body with
  | inr _ => writeAnthropicError 400 "invalid_request_error" "Failed to read request body"
  | inl bodyBytes =>
      match unmarshalTokenCountRequest bodyBytes with
      | inr err =>
          writeAnthropicError 400 "invalid_request_error" ("Invalid JSON: " +:+ err)
      | inl req =>
          let charCount := Z.of_nat (String.length bodyBytes) in
          let estimatedTokens := Z.quot charCount 4 in
          let estimatedTokens := if estimatedTokens <? 1 then 1 else estimatedTokens in
          mkResponse 200 "application/json" (TokenCountResponse estimatedTokens)
      end
  end.

End WithDecoder.

(** [ceil(L / 4)], the estimate the specification states. *)
Definition ceil_quarter (L : Z) : Z := (L + 3) / 4.

(** Braces with spaces between them: JSON documents that decode to the
    zero [TokenCountRequest]. *)
Fixpoint all_spaces (s : string) : bool :=
  match s with
  | EmptyString => true
  | String c s' => Ascii.eqb c " " && all_spaces s'
  end.

(** The decoder restricted to the documents [{ }] (an opening brace,
    spaces, a closing brace), on which [json.Unmarshal] succeeds and
    leaves the request at its zero value; other bodies are rejected
    here. *)
Definition decode_empty_object (body : string) : TokenCountRequest.t + gerror :=
  match body with
  | String "{" rest =>
      match rev (list_ascii_of_string rest) with
      | "}"%char :: inner =>
          if all_spaces (string_of_list_ascii inner)
          then inl (TokenCountRequest.mk "")
          else inr "json: unsupported document"%string
      | _ => inr "unexpected end of JSON input"%string
      end
  | _ => inr "json: unsupported document"%string
  end.

(** *** [HandleMessages] *)

(** [http.Response], as far as the handler reads it: the status code and
    the body, a stream of type [Reader] that is read once. *)
Module BackendResponse.
Record t (Reader : Type) := mk {
  StatusCode : Z;
  Body : Reader
}.
Arguments mk {Reader} _ _.
Arguments StatusCode {Reader} _.
Arguments Body {Reader} _.
End BackendResponse.

(** What [HandleMessages] and the functions it calls use from outside
    this repository: [strings.ToLower], [http.CanonicalHeaderKey], the
    [%q] verb of fmt, [http.NewRequestWithContext] (its error), the
    [Do] of the HTTP client, [io.ReadAll] (the bytes read and the error
    that ended the read, if any), a [bufio.Scanner] over a body (its
    lines and its error), [json.Unmarshal] and [json.Marshal] at the
    types they are called at, and the random hex strings of the ids.
    [unmarshalBackendError] decodes the [error] member of a document:
    [None] when the document does not parse, [JNull] for nil.
    [acquireSlot] is the wait on the semaphore of an instance, whose
    outcome the other requests decide. *)
Class Services (Reader : Type) := {
  ToLower : string -> string;
  CanonicalMIMEHeaderKey : string -> string;
  Quote : string -> string;
  acquireSlot : string -> Z -> option gerror;
  NewRequest : string -> string -> option gerror;
  Do : Router.ProxyRequest -> BackendResponse.t Reader + gerror;
  ReadAll : Reader -> string * option gerror;
  scan : Reader -> list string * option gerror;
  randomHex : nat -> string;
  unmarshalMessagesRequest : string -> Apiformat.MessagesRequest.t + gerror;
  unmarshalString : string -> option string;
  unmarshalBlocks : string -> list Apiformat.ContentBlock.t + gerror;
  unmarshalTextBlocks : string -> list (string * string) + gerror;
  unmarshalObject : string -> option (option Apiformat.object);
  marshalObject : option Apiformat.object -> option string;
  unmarshalToolChoice : string -> option (string * string);
  marshalRequest : Apiformat.OpenAIChatRequest.t -> string + gerror;
  unmarshalResponse : string -> Apiformat.OpenAIChatResponse.t + gerror;
  unmarshalChunk : string -> option Apiformat.OpenAIChatChunk.t;
  unmarshalBackendError : string -> option Apiformat.json
}.

(** The text of an error value, as [fmt.Errorf] built it where the error
    was made. *)
Fixpoint requestErrorText (Quote : string -> string) (err : Apiformat.RequestError) : string :=
  match err with
  | Apiformat.ErrSystemPrompt cause =>
      "system must be a string or array of text blocks: " +:+ cause
  | Apiformat.ErrMessageContent cause =>
      "content must be a string or array of content blocks: " +:+ cause
  | Apiformat.ErrMessage role cause =>
      "message role=" +:+ Quote role +:+ ": " +:+ requestErrorText Quote cause
  end.

Definition convertRequestErrorText (Quote : string -> string)
                                   (err : Apiformat.ConvertRequestError) : string :=
  match err with
  | Apiformat.ErrConvertingMessages cause =>
      "converting messages: " +:+ requestErrorText Quote cause
  | Apiformat.ErrConvertingToolChoice cause => "converting tool_choice: " +:+ cause
  | Apiformat.ErrMarshalRequest cause => cause
  end.

Definition forwardErrorText (err : Router.ForwardError) : string :=
  match err with
  | Router.ErrCreatingProxyRequest cause => "creating proxy request: " +:+ cause
  | Router.ErrClient cause => cause
  end.

Definition convertErrorText (err : Apiformat.ConvertError) : string :=
  match err with
  | Apiformat.ErrParseResponse cause => "parsing OpenAI response: " +:+ cause
  | Apiformat.ErrNoChoices => "OpenAI response contains no choices"
  end.

(** What a handler of /v1/messages writes to the client: an error by
    [writeAnthropicError]; or, with status 200 and Content-Type
    application/json, a message; or, with status 200 and the headers
    Content-Type text/event-stream, Cache-Control no-cache and Connection
    keep-alive, a stream of events. *)
Inductive Reply :=
| ErrorReply (response : Response)
| MessageReply (message : Apiformat.MessagesResponse.t)
| StreamReply (events : list Apiformat.Event).

(** The status code written with a reply. *)
Definition replyStatus (reply : Reply) : Z :=
  match reply with
  | ErrorReply response => StatusCode response
  | MessageReply _ => 200
  | StreamReply _ => 200
  end.

(** What a handler does besides writing its reply, in the order in which
    it happens. *)
Inductive Effect :=
| AcquireSlot (instanceID : string) (maxConcurrency : Z)
| Forward (request : Router.ProxyRequest)
| CloseResponseBody
| ReleaseSlot (instanceID : string) (maxConcurrency : Z)
| CloseRequestBody.

Definition Handled : Type := Reply * list Effect.

(** A [return] after the reply is written. *)
Definition answer (reply : Reply) : Handled := (reply, []).

(** [effects] happen, then the rest of the function runs. *)
Definition first (effects : list Effect) (rest : Handled) : Handled :=
  (fst rest, effects ++ snd rest).

(** [defer]: [effects] happen when the rest of the function has returned. *)
Definition defer (effects : list Effect) (rest : Handled) : Handled :=
  (fst rest, snd rest ++ effects).

(** The slot that [AcquireConcurrency] took, and its release function;
    there is none for an instance without a limit. *)
Definition acquired (slot : Router.Slot) : list Effect :=
  match slot with
  | Router.Unlimited => []
  | Router.Acquired instanceID maxConcurrency => [AcquireSlot instanceID maxConcurrency]
  end.

Definition release (slot : Router.Slot) : list Effect :=
  match slot with
  | Router.Unlimited => []
  | Router.Acquired instanceID maxConcurrency => [ReleaseSlot instanceID maxConcurrency]
  end.

Section WithServices.

Context {W : Type} {backend : Scheduler.Backend W}.
Context {Reader : Type} {services : Services Reader}.

(** [AnthropicHandler.handleStreamingResponse]; [flusher] tells whether
    the response writer is an [http.Flusher]. *)
Definition handleStreamingResponse (flusher : bool) (resp : BackendResponse.t Reader)
                                   (requestModel : string) : Reply :=
  if negb flusher
  then ErrorReply (writeAnthropicError 500 "api_error" "Streaming not supported")
  else
    let '(lines, scanErr) := scan (BackendResponse.Body resp) in
    let adapter := Apiformat.NewStreamAdapter randomHex requestModel in
    let '(_, out, _) := Apiformat.Transform unmarshalChunk randomHex lines scanErr adapter in
    StreamReply (Apiformat.written out).

(** [AnthropicHandler.handleBufferedResponse]. *)
Definition handleBufferedResponse (resp : BackendResponse.t Reader) (requestModel : string)
  : Reply :=
  match ReadAll (BackendResponse.Body resp) with
  | (_, Some _) =>
      ErrorReply (writeAnthropicError 502 "api_error" "Failed to read backend response")
  | (respBody, None) =>
      match Apiformat.ConvertResponse unmarshalResponse unmarshalObject randomHex
              respBody requestModel with
      | inr err =>
          ErrorReply (writeAnthropicError 500 "api_error"
                        ("Failed to convert response: " +:+ convertErrorText err))
      | inl anthropicResp => MessageReply anthropicResp
      end
  end.

(** [AnthropicHandler.forwardBackendError]. *)
Definition forwardBackendError (resp : BackendResponse.t Reader) : Reply :=
  let body := fst (ReadAll (BackendResponse.Body resp)) in
  let errMsg := "Backend returned HTTP " +:+ GoStrings.Itoa (BackendResponse.StatusCode resp) in
  let errMsg :=
    if (0 <? String.length body)%nat then
      match unmarshalBackendError body with
      | Some (Apiformat.JString v) => v
      | Some (Apiformat.JObject v) =>
          match Apiformat.member v "message" with
          | Some (Apiformat.JString msg) => msg
          | _ => errMsg
          end
      | _ => errMsg
      end
    else errMsg in
  ErrorReply (writeAnthropicError (BackendResponse.StatusCode resp) "api_error" errMsg).

(** The reply of [HandleMessages] to a response of the backend. *)
Definition replyTo (req : Apiformat.MessagesRequest.t) (flusher : bool)
                   (resp : BackendResponse.t Reader) : Reply :=
  if 400 <=? BackendResponse.StatusCode resp then forwardBackendError resp
  else if Apiformat.MessagesRequest.Stream req
  then handleStreamingResponse flusher resp (Apiformat.MessagesRequest.Model req)
  else handleBufferedResponse resp (Apiformat.MessagesRequest.Model req).

(** The part of [HandleMessages] that runs while the slot is held: the
    conversion of the request, the exchange with the backend and the
    reply. *)
Definition exchange (req : Apiformat.MessagesRequest.t) (header : Router.Entries)
                    (flusher : bool) (instance : Instance.t) : Handled :=
  let backendModel := Instance.Alias instance in
  let backendModel :=
    if String.eqb backendModel "" then Instance.ModelID instance else backendModel in
  match Apiformat.ConvertRequest unmarshalString unmarshalBlocks unmarshalTextBlocks
          unmarshalObject marshalObject unmarshalToolChoice marshalRequest req
          backendModel with
  | inr err =>
      answer (ErrorReply (writeAnthropicError 400 "invalid_request_error"
                            ("Failed to convert request: "
                             +:+ convertRequestErrorText Quote err)))
  | inl openaiBody =>
      let request :=
        Router.proxyRequest CanonicalMIMEHeaderKey "POST" "/v1/chat/completions" ""
          openaiBody header instance in
      match Router.ForwardRequest CanonicalMIMEHeaderKey (BackendResponse.t Reader)
              NewRequest Do "POST" "/v1/chat/completions" "" openaiBody header instance with
      | inr err =>
          first (match err with
                 | Router.ErrCreatingProxyRequest _ => []
                 | Router.ErrClient _ => [Forward request]
                 end)
            (answer (ErrorReply
                       (writeAnthropicError 502 "api_error"
                          ("Failed to forward request to backend: "
                           +:+ forwardErrorText err))))
      | inl resp =>
          first [Forward request]
            (defer [CloseResponseBody] (answer (replyTo req flusher resp)))
      end
  end.

(** [AnthropicHandler.HandleMessages]: the request is its method, what
    [io.ReadAll] returns for its body, and its header; the manager and
    the world are those of the runtime manager the router lists the
    instances of. *)
Definition HandleMessages (method : string) (body : string + gerror)
                          (header : Router.Entries) (flusher : bool)
                          (m : Scheduler.Manager) (w : W) : Handled :=
  if negb (String.eqb method "POST")
  then answer (ErrorReply (writeAnthropicError 405 "invalid_request_error"
                             "Only POST method is allowed"))
  else match body with
  | inr _ =>
      answer (ErrorReply (writeAnthropicError 400 "invalid_request_error"
                            "Failed to read request body"))
  | inl bodyBytes =>
      defer [CloseRequestBody]
        match unmarshalMessagesRequest bodyBytes with
        | inr err =>
            answer (ErrorReply (writeAnthropicError 400 "invalid_request_error"
                                  ("Invalid JSON: " +:+ err)))
        | inl req =>
            if String.eqb (Apiformat.MessagesRequest.Model req) ""
            then answer (ErrorReply (writeAnthropicError 400 "invalid_request_error"
                                       "Missing required field: model"))
            else if Apiformat.MessagesRequest.MaxTokens req <=? 0
            then answer (ErrorReply (writeAnthropicError 400 "invalid_request_error"
                                       "max_tokens must be a positive integer"))
            else if (length (Apiformat.MessagesRequest.Messages req) =? 0)%nat
            then answer (ErrorReply (writeAnthropicError 400 "invalid_request_error"
                                       "messages must not be empty"))
            else
              match Router.FindInstanceByModel ToLower m w
                      (Apiformat.MessagesRequest.Model req) with
              | inr _ =>
                  answer (ErrorReply
                            (writeAnthropicError 404 "not_found_error"
                               ("No running instance found for model: "
                                +:+ Apiformat.MessagesRequest.Model req)))
              | inl instance =>
                  if negb (String.eqb (Instance.State instance) "running")
                  then answer (ErrorReply
                                 (writeAnthropicError 503 "api_error"
                                    ("Model instance is not running (state: "
                                     +:+ Instance.State instance +:+ ")")))
                  else
                    match Router.AcquireConcurrency acquireSlot instance with
                    | inr _ =>
                        answer (ErrorReply
                                  (writeAnthropicError 503 "overloaded_error"
                                     "Service temporarily unavailable (concurrency limit reached)"))
                    | inl slot =>
                        first (acquired slot)
                          (defer (release slot) (exchange req header flusher instance))
                    end
              end
        end
  end.

End WithServices.

(** What [HandleMessages] answers: the status and, for an error, its type. *)
Definition errorType (reply : Reply) : string :=
  match reply with
  | ErrorReply (mkResponse _ _ (AnthropicError errType _)) => errType
  | _ => ""
  end.

Definition is_slot_effect (e : Effect) : bool :=
  match e with
  | AcquireSlot _ _ | ReleaseSlot _ _ => true
  | _ => false
  end.

Definition forwarded (e : Effect) : option Router.ProxyRequest :=
  match e with
  | Forward request => Some request
  | _ => None
  end.

(** A request for the model claude-sonnet, as the client sends it and as
    it decodes; a response of the backend (scenario E3 of the
    specification); and the services of a host whose backend answers
    every request with the given status and body lines, whose semaphores
    are free, and whose JSON decoders are the tables of [Apiformat]. *)
Definition sample_request_doc : string :=
  Apiformat.quoted
    "{'model':'claude-sonnet','max_tokens':16,'messages':[{'role':'user','content':'Hi'}]}".

Definition sample_request : Apiformat.MessagesRequest.t :=
  Apiformat.MessagesRequest.mk "claude-sonnet" 16
    [Apiformat.Message.mk "user" (Apiformat.quoted "'Hi'")] "" [] false None None None [] "".

Definition sample_response_doc : string :=
  Apiformat.quoted
    "{'choices':[{'message':{'content':'Hello'},'finish_reason':'stop'}],'usage':{'prompt_tokens':2,'completion_tokens':1,'total_tokens':3}}".

Definition sample_services (status : Z) (lines : list string) : Services (list string) := {|
  ToLower := GoStrings.ascii_ToLower;
  CanonicalMIMEHeaderKey := fun key => key;
  Quote := fun s => Apiformat.quoted "'" +:+ s +:+ Apiformat.quoted "'";
  acquireSlot := fun _ _ => None;
  NewRequest := fun _ _ => None;
  Do := fun _ => inl (BackendResponse.mk status lines);
  ReadAll := fun body => (Apiformat.Join body (String "010" ""), None);
  scan := fun body => (body, None);
  randomHex := Apiformat.sample_hex;
  unmarshalMessagesRequest := fun raw =>
    if String.eqb raw sample_request_doc then inl sample_request
    else inr "invalid character"%string;
  unmarshalString := Apiformat.sample_unmarshalString;
  unmarshalBlocks := Apiformat.sample_unmarshalBlocks;
  unmarshalTextBlocks := fun _ => inr "json: cannot unmarshal string"%string;
  unmarshalObject := Apiformat.sample_unmarshalObject;
  marshalObject := Apiformat.sample_marshalObject;
  unmarshalToolChoice := fun _ => None;
  marshalRequest := fun out =>
    inl (Apiformat.quoted "{'model':'" +:+ Apiformat.OpenAIChatRequest.Model out
         +:+ Apiformat.quoted "'}");
  unmarshalResponse := Apiformat.sample_unmarshalResponse;
  unmarshalChunk := Apiformat.sample_unmarshalChunk;
  unmarshalBackendError := fun _ => None
|}.

(** The request above, handled on the host of [Router.sample_router_host]. *)
Definition sample_handled (status : Z) (lines : list string) : Handled :=
  HandleMessages (services := sample_services status lines) "POST" (inl sample_request_doc)
    Router.sample_headers false Scheduler.sample_manager Router.sample_router_host.

End Handlers.

(** ** internal/runtime/omni-infer-docker: the container create-spec *)

Module OmniInfer.

Import Runtime.

(** A [runtime.DeviceSandbox], given by what its methods return. *)
Record DeviceSandbox := mkSandbox {
  PrepareEnvironment : list DeviceInfo.t -> gmap string string + gerror;
  GetDeviceMounts : list DeviceInfo.t -> list string + gerror;
  GetAdditionalMounts : list (string * string);
  GetDefaultImage : list DeviceInfo.t -> string + gerror;
  RequiresPrivileged : bool;
  GetCapabilities : list string;
  GetDockerRuntime : string;
  GetSharedMemorySize : option Z
}.

Record Mount := mkMount {
  Source : string;
  Target : string;
  ReadOnly : bool
}.

(** What [Create] hands to the engine: [container.Config],
    [container.HostConfig], the container name and the extra labels.  The
    [Env] slice holds one [k=v] entry per key of the map. *)
Record ContainerSpec := mkSpec {
  Image : string;
  Env : gmap string string;
  Labels : gmap string string;
  Mounts : list Mount;
  Devices : list string;
  ShmSize : Z;
  Privileged : bool;
  CapAdd : list string;
  DockerRuntime : string;
  NetworkMode : string;
  RestartPolicy : string;
  ContainerName : string;
  ExtraLabels : gmap string string
}.

(** [for k, v := range src { dst[k] = v }] *)
Definition copyInto (src dst : gmap string string) : gmap string string := src ∪ dst.

(** The environment keys [Create] sets itself. *)
Definition canonical_keys : list string :=
  ["MODEL_PATH"; "MODEL_NAME"; "TENSOR_PARALLEL_SIZE"; "MAX_MODEL_LEN"; "SERVER_PORT"]%string.

Section WithBase.

(** Methods of the embedded [DockerRuntimeBase], which is not among the
    sources: sandbox selection, the template parameters of
    runtime_params.yaml, which rewrite the environment in place, and the
    call to the engine, which returns the container id. *)
Variable SelectSandbox : string -> DeviceSandbox + gerror.
Variable ApplyTemplateParams : gmap string string -> CreateParams.t -> gmap string string.
Variable CreateContainerWithLabels : CreateParams.t -> ContainerSpec -> string + gerror.

(** The merge of the user environment with the sandbox environment. *)
Definition mergedEnv (params : CreateParams.t) (sandboxEnv : gmap string string)
  : gmap string string :=
  copyInto sandboxEnv (copyInto (CreateParams.Environment params) ∅).

(** The environment of the container: lines 154 to 195 of [Create]. *)
Definition containerEnv (params : CreateParams.t) (sandboxEnv : gmap string string)
  : gmap string string :=
  let env := mergedEnv params sandboxEnv in
  let env := ApplyTemplateParams env params in
  let env := <["MODEL_PATH"%string := "/mnt/model"%string]> env in
  let modelName :=
    if String.eqb (CreateParams.Alias params) "" then CreateParams.ModelID params
    else CreateParams.Alias params in
  let env := <["MODEL_NAME"%string := modelName]> env in
  let env :=
    if 0 <? CreateParams.TensorParallel params
    then <["TENSOR_PARALLEL_SIZE"%string := GoStrings.Itoa (CreateParams.TensorParallel params)]> env
    else <["TENSOR_PARALLEL_SIZE"%string :=
             GoStrings.Itoa (Z.of_nat (length (CreateParams.Devices params)))]> env in
  let env :=
    match CreateParams.ExtraConfig params !! "max_model_len"%string with
    | Some (VInt maxLen) =>
        if 0 <? maxLen then <["MAX_MODEL_LEN"%string := GoStrings.Itoa maxLen]> env else env
    | _ => env
    end in
  if 0 <? CreateParams.Port params
  then <["SERVER_PORT"%string := GoStrings.Itoa (CreateParams.Port params)]> env
  else <["SERVER_PORT"%string := "8000"%string]> env.

Definition additionalMount (entry : string * string) : Mount :=
  let '(hostPath, containerPath) := entry in
  let suffix := (String.length hostPath - 3)%nat in
  if String.eqb (String.substring suffix 3 hostPath) ":ro"
  then mkMount (String.substring 0 suffix hostPath) containerPath true
  else mkMount hostPath containerPath false.

(** [Runtime.Create]; [instances] is the runtime's instance map and [now]
    the creation time. *)
Definition Create (instances : gmap string Instance.t) (now : Z) (params : CreateParams.t)
  : (Instance.t * ContainerSpec + gerror) * gmap string Instance.t :=
  let fail (err : gerror) := (inr err, instances) in
  if String.eqb (CreateParams.InstanceID params) ""
  then fail "invalid parameters: instance ID is required"%string
  else if bool_decide (is_Some (instances !! CreateParams.InstanceID params))
  then fail ("instance " +:+ CreateParams.InstanceID params +:+ " already exists")
  else match CreateParams.Devices params with
  | [] => fail "at least one device is required"%string
  | first :: _ =>
  let deviceType := DeviceInfo.ConfigKey first in
  match SelectSandbox deviceType with
  | inr err => fail err
  | inl sandbox =>
  match PrepareEnvironment sandbox (CreateParams.Devices params) with
  | inr err => fail ("failed to prepare environment: " +:+ err)
  | inl sandboxEnv =>
  let env := containerEnv params sandboxEnv in
  match GetDeviceMounts sandbox (CreateParams.Devices params) with
  | inr err => fail ("failed to get device mounts: " +:+ err)
  | inl deviceMounts =>
  let mounts :=
    mkMount (CreateParams.ModelPath params) "/mnt/model" true
    :: map additionalMount (GetAdditionalMounts sandbox) in
  match GetDefaultImage sandbox (CreateParams.Devices params) with
  | inr err => fail ("failed to get default image: " +:+ err)
  | inl imageName =>
  let shmSize := default (500 * 1024 * 1024 * 1024) (GetSharedMemorySize sandbox) in
  let deviceIndicesStr :=
    Apiformat.Join (map (fun dev => GoStrings.Itoa (DeviceInfo.Index dev))
                        (CreateParams.Devices params)) "," in
  let containerName :=
    if String.eqb (CreateParams.ServerName params) "" then CreateParams.InstanceID params
    else CreateParams.InstanceID params +:+ "-" +:+ CreateParams.ServerName params in
  let spec :=
    mkSpec imageName env
      (<["xw.instance_id"%string := CreateParams.InstanceID params]>
         (<["xw.model_id"%string := CreateParams.ModelID params]> ∅))
      mounts deviceMounts shmSize (RequiresPrivileged sandbox) (GetCapabilities sandbox)
      (GetDockerRuntime sandbox) "host" "unless-stopped" containerName
      (<["xw.device_indices"%string := deviceIndicesStr]> ∅) in
  match CreateContainerWithLabels params spec with
  | inr err => fail err
  | inl containerID =>
  let metadata : gmap string string :=
    <["container_id"%string := containerID]>
    (<["image"%string := imageName]>
    (<["device_type"%string := deviceType]>
    (<["backend_type"%string := CreateParams.BackendType params]>
    (<["deployment_mode"%string := CreateParams.DeploymentMode params]>
    (<["shm_size"%string := GoStrings.Itoa shmSize]> ∅))))) in
  let metadata :=
    match CreateParams.ExtraConfig params !! "max_concurrent"%string with
    | Some (VInt maxConcurrent) =>
        if 0 <? maxConcurrent
        then <["max_concurrent"%string := GoStrings.Itoa maxConcurrent]> metadata
        else metadata
    | _ => metadata
    end in
  let instance :=
    Instance.mk (CreateParams.InstanceID params) "omni-infer-docker"
      (CreateParams.ModelID params) (CreateParams.Alias params)
      (CreateParams.ModelVersion params) StateCreated (CreateParams.Port params)
      ("http://localhost:" +:+ GoStrings.Itoa (CreateParams.Port params)) "" now 0
      metadata in
  (inl (instance, spec), <[CreateParams.InstanceID params := instance]> instances)
  end end end end end end.

End WithBase.

(** An Ascend sandbox in the style of devices.yaml: it exposes the chips
    and points the loader at the driver libraries. *)
Definition sample_sandbox : DeviceSandbox :=
  mkSandbox
    (fun devices =>
       inl (<["ASCEND_VISIBLE_DEVICES"%string :=
                Apiformat.Join (map (fun dev => GoStrings.Itoa (DeviceInfo.Index dev)) devices) ","]>
            (<["LD_LIBRARY_PATH"%string := "/usr/local/Ascend/driver/lib64"%string]> ∅)))
    (fun devices =>
       inl (map (fun dev => "/dev/davinci" +:+ GoStrings.Itoa (DeviceInfo.Index dev)) devices))
    [("/usr/local/Ascend/driver:ro", "/usr/local/Ascend/driver")]%string
    (fun _ => inl "quay.io/ascend/omni-infer:latest"%string)
    false [] "" None.

(** A request whose user environment sets the loader path as well. *)
Definition sample_params : CreateParams.t :=
  CreateParams.mk "qwen-1700000000" "qwen" "" "/data/models/qwen" "latest" "omni-infer"
    "docker" ""
    [DeviceInfo.mk "npu" 0 "0000:00:00.0" "ascend-910b" "ascend-910b" ∅;
     DeviceInfo.mk "npu" 1 "0000:01:00.0" "ascend-910b" "ascend-910b" ∅]
    10881 0
    (<["LD_LIBRARY_PATH"%string := "/opt/custom/lib"%string]> ∅) ∅.

(** The same request with a limit of four concurrent requests, the
    runtime it is sent to, and what [Create] answers on an empty instance
    map. *)
Definition sample_limited_params : CreateParams.t :=
  CreateParams.mk "qwen-1700000000" "qwen" "" "/data/models/qwen" "latest" "omni-infer"
    "docker" ""
    [DeviceInfo.mk "npu" 0 "0000:00:00.0" "ascend-910b" "ascend-910b" ∅;
     DeviceInfo.mk "npu" 1 "0000:01:00.0" "ascend-910b" "ascend-910b" ∅]
    10881 0 ∅ (<["max_concurrent"%string := VInt 4]> ∅).

Definition sample_create (instances : gmap string Instance.t) (now : Z)
                         (params : CreateParams.t)
  : (Instance.t * ContainerSpec + gerror) * gmap string Instance.t :=
  Create (fun _ => inl sample_sandbox) (fun env _ => env)
         (fun _ _ => inl "4f5c0d4d7f3a"%string) instances now params.

Definition sample_created
  : (Instance.t * ContainerSpec + gerror) * gmap string Instance.t :=
  sample_create ∅ 1700000000 sample_limited_params.

Definition sample_created_instance : Instance.t :=
  match fst sample_created with
  | inl (instance, _) => instance
  | inr _ => Scheduler.sample_qwen
  end.

Definition sample_created_spec : ContainerSpec :=
  match fst sample_created with
  | inl (_, spec) => spec
  | inr _ => mkSpec "" ∅ ∅ [] [] 0 false [] "" "" "" "" ∅
  end.

End OmniInfer.

(** ** internal/models: model specifications and their loader *)

Module Models.

Import Runtime.

(** [BackendOption]; [api.BackendType] and [api.DeploymentMode] are
    string types. *)
Module BackendOption.
Record t := mk {
  Type_ : string;
  Mode : string;
  Command : list string;
  Priority : Z
}.
End BackendOption.

(** [ModelSpec]; [api.DeviceType] is a string type, and the [float64] of
    [Parameters] is kept as its decimal literal. *)
Module ModelSpec.
Record t := mk {
  ID : string;
  SourceID : string;
  Parameters : string;
  ContextLength : Z;
  EmbeddingLength : Z;
  SupportedDevices : gmap string (list BackendOption.t);
  Tag : string;
  Capabilities : list string
}.
End ModelSpec.

(** [ModelSpec.SupportsDevice]. *)
Definition SupportsDevice (m : ModelSpec.t) (deviceType : string) : bool :=
  if (size (ModelSpec.SupportedDevices m) =? 0)%nat then true
  else match ModelSpec.SupportedDevices m !! deviceType with
       | Some _ => true
       | None => false
       end.

(** [ModelSpec.GetEnginesForDevice]. *)
Definition GetEnginesForDevice (m : ModelSpec.t) (deviceType : string) : list BackendOption.t :=
  match ModelSpec.SupportedDevices m !! deviceType with
  | Some engines => engines
  | None => []
  end.

Inductive ValidateError :=
| ErrEmptyID
| ErrNoDevices (id : string)
| ErrNoEngine (id device : string).

Section WithRange.

(** The entries of a map in the order in which a [for ... range] loop
    visits them, an order that Go leaves open. *)
Variable range : gmap string (list BackendOption.t) -> list (string * list BackendOption.t).

(** [ModelSpec.GetAllSupportedDevices]. *)
Definition GetAllSupportedDevices (m : ModelSpec.t) : list string :=
  map fst (range (ModelSpec.SupportedDevices m)).

(** [ModelSpec.Validate]; the loop returns at the first device without an
    engine. *)
Definition Validate (m : ModelSpec.t) : option ValidateError :=
  if String.eqb (ModelSpec.ID m) "" then Some ErrEmptyID
  else if (size (ModelSpec.SupportedDevices m) =? 0)%nat then Some (ErrNoDevices (ModelSpec.ID m))
  else match find (fun entry => (length (snd entry) =? 0)%nat)
                  (range (ModelSpec.SupportedDevices m)) with
       | Some (device, _) => Some (ErrNoEngine (ModelSpec.ID m) device)
       | None => None
       end.

End WithRange.

(** *** config_loader.go *)

(** A model of the configuration file, with the fields that
    [LoadModelsFromConfig] reads; the type belongs to package config. *)
Module ModelConfig.
Record t := mk {
  ModelID : string;
  SourceID : string;
  Parameters : string;
  ContextLength : Z;
  Tag : string;
  Capabilities : list string;
  SupportedDevices : gmap string (list string)
}.
End ModelConfig.

Inductive EngineError :=
| ErrEngineFormat
| ErrEmptyBackend
| ErrUnknownMode (deploymentMode : string).

Section WithApi.

(** The constants [api.DeploymentModeDocker] and
    [api.DeploymentModeNative], and [config.LoadModelsConfig]. *)
Variable DeploymentModeDocker DeploymentModeNative : string.
Variable LoadModelsConfig : string -> list ModelConfig.t + gerror.

(** [parseEngine]. *)
Definition parseEngine (engine : string) : BackendOption.t + EngineError :=
  match GoStrings.SplitN2 engine ":" with
  | [backendType; deploymentMode] =>
      if String.eqb backendType "" then inr ErrEmptyBackend
      else if String.eqb deploymentMode DeploymentModeDocker
              || String.eqb deploymentMode DeploymentModeNative
      then inl (BackendOption.mk backendType deploymentMode [] 0)
      else inr (ErrUnknownMode deploymentMode)
  | _ => inr ErrEngineFormat
  end.

(** The inner loop of [LoadModelsFromConfig]: the engines of one device
    that parse, in their order; the others are skipped. *)
Fixpoint backendOptions (engines : list string) : list BackendOption.t :=
  match engines with
  | [] => []
  | engine :: rest =>
      match parseEngine engine with
      | inr _ => backendOptions rest
      | inl backendOpt => backendOpt :: backendOptions rest
      end
  end.

(** The loop over the devices of one model: a device is stored only with
    at least one engine.  The keys of the source map are distinct, so the
    order of the visit has no effect on the map that is built. *)
Definition supportedDevices (devices : gmap string (list string))
  : gmap string (list BackendOption.t) :=
  omap (fun engines =>
          let backendOptions := backendOptions engines in
          if (0 <? length backendOptions)%nat then Some backendOptions else None)
       devices.

(** The [ModelSpec] built for one model of the configuration. *)
Definition specOf (model : ModelConfig.t) : ModelSpec.t :=
  ModelSpec.mk (ModelConfig.ModelID model) (ModelConfig.SourceID model)
    (ModelConfig.Parameters model) (ModelConfig.ContextLength model) 0
    (supportedDevices (ModelConfig.SupportedDevices model))
    (ModelConfig.Tag model) (ModelConfig.Capabilities model).

(** [LoadModelsFromConfig]; the error is that of the configuration file. *)
Definition LoadModelsFromConfig (configPath : string) : list ModelSpec.t + gerror :=
  match LoadModelsConfig configPath with
  | inr err => inr ("failed to load model configuration: " +:+ err)
  | inl models => inl (map specOf models)
  end.

End WithApi.

(** A visit of a map in the order of its keys. *)
Definition sample_range (devices : gmap string (list BackendOption.t))
  : list (string * list BackendOption.t) := map_to_list devices.

(** A model with two devices, one of them with an engine that does not
    parse and one with none that does. *)
Definition sample_model : ModelConfig.t :=
  ModelConfig.mk "qwen2-7b" "Qwen/Qwen2-7B" "7.6" 32768 "" ["completion"%string]
    (<["ascend-910b"%string := ["vllm:docker"; "mindie"; "mindie:native"]%string]>
       (<["ascend-310p"%string := ["vllm:podman"%string]]> ∅)).

Definition sample_LoadModelsConfig (configPath : string) : list ModelConfig.t + gerror :=
  inl [sample_model].

End Models.

(** * Properties *)

(** ** Go machine integers *)

Module GoIntFacts.

Import GoInt.

Lemma wrap_in_range z : in_range z -> wrap z = z.
Proof.
  unfold in_range, wrap, min_int, max_int. intros H.
  rewrite Z.mod_small; lia.
Qed.

Lemma wrap_succ z : min_int <= z < max_int -> wrap (z + 1) = z + 1.
Proof.
  intros H. apply wrap_in_range. unfold in_range, min_int, max_int in *. lia.
Qed.

End GoIntFacts.

(** ** The Go string functions *)

Module GoStringsFacts.

Import GoStrings.

Example TrimSpace_sample :
  TrimSpace (String (ascii_of_nat 194) (String (ascii_of_nat 160) " 0,1 ")) = "0,1"%string.
Proof. reflexivity. Qed.

Example Split_sample : Split "0,,1" "," = ["0"; ""; "1"]%string.
Proof. reflexivity. Qed.

Example Atoi_samples :
  Atoi "" = None /\ Atoi "+7" = Some 7%Z /\ Atoi "-0" = Some 0%Z /\ Atoi "1x" = None
  /\ Atoi "9223372036854775808" = None /\ Itoa 1712 = "1712"%string.
Proof. repeat split; reflexivity. Qed.

(** *** Decimal numerals: [Itoa], [Atoi], [TrimSpace], [Split] *)

Lemma digit_of_pretty_N_char (d : N) :
  (d < 10)%N -> digit_of (pretty_N_char d) = Some (Z.of_N d).
Proof.
  intros Hd.
  assert (d = 0 \/ d = 1 \/ d = 2 \/ d = 3 \/ d = 4 \/ d = 5 \/ d = 6 \/ d = 7 \/ d = 8 \/ d = 9)%N
    as Hcases by lia.
  repeat (destruct Hcases as [->|Hcases]; [reflexivity|]). by subst.
Qed.

Lemma digits_value_pretty_N_go (x : N) :
  forall s, digits_value 0 (pretty_N_go x s) = digits_value (Z.of_N x) s.
Proof.
  induction (N.lt_wf_0 x) as [x _ IH]. intros s.
  destruct (decide (0 < x)%N) as [Hpos|Hzero].
  - rewrite pretty_N_go_step by done. rewrite IH by (by apply N.div_lt).
    cbn [digits_value]. rewrite digit_of_pretty_N_char by (by apply N.mod_lt).
    f_equal. rewrite (N.div_mod x 10) at 3 by done. lia.
  - assert (x = 0%N) as -> by lia. by rewrite pretty_N_go_0.
Qed.

Lemma digits_value_Itoa (z : Z) : 0 <= z -> digits_value 0 (Itoa z) = Some z.
Proof.
  intros Hz. unfold Itoa, pretty, pretty_Z. destruct z as [|p|p]; [done| |lia].
  unfold pretty, pretty_positive, pretty, pretty_N. rewrite decide_False by done.
  by rewrite digits_value_pretty_N_go.
Qed.

Lemma digits_value_digits (s : string) :
  forall acc v, digits_value acc s = Some v ->
  Forall (fun c => is_digit c = true) (list_ascii_of_string s).
Proof.
  induction s as [|c s IH]; intros acc v; cbn [digits_value list_ascii_of_string]; [by constructor|].
  destruct (digit_of c) as [d|] eqn:Hd; [|done]. intros Hrest. constructor.
  - unfold is_digit. by rewrite Hd.
  - by eapply IH.
Qed.

Lemma Itoa_nonempty (z : Z) : Itoa z <> EmptyString.
Proof.
  unfold Itoa. intros Hempty.
  assert (Hlen : String.length (pretty z) = 0%nat) by (by rewrite Hempty).
  destruct z as [|p|p]; [done| |done].
  unfold pretty, pretty_Z, pretty, pretty_positive, pretty, pretty_N in Hempty.
  rewrite decide_False in Hempty by done.
  rewrite pretty_N_go_step in Hempty by lia.
  assert (Hgrow : forall x s, (String.length s <= String.length (pretty_N_go x s))%nat).
  { intros x. induction (N.lt_wf_0 x) as [x _ IH]. intros s.
    destruct (decide (0 < x)%N) as [Hpos|Hzero].
    - rewrite pretty_N_go_step by done.
      etrans; [|apply IH; by apply N.div_lt]. cbn. lia.
    - assert (x = 0%N) as -> by lia. by rewrite pretty_N_go_0. }
  match type of Hempty with pretty_N_go ?x ?s = _ => pose proof (Hgrow x s) as Hle end.
  rewrite Hempty in Hle. cbn in Hle. lia.
Qed.

Lemma Itoa_numeral (z : Z) : 0 <= z -> numeral (Itoa z).
Proof.
  intros Hz. split; [apply Itoa_nonempty|].
  eapply digits_value_digits. by apply digits_value_Itoa.
Qed.

Lemma Atoi_numeral (s : string) (v : Z) :
  numeral s -> digits_value 0 s = Some v -> v <= GoInt.max_int -> 0 <= v ->
  Atoi s = Some v.
Proof.
  intros [Hne Hdigits] Hvalue Hmax Hmin. destruct s as [|c s]; [done|].
  cbn [list_ascii_of_string] in Hdigits. apply Forall_cons in Hdigits as [Hc _].
  assert (Hbody : match digits_value 0 (String c s) with
                  | Some v =>
                      if ((GoInt.min_int <=? v) && (v <=? GoInt.max_int))%Z then Some v else None
                  | None => None
                  end = Some v).
  { rewrite Hvalue.
    assert ((GoInt.min_int <=? v) = true) as -> by (apply Z.leb_le; unfold GoInt.min_int; lia).
    assert ((v <=? GoInt.max_int) = true) as -> by (by apply Z.leb_le). done. }
  unfold Atoi.
  destruct c as [[] [] [] [] [] [] [] []]; try discriminate Hc; exact Hbody.
Qed.

Lemma leading_width_digit (runes : list (list ascii)) (c : ascii) (l : list ascii) :
  digit_free runes = true -> is_digit c = true -> leading_width runes (c :: l) = 0%nat.
Proof.
  intros Hfree Hc. unfold leading_width.
  assert (Hnone : find (fun r => is_prefix r (c :: l)) runes = None); [|by rewrite Hnone].
  induction runes as [|r runes IH]; [done|].
  cbn [digit_free forallb] in Hfree. apply andb_true_iff in Hfree as [Hr Hrest].
  cbn [find]. destruct r as [|b r]; [done|]. cbn [is_prefix].
  destruct (Ascii.eqb_spec b c) as [->|_]; [by rewrite Hc in Hr|]. cbn. by apply IH.
Qed.

Lemma trim_leading_digit (runes : list (list ascii)) (fuel : nat) (c : ascii) (l : list ascii) :
  digit_free runes = true -> is_digit c = true -> trim_leading runes fuel (c :: l) = c :: l.
Proof.
  intros Hfree Hc. destruct fuel as [|fuel]; [done|].
  cbn [trim_leading]. by rewrite leading_width_digit.
Qed.

Lemma TrimSpace_tight (s : string) : tight s -> TrimSpace s = s.
Proof.
  intros [(c & Hhead & Hc) (c' & Hlast & Hc')]. unfold TrimSpace, trim_left, trim_right.
  destruct (list_ascii_of_string s) as [|c0 l] eqn:Hs; [done|].
  cbn in Hhead. injection Hhead as ->.
  rewrite trim_leading_digit by done.
  apply last_Some in Hlast as [l' Hl']. rewrite Hl', rev_unit.
  rewrite trim_leading_digit by done.
  change (c' :: rev l') with (rev [c'] ++ rev l'). rewrite <- rev_app_distr, rev_involutive.
  by rewrite <- Hl', <- Hs, string_of_list_ascii_of_string.
Qed.

Lemma numeral_tight (s : string) : numeral s -> tight s.
Proof.
  intros [Hne Hdigits]. destruct (list_ascii_of_string s) as [|c l] eqn:Hs.
  { destruct s; [by destruct Hne|discriminate Hs]. }
  unfold tight. rewrite Hs. split.
  - exists c. split; [done|]. by apply Forall_cons in Hdigits as [? _].
  - destruct (last (c :: l)) as [c'|] eqn:Hlast; [|by apply last_None in Hlast].
    exists c'. split; [done|].
    rewrite Forall_forall in Hdigits. apply Hdigits.
    apply last_Some in Hlast as [l' ->]. set_solver.
Qed.

Lemma list_ascii_of_string_app (a b : string) :
  list_ascii_of_string (a +:+ b) = list_ascii_of_string a ++ list_ascii_of_string b.
Proof.
  induction a as [|c a IH]; [done|].
  change (String c a +:+ b) with (String c (a +:+ b)).
  cbn [list_ascii_of_string]. by rewrite IH.
Qed.

Lemma Split_cons (a rest : string) :
  Forall (fun c => is_digit c = true) (list_ascii_of_string a) ->
  Split (a +:+ "," +:+ rest) "," = a :: Split rest ",".
Proof.
  induction a as [|c a IH]; intros Hdigits; [done|].
  cbn [list_ascii_of_string] in Hdigits. apply Forall_cons in Hdigits as [Hc Hrest].
  change (String c a +:+ "," +:+ rest) with (String c (a +:+ "," +:+ rest)).
  cbn [Split]. rewrite IH by done.
  destruct (Ascii.eqb_spec c ",") as [->|_]; [discriminate Hc|done].
Qed.

Lemma Split_one (a : string) :
  Forall (fun c => is_digit c = true) (list_ascii_of_string a) -> Split a "," = [a].
Proof.
  induction a as [|c a IH]; intros Hdigits; [done|].
  cbn [list_ascii_of_string] in Hdigits. apply Forall_cons in Hdigits as [Hc Hrest].
  cbn [Split]. rewrite IH by done.
  destruct (Ascii.eqb_spec c ",") as [->|_]; [discriminate Hc|done].
Qed.

Lemma Split_Join (parts : list string) :
  parts <> [] -> Forall numeral parts -> Split (Apiformat.Join parts ",") "," = parts.
Proof.
  induction parts as [|part rest IH]; [done|]. intros _ Hparts.
  apply Forall_cons in Hparts as [[_ Hpart] Hrest].
  destruct rest as [|next rest]; [by apply Split_one|].
  change (Apiformat.Join (part :: next :: rest) ",")
    with (part +:+ "," +:+ Apiformat.Join (next :: rest) ",").
  rewrite Split_cons by done. by rewrite IH.
Qed.

Lemma Join_tight (parts : list string) :
  parts <> [] -> Forall numeral parts -> tight (Apiformat.Join parts ",").
Proof.
  induction parts as [|part rest IH]; [done|]. intros _ Hparts.
  apply Forall_cons in Hparts as [Hpart Hrest].
  destruct rest as [|next rest]; [by apply numeral_tight|].
  change (Apiformat.Join (part :: next :: rest) ",")
    with (part +:+ "," +:+ Apiformat.Join (next :: rest) ",").
  destruct (numeral_tight part Hpart) as [(c & Hhead & Hc) _].
  destruct (IH ltac:(done) Hrest) as [_ (c' & Hlast & Hc')].
  unfold tight. rewrite !list_ascii_of_string_app. split.
  - exists c. split; [|done].
    destruct (list_ascii_of_string part); [done|]. done.
  - exists c'. split; [|done]. rewrite !last_app, Hlast. done.
Qed.

Lemma Atoi_range (s : string) (v : Z) : Atoi s = Some v -> GoInt.min_int <= v <= GoInt.max_int.
Proof.
  unfold Atoi.
  destruct (match s with
            | String "-" s' => (true, s')
            | String "+" s' => (false, s')
            | _ => (false, s)
            end) as [neg body].
  destruct body as [|c body]; [done|].
  destruct (digits_value 0 (String c body)) as [d|]; [|done].
  destruct (Z.leb_spec GoInt.min_int (if neg then - d else d)); [|done].
  destruct (Z.leb_spec (if neg then - d else d) GoInt.max_int); [|done].
  intros [= <-]. done.
Qed.

(** *** [SplitN] with a limit of two *)

Lemma SplitN2_cut (s : string) (sep : ascii) :
  (contains_byte s sep = false /\ SplitN2 s sep = [s]) \/
  (exists before after,
     s = before +:+ String sep after /\ contains_byte before sep = false /\
     SplitN2 s sep = [before; after]).
Proof.
  induction s as [|c s IH]; [by left|]. cbn [SplitN2 contains_byte].
  destruct (Ascii.eqb_spec c sep) as [->|Hne].
  - right. by exists EmptyString, s.
  - cbn [orb]. destruct IH as [[Hnone ->]|(before & after & -> & Hnone & ->)].
    + by left.
    + right. exists (String c before), after. cbn [contains_byte].
      destruct (Ascii.eqb_spec c sep) as [|_]; [done|]. by rewrite Hnone.
Qed.

Lemma SplitN2_app (before after : string) (sep : ascii) :
  contains_byte before sep = false ->
  SplitN2 (before +:+ String sep after) sep = [before; after].
Proof.
  induction before as [|c before IH]; cbn [contains_byte]; intros Hnone.
  - change (EmptyString +:+ String sep after) with (String sep after).
    cbn [SplitN2]. by rewrite Ascii.eqb_refl.
  - apply orb_false_iff in Hnone as [Hc Hnone].
    change (String c before +:+ String sep after)
      with (String c (before +:+ String sep after)).
    cbn [SplitN2]. by rewrite Hc, IH.
Qed.

End GoStringsFacts.

(** ** The port allocator *)

Module PortsFacts.

Import Ports.

Example globalPortAllocator_range :
  minPort globalPortAllocator = 10881 /\ maxPort globalPortAllocator = 11881 /\
  minPort (NewPortAllocator 0 0) = 10881 /\ maxPort (NewPortAllocator 0 0) = 11881.
Proof. repeat split; reflexivity. Qed.

(** The loop entered at [p], when no port below [p] (from [lo] on) was
    usable, ends within [maxPort - p + 2] iterations with the lowest usable
    port, or with the error when there is none. *)
Lemma scan_lowest (listen_ok : Z -> bool) (pa : PortAllocator) (lo : Z) :
  maxPort pa < GoInt.max_int ->
  forall (fuel : nat) (p : Z),
  GoInt.min_int <= p ->
  (Z.to_nat (maxPort pa - p + 1) < fuel)%nat ->
  (forall q, lo <= q < p -> usable listen_ok pa q = false) ->
  exists pa' r, scan listen_ok fuel pa p = Some (pa', r) /\
    match r with
    | inl port =>
        p <= port <= maxPort pa /\
        is_allocated pa port = false /\ listen_ok port = true /\
        (forall q, lo <= q < port -> usable listen_ok pa q = false) /\
        pa' = mkPortAllocator (<[port := true]> (allocated pa)) (minPort pa) (maxPort pa)
    | inr e =>
        (forall q, lo <= q -> q <= maxPort pa -> usable listen_ok pa q = false) /\
        pa' = pa /\ e = ErrNoAvailablePorts (minPort pa) (maxPort pa)
    end.
Proof.
  intros Hhi fuel. induction fuel as [|fuel IH]; intros p Hp Hfuel Hbelow; [lia|].
  cbn [scan]. destruct (Z.leb_spec p (maxPort pa)) as [Hin|Hout].
  - assert (Hnext : GoInt.wrap (p + 1) = p + 1) by (apply GoIntFacts.wrap_succ; lia).
    assert (Hstep : usable listen_ok pa p = false ->
      exists pa' r, scan listen_ok fuel pa (p + 1) = Some (pa', r) /\
        match r with
        | inl port =>
            p <= port <= maxPort pa /\
            is_allocated pa port = false /\ listen_ok port = true /\
            (forall q, lo <= q < port -> usable listen_ok pa q = false) /\
            pa' = mkPortAllocator (<[port := true]> (allocated pa)) (minPort pa) (maxPort pa)
        | inr e =>
            (forall q, lo <= q -> q <= maxPort pa -> usable listen_ok pa q = false) /\
            pa' = pa /\ e = ErrNoAvailablePorts (minPort pa) (maxPort pa)
        end).
    { intros Hp_unusable.
      destruct (IH (p + 1)) as (pa' & r & Hscan & Hr); [lia|lia| |].
      - intros q Hq. destruct (Z.eq_dec q p) as [->|]; [done|]. apply Hbelow. lia.
      - exists pa', r. split; [done|]. destruct r; [|done].
        destruct Hr as (? & ? & ? & ? & ?). repeat split; try done; lia. }
    rewrite Hnext. unfold isPortAvailable.
    destruct (is_allocated pa p) eqn:Halloc.
    + apply Hstep. unfold usable. by rewrite Halloc.
    + destruct (listen_ok p) eqn:Hlisten.
      * eexists _, (inl p). split; [reflexivity|]. repeat split; try done; lia.
      * apply Hstep. unfold usable. by rewrite Hlisten, andb_false_r.
  - eexists pa, (inr _). split; [reflexivity|]. repeat split.
    intros q Hq1 Hq2. apply Hbelow. lia.
Qed.

(** C4. [GetFreePort] returns the lowest port of the range
    [minPort..maxPort] that is not marked leased and on which the probing
    listen on 127.0.0.1 succeeds, and marks exactly that port leased; when
    every port of the range is leased or cannot be bound it returns the
    no-available-ports error and the allocator is unchanged.  The loop
    terminates: [enough_fuel] iterations always suffice. *)
Theorem GetFreePort_lowest_usable (listen_ok : Z -> bool) (pa : PortAllocator) (fuel : nat) :
  GoInt.min_int <= minPort pa ->
  maxPort pa < GoInt.max_int ->
  (enough_fuel pa <= fuel)%nat ->
  exists pa' r, GetFreePort listen_ok fuel pa = Some (pa', r) /\
    match r with
    | inl port =>
        minPort pa <= port <= maxPort pa /\
        is_allocated pa port = false /\ listen_ok port = true /\
        (forall q, minPort pa <= q < port ->
           is_allocated pa q = true \/ listen_ok q = false) /\
        allocated pa' = <[port := true]> (allocated pa) /\
        is_allocated pa' port = true /\
        minPort pa' = minPort pa /\ maxPort pa' = maxPort pa
    | inr e =>
        (forall q, minPort pa <= q <= maxPort pa ->
           is_allocated pa q = true \/ listen_ok q = false) /\
        pa' = pa /\ e = ErrNoAvailablePorts (minPort pa) (maxPort pa)
    end.
Proof.
  intros Hlo Hhi Hfuel. unfold GetFreePort.
  assert (Hunusable : forall q, usable listen_ok pa q = false ->
            is_allocated pa q = true \/ listen_ok q = false).
  { intros q. unfold usable. destruct (is_allocated pa q), (listen_ok q); auto. }
  destruct (scan_lowest listen_ok pa (minPort pa) Hhi fuel (minPort pa))
    as (pa' & r & Hscan & Hr); [done| unfold enough_fuel in Hfuel; lia | intros; lia |].
  exists pa', r. split; [done|]. destruct r as [port|e].
  - destruct Hr as (Hrange & Hfree & Hbind & Hleast & ->). cbn.
    repeat split; try done; try lia.
    + intros q Hq. apply Hunusable, Hleast. lia.
    + unfold is_allocated. cbn. by rewrite lookup_insert_eq.
  - destruct Hr as (Hnone & -> & ->). repeat split.
    intros q Hq. apply Hunusable, Hnone; lia.
Qed.

Lemma ReleasePort_released (pa : PortAllocator) (port : Z) :
  is_allocated (ReleasePort pa port) port = false.
Proof.
  unfold ReleasePort. destruct (is_allocated pa port) eqn:Hport; [|done].
  unfold is_allocated. cbn. by rewrite lookup_delete_eq.
Qed.

Lemma ReleasePort_other (pa : PortAllocator) (port q : Z) :
  q <> port -> is_allocated (ReleasePort pa port) q = is_allocated pa q.
Proof.
  intros Hq. unfold ReleasePort. destruct (is_allocated pa port); [|done].
  unfold is_allocated. cbn. by rewrite lookup_delete_ne.
Qed.

Lemma GetFreePort_lowest_usable_witness :
  GetFreePort sample_host (enough_fuel sample_allocator) sample_allocator
  = Some (MarkPortUsed sample_allocator 10883, inl 10883) /\
  exists pa' r,
    GetFreePort sample_host (enough_fuel sample_allocator) sample_allocator = Some (pa', r) /\
    match r with
    | inl port =>
        minPort sample_allocator <= port <= maxPort sample_allocator /\
        is_allocated sample_allocator port = false /\ sample_host port = true /\
        (forall q, minPort sample_allocator <= q < port ->
           is_allocated sample_allocator q = true \/ sample_host q = false) /\
        allocated pa' = <[port := true]> (allocated sample_allocator) /\
        is_allocated pa' port = true /\
        minPort pa' = minPort sample_allocator /\ maxPort pa' = maxPort sample_allocator
    | inr e =>
        (forall q, minPort sample_allocator <= q <= maxPort sample_allocator ->
           is_allocated sample_allocator q = true \/ sample_host q = false) /\
        pa' = sample_allocator /\ e = ErrNoAvailablePorts (minPort sample_allocator) (maxPort sample_allocator)
    end.
Proof.
  split; [reflexivity|].
  apply (GetFreePort_lowest_usable sample_host sample_allocator (enough_fuel sample_allocator)).
  - vm_compute. discriminate.
  - vm_compute. reflexivity.
  - apply Nat.le_refl.
Defined.

(** *** Leases in sequence: [GetFreePort], [ReleasePort], [MarkPortUsed] *)

Lemma scan_leases_unleased (listen_ok : Z -> bool) (fuel : nat) :
  forall (pa pa' : PortAllocator) (p port : Z),
  scan listen_ok fuel pa p = Some (pa', inl port) ->
  is_allocated pa port = false /\ listen_ok port = true /\
  is_allocated pa' port = true /\
  (forall q, is_allocated pa q = true -> is_allocated pa' q = true).
Proof.
  induction fuel as [|fuel IH]; intros pa pa' p port; cbn [scan]; [done|].
  destruct (p <=? maxPort pa); [|done].
  destruct (is_allocated pa p) eqn:Hleased; [by apply IH|].
  unfold isPortAvailable. destruct (listen_ok p) eqn:Hbind; [|by apply IH].
  intros [= <- <-]. unfold is_allocated in *. cbn.
  repeat split; [done|done|by rewrite lookup_insert_eq|].
  intros q Hq. destruct (decide (p = q)) as [->|Hne]; [by rewrite lookup_insert_eq|].
  by rewrite lookup_insert_ne.
Qed.

(** Two leases in a row never hand out the same port, whatever the host
    answers to the second scan. *)
Theorem GetFreePort_never_twice (listen_ok listen_ok' : Z -> bool) (fuel fuel' : nat)
    (pa pa1 pa2 : PortAllocator) (port1 port2 : Z) :
  GetFreePort listen_ok fuel pa = Some (pa1, inl port1) ->
  GetFreePort listen_ok' fuel' pa1 = Some (pa2, inl port2) ->
  port1 <> port2 /\ is_allocated pa2 port1 = true /\ is_allocated pa2 port2 = true.
Proof.
  unfold GetFreePort. intros Hfirst Hsecond.
  apply scan_leases_unleased in Hfirst as (_ & _ & Hleased1 & _).
  apply scan_leases_unleased in Hsecond as (Hfree2 & _ & Hleased2 & Hkeep).
  split; [congruence|]. split; [by apply Hkeep|done].
Qed.

Lemma scan_ext (listen_ok : Z -> bool) (fuel : nat) :
  forall (pa pb : PortAllocator) (p : Z),
  maxPort pa = maxPort pb -> minPort pa = minPort pb ->
  (forall q, is_allocated pa q = is_allocated pb q) ->
  snd <$> scan listen_ok fuel pa p = snd <$> scan listen_ok fuel pb p.
Proof.
  induction fuel as [|fuel IH]; intros pa pb p Hmax Hmin Hsame; cbn [scan]; [done|].
  rewrite <- Hmax, <- Hmin, <- Hsame.
  destruct (p <=? maxPort pa); [|done].
  destruct (is_allocated pa p); [by apply IH|].
  destruct (isPortAvailable listen_ok p); [done|by apply IH].
Qed.

Lemma MarkPortUsed_leased (pa : PortAllocator) (port q : Z) :
  is_allocated (MarkPortUsed pa port) q
  = if bool_decide (0 < port /\ q = port) then true else is_allocated pa q.
Proof.
  unfold MarkPortUsed, is_allocated. destruct (Z.leb_spec port 0).
  - rewrite bool_decide_false by lia. done.
  - cbn. case_bool_decide as Hq.
    + destruct Hq as [_ ->]. by rewrite lookup_insert_eq.
    + rewrite lookup_insert_ne; [done|]. intros <-. apply Hq. done.
Qed.

(** A port marked used is not handed out. *)
Theorem MarkPortUsed_never_leased (listen_ok : Z -> bool) (fuel : nat)
    (pa pa' : PortAllocator) (port leased : Z) :
  0 < port ->
  GetFreePort listen_ok fuel (MarkPortUsed pa port) = Some (pa', inl leased) ->
  leased <> port /\ is_allocated pa' port = true.
Proof.
  intros Hpos Hlease. unfold GetFreePort in Hlease.
  apply scan_leases_unleased in Hlease as (Hfree & _ & _ & Hkeep).
  assert (Hmarked : is_allocated (MarkPortUsed pa port) port = true).
  { rewrite MarkPortUsed_leased. by rewrite bool_decide_true. }
  split; [congruence|by apply Hkeep].
Qed.

Lemma scan_leases_insert (listen_ok : Z -> bool) (fuel : nat) :
  forall (pa pa' : PortAllocator) (p port : Z),
  scan listen_ok fuel pa p = Some (pa', inl port) ->
  pa' = mkPortAllocator (<[port := true]> (allocated pa)) (minPort pa) (maxPort pa).
Proof.
  induction fuel as [|fuel IH]; intros pa pa' p port; cbn [scan]; [done|].
  destruct (p <=? maxPort pa); [|done].
  destruct (is_allocated pa p); [by apply IH|].
  destruct (isPortAvailable listen_ok p); [|by apply IH].
  by intros [= <- <-].
Qed.

(** Releasing the port that was just leased restores the lease status of
    every port, and the next lease hands the same port out again. *)
Theorem ReleasePort_undoes_GetFreePort (listen_ok : Z -> bool) (fuel : nat)
    (pa pa' : PortAllocator) (port : Z) :
  GetFreePort listen_ok fuel pa = Some (pa', inl port) ->
  (forall q, is_allocated (ReleasePort pa' port) q = is_allocated pa q) /\
  minPort (ReleasePort pa' port) = minPort pa /\
  maxPort (ReleasePort pa' port) = maxPort pa /\
  exists pa'', GetFreePort listen_ok fuel (ReleasePort pa' port) = Some (pa'', inl port) /\
    forall q, is_allocated pa'' q = is_allocated pa' q.
Proof.
  unfold GetFreePort. intros Hlease.
  pose proof (scan_leases_unleased _ _ _ _ _ _ Hlease) as (Hfree & _ & Hleased & _).
  pose proof (scan_leases_insert _ _ _ _ _ _ Hlease) as Hpa'.
  assert (Hsame : forall q, is_allocated (ReleasePort pa' port) q = is_allocated pa q).
  { intros q. unfold ReleasePort. rewrite Hleased. subst pa'. unfold is_allocated in *. cbn.
    destruct (decide (q = port)) as [->|Hne].
    - by rewrite lookup_delete_eq, Hfree.
    - by rewrite lookup_delete_ne, lookup_insert_ne. }
  assert (Hmin : minPort (ReleasePort pa' port) = minPort pa).
  { unfold ReleasePort. rewrite Hleased. by subst pa'. }
  assert (Hmax : maxPort (ReleasePort pa' port) = maxPort pa).
  { unfold ReleasePort. rewrite Hleased. by subst pa'. }
  split; [done|]. split; [done|]. split; [done|].
  pose proof (scan_ext listen_ok fuel (ReleasePort pa' port) pa (minPort pa) Hmax Hmin Hsame)
    as Hagain.
  rewrite Hlease in Hagain. rewrite Hmin.
  destruct (scan listen_ok fuel (ReleasePort pa' port) (minPort pa)) as [[pa'' r]|] eqn:Hscan;
    [|done].
  cbn in Hagain. injection Hagain as ->. exists pa''. split; [done|].
  apply scan_leases_insert in Hscan. intros q. rewrite Hscan.
  destruct (decide (q = port)) as [->|Hne].
  - rewrite Hleased. unfold is_allocated. cbn [allocated]. by rewrite lookup_insert_eq.
  - transitivity (is_allocated pa q).
    + rewrite <- Hsame. unfold is_allocated. cbn [allocated]. by rewrite lookup_insert_ne.
    + rewrite Hpa'. unfold is_allocated. cbn [allocated]. by rewrite lookup_insert_ne.
Qed.

Lemma GetFreePort_never_twice_witness :
  10883 <> 10884 /\
  is_allocated (MarkPortUsed (MarkPortUsed sample_allocator 10883) 10884) 10883 = true /\
  is_allocated (MarkPortUsed (MarkPortUsed sample_allocator 10883) 10884) 10884 = true.
Proof.
  apply (GetFreePort_never_twice sample_host sample_host
           (enough_fuel sample_allocator) (enough_fuel sample_allocator) sample_allocator
           (MarkPortUsed sample_allocator 10883)
           (MarkPortUsed (MarkPortUsed sample_allocator 10883) 10884)); reflexivity.
Defined.

Lemma MarkPortUsed_never_leased_witness :
  10883 <> 10881 /\ is_allocated (MarkPortUsed sample_allocator 10883) 10881 = true.
Proof.
  apply (MarkPortUsed_never_leased sample_host (enough_fuel sample_allocator)
           globalPortAllocator (MarkPortUsed sample_allocator 10883) 10881 10883);
    [lia|reflexivity].
Defined.

Lemma ReleasePort_undoes_GetFreePort_witness :
  (forall q, is_allocated (ReleasePort (MarkPortUsed sample_allocator 10883) 10883) q
             = is_allocated sample_allocator q) /\
  minPort (ReleasePort (MarkPortUsed sample_allocator 10883) 10883) = minPort sample_allocator /\
  maxPort (ReleasePort (MarkPortUsed sample_allocator 10883) 10883) = maxPort sample_allocator /\
  exists pa'',
    GetFreePort sample_host (enough_fuel sample_allocator)
      (ReleasePort (MarkPortUsed sample_allocator 10883) 10883) = Some (pa'', inl 10883) /\
    forall q, is_allocated pa'' q = is_allocated (MarkPortUsed sample_allocator 10883) q.
Proof.
  apply (ReleasePort_undoes_GetFreePort sample_host (enough_fuel sample_allocator)
           sample_allocator (MarkPortUsed sample_allocator 10883) 10883).
  reflexivity.
Defined.

End PortsFacts.

(** ** [Manager.Run] *)

Module SchedulerFacts.

Import Runtime Scheduler.

Example parseDeviceList_samples :
  parseDeviceList " 0, 1,,3 " = inl [0; 1; 3] /\
  parseDeviceList "" = inr ErrEmptyDeviceList /\
  parseDeviceList "," = inr ErrNoValidDeviceIndices /\
  parseDeviceList "0,x" = inr (ErrInvalidDeviceIndex "x") /\
  parseDeviceList "-1" = inr (ErrNegativeDeviceIndex (-1)).
Proof. repeat split; reflexivity. Qed.

Example allocate_prefers_one_box :
  fst (Host.allocate "x" 2
         (Host.mk (map sample_device [0; 1; 2; 3]) (fun i => Some (i / 2))
            [Host.mkContainer "vllm-docker" sample_qwen [3]]
            Ports.globalPortAllocator 0 no_faults []))
  = inl (map sample_device [0; 1]).
Proof. reflexivity. Qed.

Lemma parseParts_nonneg (parts : list string) :
  forall indices result,
  Forall (fun i => 0 <= i) indices ->
  parseParts parts indices = inl result ->
  Forall (fun i => 0 <= i) result.
Proof.
  induction parts as [|part rest IH]; intros indices result Hacc Hparse; cbn in Hparse.
  - by inversion Hparse; subst.
  - destruct (String.eqb (GoStrings.TrimSpace part) ""); [by eapply IH|].
    destruct (GoStrings.Atoi (GoStrings.TrimSpace part)) as [idx|]; [|done].
    destruct (Z.ltb_spec idx 0); [done|].
    eapply IH; [|done]. apply Forall_app. split; [done|]. by constructor.
Qed.

Lemma parseDeviceList_nonneg (deviceList : string) (deviceIndices : list Z) :
  parseDeviceList deviceList = inl deviceIndices ->
  Forall (fun i => 0 <= i) deviceIndices.
Proof.
  unfold parseDeviceList. destruct (String.eqb _ ""); [done|].
  destruct (parseParts _ []) as [[|i l]|] eqn:Hparts; [done| |done].
  intros [= <-]. by eapply parseParts_nonneg.
Qed.


(** Every index the device loop accepts is a position of the inventory. *)
Lemma selectDevices_in_range (allDevices : list Device.t) (deviceIndices : list Z) :
  forall devices chosen,
  selectDevices allDevices deviceIndices devices = inl chosen ->
  Forall (fun i => 0 <= i < Z.of_nat (length allDevices)) deviceIndices.
Proof.
  induction deviceIndices as [|i rest IH]; intros devices chosen Hsel; [constructor|].
  cbn [selectDevices] in Hsel.
  destruct (Z.geb_spec i (Z.of_nat (length allDevices))); [done|].
  destruct (Z.ltb_spec i 0); [done|].
  destruct (allDevices !! Z.to_nat i); [|done].
  constructor; [lia|]. by eapply IH.
Qed.

Section RunFacts.

Context {W : Type} `{Backend W}.




(** C3 (as amended).  For every implementation of the runtime and of the
    device allocator: in every execution of [Run] in which the container
    is created and its start fails, [Run] returns the start error with
    the cause of the failure, after it has called [Remove] for the created
    instance and then [Release] for its instance id, once each.  It
    ignores what these two calls return: the world it leaves is the one
    they leave, whether they succeeded or not. *)
Theorem Run_start_failure_cleanup (m m1 : Manager) (opts : RunOptions.t) (w w1 w2 w3 : W)
    (devices : list DeviceInfo.t) (instance : Instance.t) (cause : gerror) :
  let runtimeName :=
    (RunOptions.BackendType opts ++ "-" ++ RunOptions.DeploymentMode opts)%string in
  let instanceID :=
    (RunOptions.ModelID opts ++ "-" ++ GoStrings.Itoa (timeNowUnix w))%string in
  find (runsModel (RunOptions.ModelID opts)) (List m w) = None ->
  runtimeName ∈ runtimes m ->
  RunOptions.ModelPath opts <> ""%string ->
  getOrCreateAllocator m w = inl m1 ->
  ((exists deviceList deviceIndices,
      RunOptions.AdditionalConfig opts !! "device"%string = Some (VString deviceList) /\
      deviceList <> ""%string /\
      parseDeviceList deviceList = inl deviceIndices /\
      selectDevices (GetAllDevices w) deviceIndices [] = inl devices /\
      w1 = w) \/
   ((forall deviceList,
       RunOptions.AdditionalConfig opts !! "device"%string = Some (VString deviceList) ->
       deviceList = ""%string) /\
    exists allocatedDevices,
      Allocate instanceID 1 w = (inl allocatedDevices, w1) /\
      devices = map toDeviceInfo allocatedDevices)) ->
  rtCreate runtimeName
    (CreateParams.mk instanceID (RunOptions.ModelID opts) "" (RunOptions.ModelPath opts)
       "latest" (RunOptions.BackendType opts) (RunOptions.DeploymentMode opts) "" devices
       (RunOptions.Port opts) 0 ∅ (RunOptions.AdditionalConfig opts)) w1
  = (inl instance, w2) ->
  rtStart runtimeName instanceID w2 = (Some cause, w3) ->
  Run m (Some opts) w
  = (inr (ErrStartInstance cause), m1,
     snd (Release instanceID (snd (rtRemove runtimeName instanceID w3)))).
Proof.
  cbn zeta. intros Hnone Hruntime Hpath Hallocator Hdevices Hcreate Hstart.
  unfold Run. rewrite Hnone, bool_decide_true by done. cbn [negb].
  destruct (String.eqb_spec (RunOptions.ModelPath opts) "") as [|_]; [done|].
  rewrite Hallocator.
  destruct Hdevices as [(deviceList & deviceIndices & Hconfig & Hlist & Hparse & Hselect & ->)
                       |(Hconfig & allocatedDevices & Hallocate & ->)].
  - rewrite Hconfig. destruct deviceList as [|c deviceList']; [done|].
    by rewrite Hparse, Hselect, Hcreate, Hstart.
  - assert (Hauto : match RunOptions.AdditionalConfig opts !! "device"%string with
                    | Some (VString (String c deviceList')) =>
                        match parseDeviceList (String c deviceList') with
                        | inr err => (inr (ErrInvalidDeviceList err), w)
                        | inl deviceIndices =>
                            (selectDevices (GetAllDevices w) deviceIndices [], w)
                        end
                    | _ =>
                        match Allocate
                                (RunOptions.ModelID opts ++ "-"
                                 ++ GoStrings.Itoa (timeNowUnix w))%string 1 w with
                        | (inr err, w) => (inr (ErrAllocateDevices err), w)
                        | (inl allocatedDevices, w) =>
                            (inl (map toDeviceInfo allocatedDevices), w)
                        end
                    end = (inl (map toDeviceInfo allocatedDevices), w1)).
    { destruct (RunOptions.AdditionalConfig opts !! "device"%string)
        as [[[|c deviceList']|?|]|] eqn:Hlookup; try by rewrite Hallocate.
      by specialize (Hconfig _ eq_refl). }
    by rewrite Hauto, Hcreate, Hstart.
Qed.

End RunFacts.





Lemma Run_start_failure_cleanup_witness :
  let h := sample_host_with start_faults [10881] in
  let opts := sample_opts "llama" ∅ in
  let allocated := Host.allocate "llama-1700000000" 1 h in
  let devices :=
    match fst allocated with
    | inl allocatedDevices => map toDeviceInfo allocatedDevices
    | inr _ => []
    end in
  let created :=
    Host.create "vllm-docker"
      (CreateParams.mk "llama-1700000000" "llama" "" "/data/models/llama" "latest" "vllm"
         "docker" "" devices 10882 0 ∅ ∅) (snd allocated) in
  let started := Host.start "vllm-docker" "llama-1700000000" (snd created) in
  Run sample_manager (Some opts) h
  = (inr (ErrStartInstance "engine: cannot start container"),
     mkManager ["vllm-docker"%string] true,
     snd (Host.release "llama-1700000000"
            (snd (Host.remove "vllm-docker" "llama-1700000000" (snd started))))).
Proof.
  intros h opts allocated devices created started.
  refine (Run_start_failure_cleanup sample_manager (mkManager ["vllm-docker"%string] true)
            opts h (snd allocated) (snd created) (snd started) devices
            (match fst created with inl instance => instance | inr _ => sample_qwen end)
            "engine: cannot start container" _ _ _ _ _ _ _).
  - reflexivity.
  - vm_compute. left.
  - vm_compute. discriminate.
  - reflexivity.
  - right. split.
    + intros deviceList Hlookup. vm_compute in Hlookup. discriminate Hlookup.
    + eexists. split; reflexivity.
  - reflexivity.
  - reflexivity.
Defined.

(** C3, counterexample.  The engine can neither start nor remove the
    container that [Run] creates for model llama: [Run] calls [Remove],
    which fails, and [Release], and returns the start error alone.  The
    created container stays in the engine, in state created and with chip
    1 in its label. *)
Lemma Run_failed_start_leaves_container :
  let h := sample_host_with stuck_faults [10881] in
  exists m' h',
    Run sample_manager (Some (sample_opts "llama" ∅)) h
    = (inr (ErrStartInstance "engine: cannot start container"), m', h') /\
    events_since h h'
    = [Host.Allocated "llama-1700000000" [1]; Host.Created "vllm-docker" "llama-1700000000";
       Host.StartFailed "vllm-docker" "llama-1700000000";
       Host.RemoveFailed "vllm-docker" "llama-1700000000";
       Host.Released "llama-1700000000"] /\
    map (fun c => (Instance.ID (Host.instance c), Instance.State (Host.instance c),
                   Host.device_indices c)) (Host.containers h)
    = [("qwen-1699999999", "running", [0])]%string /\
    map (fun c => (Instance.ID (Host.instance c), Instance.State (Host.instance c),
                   Host.device_indices c)) (Host.containers h')
    = [("qwen-1699999999", "running", [0]); ("llama-1700000000", "created", [1])]%string.
Proof.
  cbn zeta. eexists _, _. split; [vm_compute; reflexivity|]. by vm_compute.
Qed.

(** *** [parseDeviceList]: what it accepts *)

Lemma parseParts_indices (parts : list string) :
  forall indices result,
  Forall (fun i => 0 <= i <= GoInt.max_int) indices ->
  parseParts parts indices = inl result ->
  Forall (fun i => 0 <= i <= GoInt.max_int) result /\ (length indices <= length result)%nat.
Proof.
  induction parts as [|part rest IH]; intros indices result Hacc; cbn [parseParts].
  - by intros [= <-].
  - destruct (String.eqb (GoStrings.TrimSpace part) ""); [by apply IH|].
    destruct (GoStrings.Atoi (GoStrings.TrimSpace part)) as [idx|] eqn:Hidx; [|done].
    destruct (Z.ltb_spec idx 0); [done|]. intros Hrest.
    apply IH in Hrest as [Hall Hlen].
    + split; [done|]. rewrite length_app in Hlen. cbn in Hlen. lia.
    + apply Forall_app. split; [done|]. constructor; [|done].
      apply GoStringsFacts.Atoi_range in Hidx. lia.
Qed.

(** Every device list that [parseDeviceList] accepts is non-empty and
    holds only indices between 0 and the largest [int]. *)
Theorem parseDeviceList_accepts (deviceList : string) (deviceIndices : list Z) :
  parseDeviceList deviceList = inl deviceIndices ->
  deviceIndices <> [] /\ Forall (fun i => 0 <= i <= GoInt.max_int) deviceIndices.
Proof.
  unfold parseDeviceList. destruct (String.eqb (GoStrings.TrimSpace deviceList) ""); [done|].
  destruct (parseParts _ _) as [[|idx indices]|] eqn:Hparts; [done| |done].
  intros [= <-]. split; [done|]. by eapply parseParts_indices.
Qed.

Lemma parseParts_Itoa (indices : list Z) :
  forall acc,
  Forall (fun i => 0 <= i <= GoInt.max_int) indices ->
  parseParts (map GoStrings.Itoa indices) acc = inl (acc ++ indices).
Proof.
  induction indices as [|i indices IH]; intros acc Hall; cbn [map parseParts].
  - by rewrite app_nil_r.
  - apply Forall_cons in Hall as [Hi Hall].
    rewrite GoStringsFacts.TrimSpace_tight
      by (apply GoStringsFacts.numeral_tight, GoStringsFacts.Itoa_numeral; lia).
    destruct (String.eqb_spec (GoStrings.Itoa i) "") as [Hempty|_];
      [by apply GoStringsFacts.Itoa_nonempty in Hempty|].
    rewrite (GoStringsFacts.Atoi_numeral (GoStrings.Itoa i) i);
      [|apply GoStringsFacts.Itoa_numeral; lia|apply GoStringsFacts.digits_value_Itoa; lia
       |apply Hi|apply Hi].
    destruct (Z.ltb_spec i 0); [lia|]. rewrite IH by done. by rewrite <- app_assoc.
Qed.

(** The decimal rendering of a non-empty list of indices, joined by
    commas, parses back to that list. *)
Theorem parseDeviceList_Join (indices : list Z) :
  indices <> [] ->
  Forall (fun i => 0 <= i <= GoInt.max_int) indices ->
  parseDeviceList (Apiformat.Join (map GoStrings.Itoa indices) ",") = inl indices.
Proof.
  intros Hne Hall. unfold parseDeviceList.
  assert (Hparts : Forall GoStrings.numeral (map GoStrings.Itoa indices)).
  { apply Forall_fmap. eapply Forall_impl; [exact Hall|]. intros i [Hi _].
    by apply GoStringsFacts.Itoa_numeral. }
  assert (Hmap : map GoStrings.Itoa indices <> []) by (by destruct indices).
  rewrite GoStringsFacts.TrimSpace_tight by (by apply GoStringsFacts.Join_tight).
  destruct (String.eqb_spec (Apiformat.Join (map GoStrings.Itoa indices) ",") "") as [Hempty|_].
  { destruct (GoStringsFacts.Join_tight _ Hmap Hparts) as [(c & Hhead & _) _].
    by rewrite Hempty in Hhead. }
  rewrite GoStringsFacts.Split_Join, parseParts_Itoa by done. cbn [app]. by destruct indices.
Qed.

Lemma parseDeviceList_accepts_witness :
  [0; 1; 3] <> [] /\ Forall (fun i => 0 <= i <= GoInt.max_int) [0; 1; 3].
Proof. apply (parseDeviceList_accepts " 0, 1,,3 "). reflexivity. Defined.

Lemma parseDeviceList_Join_witness :
  parseDeviceList (Apiformat.Join (map GoStrings.Itoa [3; 0; 12]) ",") = inl [3; 0; 12].
Proof.
  apply (parseDeviceList_Join [3; 0; 12]); [discriminate|].
  repeat constructor; vm_compute; discriminate.
Defined.

(** *** [Run]: what it never does *)

Lemma selectDevices_picks_from (allDevices : list Device.t) (deviceIndices : list Z) :
  forall devices chosen,
  Forall (fun i => 0 <= i) deviceIndices ->
  selectDevices allDevices deviceIndices devices = inl chosen ->
  exists picked,
    chosen = devices ++ picked /\
    Forall2 (fun idx info =>
               exists dev, allDevices !! Z.to_nat idx = Some dev /\ info = toDeviceInfo dev)
            deviceIndices picked.
Proof.
  induction deviceIndices as [|idx rest IH]; intros devices chosen Hnonneg; cbn [selectDevices].
  - intros [= <-]. exists []. by rewrite app_nil_r.
  - apply Forall_cons in Hnonneg as [Hidx Hrest].
    destruct (idx >=? Z.of_nat (length allDevices)); [done|].
    destruct (idx <? 0); [done|].
    destruct (allDevices !! Z.to_nat idx) as [dev|] eqn:Hdev; [|done].
    intros (picked & -> & Hpairs)%IH; [|done].
    exists (toDeviceInfo dev :: picked). rewrite <- app_assoc. split; [done|].
    constructor; [by exists dev|done].
Qed.

Lemma selectDevices_no_panic (allDevices : list Device.t) (deviceIndices : list Z) :
  forall devices,
  Forall (fun i => 0 <= i) deviceIndices ->
  selectDevices allDevices deviceIndices devices <> inr PanicIndexOutOfRange.
Proof.
  induction deviceIndices as [|idx rest IH]; intros devices Hnonneg; cbn [selectDevices];
    [done|].
  apply Forall_cons in Hnonneg as [Hidx Hrest].
  destruct (Z.geb_spec idx (Z.of_nat (length allDevices))) as [|Hin]; [done|].
  destruct (Z.ltb_spec idx 0); [lia|].
  destruct (allDevices !! Z.to_nat idx) as [dev|] eqn:Hdev; [by apply IH|].
  apply lookup_ge_None in Hdev. lia.
Qed.

(** The devices of an explicit device list are taken from the inventory
    by position, in the order of the list and as often as the list names
    them: the device at position i for the index i, whatever the
    [Index] of that device and whoever holds it. *)
Theorem selectDevices_by_position (allDevices : list Device.t) (deviceList : string)
                                  (deviceIndices : list Z) (chosen : list DeviceInfo.t) :
  parseDeviceList deviceList = inl deviceIndices ->
  selectDevices allDevices deviceIndices [] = inl chosen ->
  Forall2 (fun idx info =>
             exists dev, allDevices !! Z.to_nat idx = Some dev /\ info = toDeviceInfo dev)
          deviceIndices chosen.
Proof.
  intros Hparse Hselect.
  destruct (selectDevices_picks_from allDevices deviceIndices [] chosen)
    as (picked & -> & Hpairs); [by eapply parseDeviceList_nonneg|done|done].
Qed.

Section ManagerFacts.

Context {W : Type} `{Backend W}.

(** No device list makes [Run] index the inventory out of range: [Run]
    never ends in the panic of an index expression. *)
Theorem Run_never_panics (m : Manager) (opts : option RunOptions.t) (w : W) :
  fst (fst (Run m opts w)) <> inr PanicIndexOutOfRange.
Proof.
  unfold Run. destruct opts as [opts|]; [|done].
  destruct (find _ (List m w)); [done|].
  destruct (negb _); [done|].
  destruct (String.eqb _ ""); [done|].
  destruct (getOrCreateAllocator m w) as [m'|]; [|done].
  destruct (RunOptions.AdditionalConfig opts !! "device"%string) as [[[|c deviceList]|?|]|].
  1,3,4,5: destruct (Allocate _ 1 w) as [[devices|err] w']; [|done];
    destruct (rtCreate _ _ w') as [[instance|err] w'']; [|done];
    by destruct (rtStart _ _ w'') as [[err|] w'''].
  destruct (parseDeviceList (String c deviceList)) as [deviceIndices|] eqn:Hparse; [|done].
  pose proof (selectDevices_no_panic (GetAllDevices w) deviceIndices []
                ltac:(by eapply parseDeviceList_nonneg)) as Hsafe.
  destruct (selectDevices (GetAllDevices w) deviceIndices []) as [devices|err]; [|by intros [= ->]].
  destruct (rtCreate _ _ w) as [[instance|err] w'']; [|done].
  by destruct (rtStart _ _ w'') as [[err|] w'''].
Qed.

(** A request that [Run] rejects before it allocates a device (no
    options, a runtime that is not registered, no model path, an
    allocator that cannot be set up, a device list that does not parse or
    names an index outside the inventory) leaves the world as it was and
    registers no runtime. *)
Theorem Run_rejection_changes_nothing (m m' : Manager) (opts : option RunOptions.t)
                                      (w w' : W) (err : RunError) :
  Run m opts w = (inr err, m', w') ->
  rejected err = true ->
  w' = w /\ runtimes m' = runtimes m.
Proof.
  unfold Run. destruct opts as [opts|]; [|by intros [= <- <- <-]].
  destruct (find _ (List m w)); [done|].
  destruct (negb _); [by intros [= <- <- <-]|].
  destruct (String.eqb _ ""); [by intros [= <- <- <-]|].
  assert (Hm : forall m1, getOrCreateAllocator m w = inl m1 -> runtimes m1 = runtimes m).
  { unfold getOrCreateAllocator. intros m1. destruct (deviceAllocator m); [by intros [= <-]|].
    destruct (NewAllocator w); [done|]. by intros [= <-]. }
  destruct (getOrCreateAllocator m w) as [m1|]; [|by intros [= <- <- <-]].
  specialize (Hm m1 eq_refl).
  destruct (RunOptions.AdditionalConfig opts !! "device"%string) as [[[|c deviceList]|?|]|].
  1,3,4,5: destruct (Allocate _ 1 w) as [[devices|cause] w1]; [|by intros [= <- <- <-]];
    destruct (rtCreate _ _ w1) as [[instance|cause] w2]; [|by intros [= <- <- <-]];
    destruct (rtStart _ _ w2) as [[cause|] w3]; [by intros [= <- <- <-]|done].
  destruct (parseDeviceList (String c deviceList)) as [deviceIndices|];
    [|by intros [= <- <- <-]].
  destruct (selectDevices (GetAllDevices w) deviceIndices []) as [devices|cause];
    [|by intros [= <- <- <-]].
  destruct (rtCreate _ _ w) as [[instance|cause] w2]; [|by intros [= <- <- <-]].
  destruct (rtStart _ _ w2) as [[cause|] w3]; [by intros [= <- <- <-]|done].
Qed.

End ManagerFacts.

Lemma selectDevices_by_position_witness :
  Forall2 (fun idx info =>
             exists dev, map sample_device [0; 1; 2; 3] !! Z.to_nat idx = Some dev /\
                         info = toDeviceInfo dev)
          [3; 0; 3] (map (fun i => toDeviceInfo (sample_device i)) [3; 0; 3]).
Proof.
  apply (selectDevices_by_position (map sample_device [0; 1; 2; 3]) "3, 0,3" [3; 0; 3]);
    reflexivity.
Defined.

Lemma Run_rejection_changes_nothing_witness :
  sample_host = sample_host /\
  runtimes (mkManager ["vllm-docker"%string] true) = runtimes sample_manager.
Proof.
  apply (Run_rejection_changes_nothing sample_manager (mkManager ["vllm-docker"%string] true)
           (Some (sample_opts "llama" {[ "device"%string := VString "0,x" ]}))
           sample_host sample_host (ErrInvalidDeviceList (ErrInvalidDeviceIndex "x")));
    reflexivity.
Defined.

(** *** Registration and the instance life cycle *)

(** A runtime name is registered once: a registration that succeeds adds
    a name that was not there and keeps the others, so the names stay
    distinct, and a second registration of the same name fails. *)
Theorem RegisterRuntime_once (m m' : Manager) (name : string) :
  NoDup (runtimes m) ->
  RegisterRuntime m (Some name) = inl m' ->
  (name ∉ runtimes m) /\
  NoDup (runtimes m') /\
  (forall other, other ∈ runtimes m' <-> other = name \/ other ∈ runtimes m) /\
  deviceAllocator m' = deviceAllocator m /\
  RegisterRuntime m' (Some name) = inr (ErrAlreadyRegistered name).
Proof.
  intros Hdistinct. unfold RegisterRuntime. case_bool_decide as Hname; [done|].
  intros [= <-]. cbn [runtimes deviceAllocator].
  split; [done|]. split.
  { apply NoDup_app. split; [done|]. split; [|apply NoDup_singleton].
    intros other Hother ->%list_elem_of_singleton. done. }
  split; [intros other; rewrite elem_of_app, list_elem_of_singleton; tauto|].
  split; [done|]. rewrite bool_decide_true; [done|].
  rewrite elem_of_app, list_elem_of_singleton. by right.
Qed.

Section LifecycleFacts.

Context {W : Type} `{Backend W} `{Lifecycle W}.

Lemma findIn_none (rts : list string) (instanceID : string) (w : W) :
  (forall rt, rt ∈ rts -> exists err, rtGet rt instanceID w = inr err) ->
  findIn rts instanceID w = None.
Proof.
  induction rts as [|rt rest IH]; intros Hunknown; cbn [findIn]; [done|].
  destruct (Hunknown rt) as [err ->]; [by left|]. apply IH.
  intros other Hother. apply Hunknown. by right.
Qed.

(** An instance that no registered runtime knows cannot be started,
    stopped or removed: each of these calls answers that the instance was
    not found and leaves the world as it was; in particular no device is
    released. *)
Theorem unknown_instance_not_found (m : Manager) (instanceID : string) (w : W) :
  (forall rt, rt ∈ runtimes m -> exists err, rtGet rt instanceID w = inr err) ->
  Get m instanceID w = inr (ErrInstanceNotFound instanceID) /\
  Start m instanceID w = (Some (ErrInstanceNotFound instanceID), w) /\
  Stop m instanceID w = (Some (ErrInstanceNotFound instanceID), w) /\
  StopCompat m instanceID w = (Some (ErrInstanceNotFound instanceID), w) /\
  Remove m instanceID w = (Some (ErrInstanceNotFound instanceID), w).
Proof.
  intros Hunknown%findIn_none.
  unfold Get, Start, StopCompat, Stop, Remove, findInstanceRuntime. by rewrite Hunknown.
Qed.

End LifecycleFacts.

Lemma RegisterRuntime_once_witness :
  ("mindie-docker"%string ∉ runtimes sample_manager) /\
  NoDup (runtimes (mkManager ["vllm-docker"; "mindie-docker"]%string false)) /\
  (forall other,
     other ∈ runtimes (mkManager ["vllm-docker"; "mindie-docker"]%string false)
     <-> other = "mindie-docker"%string \/ other ∈ runtimes sample_manager) /\
  deviceAllocator (mkManager ["vllm-docker"; "mindie-docker"]%string false)
  = deviceAllocator sample_manager /\
  RegisterRuntime (mkManager ["vllm-docker"; "mindie-docker"]%string false)
    (Some "mindie-docker"%string)
  = inr (ErrAlreadyRegistered "mindie-docker").
Proof.
  apply (RegisterRuntime_once sample_manager
           (mkManager ["vllm-docker"; "mindie-docker"]%string false) "mindie-docker").
  - apply (bool_decide_unpack _). by vm_compute.
  - reflexivity.
Defined.

Lemma unknown_instance_not_found_witness :
  Get sample_manager "llama-1" sample_host = inr (ErrInstanceNotFound "llama-1") /\
  Start sample_manager "llama-1" sample_host = (Some (ErrInstanceNotFound "llama-1"), sample_host) /\
  Stop sample_manager "llama-1" sample_host = (Some (ErrInstanceNotFound "llama-1"), sample_host) /\
  StopCompat sample_manager "llama-1" sample_host
  = (Some (ErrInstanceNotFound "llama-1"), sample_host) /\
  Remove sample_manager "llama-1" sample_host
  = (Some (ErrInstanceNotFound "llama-1"), sample_host).
Proof.
  apply (unknown_instance_not_found sample_manager "llama-1" sample_host).
  intros rt Hrt%list_elem_of_singleton. subst rt. by eexists.
Defined.

End SchedulerFacts.

(** ** The request router *)

Module RouterFacts.

Import Runtime Scheduler Router.

Section WithToLower.

Variable ToLower : string -> string.

Context {W : Type} `{Backend W}.

Lemma exactMatch_aliasOf (modelName : string) (inst : Instance.t) :
  exactMatch ToLower modelName inst <-> ToLower (aliasOf inst) = ToLower modelName.
Proof.
  unfold exactMatch, aliasOf.
  destruct (String.eqb_spec (Instance.Alias inst) "") as [Hempty|Halias]; split.
  - by intros [[? _]|[_ ?]].
  - by right.
  - by intros [[_ ?]|[? _]].
  - by left.
Qed.

Lemma prefixMatch_aliasOf (modelName : string) (inst : Instance.t) :
  prefixMatch ToLower modelName inst <->
  GoStrings.HasPrefix (ToLower (aliasOf inst)) (ToLower modelName) = true \/
  GoStrings.HasPrefix (ToLower modelName) (ToLower (aliasOf inst)) = true.
Proof.
  unfold prefixMatch, aliasOf.
  destruct (String.eqb_spec (Instance.Alias inst) "") as [Hempty|Halias]; split.
  - by intros [[? _]|[_ ?]].
  - by right.
  - by intros [[_ ?]|[? _]].
  - by left.
Qed.

Lemma exactPass_first (instances : list Instance.t) (modelName : string) :
  match exactPass ToLower instances (ToLower modelName) with
  | Some inst => firstRunning (exactMatch ToLower modelName) instances inst
  | None => noneRunning (exactMatch ToLower modelName) instances
  end.
Proof.
  induction instances as [|inst rest IH]; cbn [exactPass].
  - intros other Hin. inversion Hin.
  - destruct (String.eqb (Instance.State inst) "running") eqn:Hstate; cbn [negb].
    + apply String.eqb_eq in Hstate.
      destruct (String.eqb (ToLower (aliasOf inst)) (ToLower modelName)) eqn:Halias.
      * apply String.eqb_eq, exactMatch_aliasOf in Halias.
        exists [], rest. split; [done|]. split; [done|]. split; [done|].
        intros other Hin. inversion Hin.
      * apply String.eqb_neq in Halias. rewrite <- exactMatch_aliasOf in Halias.
        destruct (exactPass ToLower rest (ToLower modelName)) as [found|].
        -- destruct IH as (before & after & -> & Hrun & Hmatch & Hfirst).
           exists (inst :: before), after. repeat split; try done.
           intros other [->|Hin]%elem_of_cons; [by intros [_ ?]|by apply Hfirst].
        -- intros other [->|Hin]%elem_of_cons; [by intros [_ ?]|by apply IH].
    + apply String.eqb_neq in Hstate.
      destruct (exactPass ToLower rest (ToLower modelName)) as [found|].
      * destruct IH as (before & after & -> & Hrun & Hmatch & Hfirst).
        exists (inst :: before), after. repeat split; try done.
        intros other [->|Hin]%elem_of_cons; [by intros [? _]|by apply Hfirst].
      * intros other [->|Hin]%elem_of_cons; [by intros [? _]|by apply IH].
Qed.

Lemma prefixPass_first (instances : list Instance.t) (modelName : string) :
  match prefixPass ToLower instances (ToLower modelName) with
  | Some inst => firstRunning (prefixMatch ToLower modelName) instances inst
  | None => noneRunning (prefixMatch ToLower modelName) instances
  end.
Proof.
  induction instances as [|inst rest IH]; cbn [prefixPass].
  - intros other Hin. inversion Hin.
  - destruct (String.eqb (Instance.State inst) "running") eqn:Hstate; cbn [negb].
    + apply String.eqb_eq in Hstate.
      destruct (GoStrings.HasPrefix (ToLower (aliasOf inst)) (ToLower modelName)
                || GoStrings.HasPrefix (ToLower modelName) (ToLower (aliasOf inst)))
        eqn:Hprefix.
      * apply orb_true_iff, prefixMatch_aliasOf in Hprefix.
        exists [], rest. split; [done|]. split; [done|]. split; [done|].
        intros other Hin. inversion Hin.
      * apply orb_false_iff in Hprefix as [Hp1 Hp2].
        assert (Hno : ~ prefixMatch ToLower modelName inst).
        { rewrite prefixMatch_aliasOf. intros [Hp|Hp]; congruence. }
        destruct (prefixPass ToLower rest (ToLower modelName)) as [found|].
        -- destruct IH as (before & after & -> & Hrun & Hmatch & Hfirst).
           exists (inst :: before), after. repeat split; try done.
           intros other [->|Hin]%elem_of_cons; [by intros [_ ?]|by apply Hfirst].
        -- intros other [->|Hin]%elem_of_cons; [by intros [_ ?]|by apply IH].
    + apply String.eqb_neq in Hstate.
      destruct (prefixPass ToLower rest (ToLower modelName)) as [found|].
      * destruct IH as (before & after & -> & Hrun & Hmatch & Hfirst).
        exists (inst :: before), after. repeat split; try done.
        intros other [->|Hin]%elem_of_cons; [by intros [? _]|by apply Hfirst].
      * intros other [->|Hin]%elem_of_cons; [by intros [? _]|by apply IH].
Qed.

(** C5.  Model resolution is case-insensitive and made in two passes over
    the running instances.  A result is the first running instance, in
    listing order, whose alias (the model id when the alias is empty)
    equals the request model after case folding; when no running instance
    matches exactly, it is the first running instance whose folded alias
    is a prefix of the folded request model or the other way round; and
    when no running instance matches in either way the router reports
    that no running instance serves the model.  Two request models that
    fold to the same string resolve to the same instance. *)
Theorem FindInstanceByModel_two_passes (m : Manager) (w : W) (modelName : string) :
  match FindInstanceByModel ToLower m w modelName with
  | inl inst =>
      firstRunning (exactMatch ToLower modelName) (List m w) inst \/
      (noneRunning (exactMatch ToLower modelName) (List m w) /\
       firstRunning (prefixMatch ToLower modelName) (List m w) inst)
  | inr err =>
      err = ErrNoRunningInstance modelName /\
      noneRunning (exactMatch ToLower modelName) (List m w) /\
      noneRunning (prefixMatch ToLower modelName) (List m w)
  end /\
  forall modelName' inst,
    ToLower modelName' = ToLower modelName ->
    FindInstanceByModel ToLower m w modelName = inl inst ->
    FindInstanceByModel ToLower m w modelName' = inl inst.
Proof.
  unfold FindInstanceByModel, listInstances. split.
  - pose proof (exactPass_first (List m w) modelName) as Hexact.
    pose proof (prefixPass_first (List m w) modelName) as Hprefix.
    destruct (exactPass ToLower (List m w) (ToLower modelName)) as [inst|]; [by left|].
    destruct (prefixPass ToLower (List m w) (ToLower modelName)) as [inst|]; [by right|done].
  - intros modelName' inst ->.
    destruct (exactPass ToLower (List m w) (ToLower modelName)); [done|].
    by destruct (prefixPass ToLower (List m w) (ToLower modelName)).
Qed.


End WithToLower.

Example FindInstanceByModel_samples :
  let find := FindInstanceByModel GoStrings.ascii_ToLower sample_manager sample_router_host in
  find "Qwen" = inl sample_qwen /\
  find "claude-sonnet-4-5" = inl sample_claude /\
  find "CLAUDE" = inl sample_claude /\
  find "q" = inl sample_qwen /\
  find "llama" = inr (ErrNoRunningInstance "llama").
Proof. repeat split; reflexivity. Qed.

(** *** Headers and the forwarded request *)

Section HeaderFacts.

Variable CanonicalMIMEHeaderKey : string -> string.

Lemma values_Add (h : Header) (key value name : string) :
  CanonicalMIMEHeaderKey key = key ->
  values (Add CanonicalMIMEHeaderKey h key value) name
  = values h name ++ (if String.eqb key name then [value] else []).
Proof.
  intros Hkey. unfold Add, values, Header. rewrite Hkey.
  destruct (String.eqb_spec key name) as [->|Hne].
  - by rewrite lookup_insert_eq.
  - rewrite lookup_insert_ne by done. by rewrite app_nil_r.
Qed.

Lemma values_Add_all (vals : list string) :
  forall (h : Header) (key name : string),
  CanonicalMIMEHeaderKey key = key ->
  values (foldl (fun dst v => Add CanonicalMIMEHeaderKey dst key v) h vals) name
  = values h name ++ (if String.eqb key name then vals else []).
Proof.
  induction vals as [|v vals IH]; intros h key name Hkey; cbn [foldl].
  - destruct (String.eqb key name); by rewrite app_nil_r.
  - rewrite IH, values_Add by done.
    destruct (String.eqb key name); by rewrite <- app_assoc.
Qed.

Lemma entryValues_fresh (src : Entries) (name : string) :
  name ∉ map fst src -> entryValues src name = [].
Proof.
  unfold entryValues. induction src as [|entry src IH]; [done|].
  cbn [map find]. rewrite not_elem_of_cons. intros [Hne Hrest].
  destruct (String.eqb_spec (fst entry) name) as [Heq|_]; [by destruct Hne|]. by apply IH.
Qed.

Lemma copyHeaders_appends (src : Entries) :
  forall (dst : Header) (name : string),
  canonical CanonicalMIMEHeaderKey src ->
  NoDup (map fst src) ->
  values (copyHeaders CanonicalMIMEHeaderKey src dst) name
  = values dst name
    ++ (if bool_decide (name ∈ hopByHopHeaders) then [] else entryValues src name).
Proof.
  unfold copyHeaders, canonical.
  induction src as [|entry src IH]; intros dst name Hcanon Hdistinct; cbn [foldl map].
  - unfold entryValues. cbn. by destruct (bool_decide _); rewrite app_nil_r.
  - apply Forall_cons in Hcanon as [Hkey Hcanon].
    cbn [map] in Hdistinct. apply NoDup_cons in Hdistinct as [Hfresh Hdistinct].
    rewrite IH by done. unfold entryValues at 2. cbn [find].
    destruct (String.eqb_spec (fst entry) name) as [Heq|Hne].
    + subst name. rewrite (entryValues_fresh src) by done.
      case_bool_decide as Hhop; [by rewrite !app_nil_r|].
      rewrite values_Add_all, String.eqb_refl, app_nil_r by done. done.
    + fold (entryValues src name). f_equal.
      destruct (bool_decide (fst entry ∈ hopByHopHeaders)); [done|].
      rewrite values_Add_all by done.
      destruct (String.eqb_spec (fst entry) name); [done|by rewrite app_nil_r].
Qed.



(** The request that [ForwardRequest] builds goes to the port of the
    instance on localhost, with the query appended when there is one.
    For client headers in canonical form it carries no hop-by-hop header,
    every other header of the client but Content-Type unchanged, and,
    as Content-Type the client's, or application/json when the client
    gives none and there is a body. *)
Theorem proxyRequest_forwards (method path query body : string) (srcHeaders : Entries)
                              (instance : Instance.t) :
  canonical CanonicalMIMEHeaderKey srcHeaders ->
  NoDup (map fst srcHeaders) ->
  CanonicalMIMEHeaderKey "Content-Type" = "Content-Type"%string ->
  let request := proxyRequest CanonicalMIMEHeaderKey method path query body srcHeaders instance in
  URL request
  = ("http://localhost:" +:+ GoStrings.Itoa (Instance.Port instance) +:+ path)
    +:+ (if String.eqb query "" then "" else "?" +:+ query) /\
  Method request = method /\ Body request = body /\
  (forall name, name ∈ hopByHopHeaders -> values (Headers request) name = []) /\
  (forall name, name ∉ hopByHopHeaders -> name <> "Content-Type"%string ->
     values (Headers request) name = entryValues srcHeaders name) /\
  Get CanonicalMIMEHeaderKey (Headers request) "Content-Type"
  = (let client := hd ""%string (entryValues srcHeaders "Content-Type") in
     if String.eqb client "" && negb (String.eqb body "") then "application/json"%string
     else client).
Proof.
  intros Hcanon Hdistinct Htype. cbn zeta. unfold proxyRequest.
  set (header := copyHeaders CanonicalMIMEHeaderKey srcHeaders ∅).
  assert (Hcopied : forall name, values header name
            = if bool_decide (name ∈ hopByHopHeaders) then [] else entryValues srcHeaders name).
  { intros name. subst header. by rewrite copyHeaders_appends. }
  clearbody header. cbn [URL Method Body Headers].
  assert (Hother : forall name, name <> "Content-Type"%string ->
            values (if String.eqb (Get CanonicalMIMEHeaderKey header "Content-Type") ""
                       && (0 <? String.length body)%nat
                    then Set_ CanonicalMIMEHeaderKey header "Content-Type" "application/json"
                    else header) name = values header name).
  { intros name Hname. destruct (_ && _); [|done].
    unfold Set_, values, Header. rewrite Htype. by rewrite lookup_insert_ne. }
  split.
  { destruct (String.eqb query ""); cbn [negb]; [|done].
    generalize ("http://localhost:" +:+ GoStrings.Itoa (Instance.Port instance) +:+ path).
    intros base. induction base as [|c base IH]; [done|].
    change (String c base +:+ "") with (String c (base +:+ "")). by rewrite <- IH. }
  split; [done|]. split; [done|]. split; [|split].
  - intros name Hhop. rewrite Hother.
    + by rewrite Hcopied, bool_decide_true.
    + intros ->. apply list_elem_of_In in Hhop. cbn in Hhop. intuition discriminate.
  - intros name Hhop Hname. rewrite Hother by done. by rewrite Hcopied, bool_decide_false.
  - assert (Hclient : Get CanonicalMIMEHeaderKey header "Content-Type"
                      = hd ""%string (entryValues srcHeaders "Content-Type")).
    { unfold Get. rewrite Htype, Hcopied. by destruct (entryValues srcHeaders "Content-Type"). }
    assert (Hlen : (0 <? String.length body)%nat = negb (String.eqb body "")).
    { by destruct body. }
    cbn zeta. rewrite <- Hclient, Hlen.
    destruct (String.eqb (Get CanonicalMIMEHeaderKey header "Content-Type") "");
      destruct (String.eqb body ""); cbn [andb negb]; try done.
    unfold Get, Set_, values, Header. by rewrite Htype, lookup_insert_eq.
Qed.

End HeaderFacts.


Lemma proxyRequest_forwards_witness :
  let request := proxyRequest (fun key => key) "POST" "/v1/chat/completions" "" "{}"
                   sample_headers sample_claude in
  URL request
  = ("http://localhost:" +:+ GoStrings.Itoa (Instance.Port sample_claude)
     +:+ "/v1/chat/completions") +:+ "" /\
  Method request = "POST"%string /\ Body request = "{}"%string /\
  (forall name, name ∈ hopByHopHeaders -> values (Headers request) name = []) /\
  (forall name, name ∉ hopByHopHeaders -> name <> "Content-Type"%string ->
     values (Headers request) name = entryValues sample_headers name) /\
  Get (fun key => key) (Headers request) "Content-Type" = "application/json"%string.
Proof.
  apply (proxyRequest_forwards (fun key => key) "POST" "/v1/chat/completions" "" "{}"
           sample_headers sample_claude).
  - by repeat constructor.
  - apply (bool_decide_unpack _). by vm_compute.
  - reflexivity.
Defined.

Section Running.

Variable ToLower : string -> string.

Context {W : Type} `{Backend W}.

Lemma exactPass_running (instances : list Instance.t) (modelNameLower : string)
                        (inst : Instance.t) :
  exactPass ToLower instances modelNameLower = Some inst ->
  Instance.State inst = "running"%string.
Proof.
  induction instances as [|first rest IH]; cbn [exactPass]; [done|].
  destruct (String.eqb_spec (Instance.State first) "running") as [Hstate|_]; cbn [negb]; [|done].
  destruct (String.eqb _ modelNameLower); [|done]. by intros [= <-].
Qed.

Lemma prefixPass_running (instances : list Instance.t) (modelNameLower : string)
                         (inst : Instance.t) :
  prefixPass ToLower instances modelNameLower = Some inst ->
  Instance.State inst = "running"%string.
Proof.
  induction instances as [|first rest IH]; cbn [prefixPass]; [done|].
  destruct (String.eqb_spec (Instance.State first) "running") as [Hstate|_]; cbn [negb]; [|done].
  cbn zeta. destruct (_ || _); [|done]. by intros [= <-].
Qed.

(** The router hands out running instances only. *)
Lemma FindInstanceByModel_running (m : Manager) (w : W) (modelName : string)
                                  (inst : Instance.t) :
  FindInstanceByModel ToLower m w modelName = inl inst ->
  Instance.State inst = "running"%string.
Proof.
  unfold FindInstanceByModel, listInstances. cbn zeta.
  destruct (exactPass _ _ _) as [exact|] eqn:Hexact.
  - intros [= <-]. by apply exactPass_running in Hexact.
  - destruct (prefixPass _ _ _) as [prefix|] eqn:Hprefix; [|done].
    intros [= <-]. by apply prefixPass_running in Hprefix.
Qed.

End Running.

End RouterFacts.

(** ** The format translator *)

Module ApiformatFacts.

Import Runtime Apiformat.

Section WithDecoders.

Variable unmarshalResponse : string -> OpenAIChatResponse.t + gerror.
Variable unmarshalObject : string -> option (option object).
Variable randomHex : nat -> string.

(** C9.  [ConvertResponse] returns an error and no response for every
    body that does not decode and for every body whose choices are absent
    or empty; a response is produced only from a body that decodes to at
    least one choice, and it is built from the first one. *)
Theorem ConvertResponse_needs_a_choice (body requestModel : string) :
  (forall err, unmarshalResponse body = inr err ->
     ConvertResponse unmarshalResponse unmarshalObject randomHex body requestModel = inr (ErrParseResponse err)) /\
  (forall resp, unmarshalResponse body = inl resp ->
     OpenAIChatResponse.Choices resp = [] ->
     ConvertResponse unmarshalResponse unmarshalObject randomHex body requestModel = inr ErrNoChoices) /\
  (forall out, ConvertResponse unmarshalResponse unmarshalObject randomHex body requestModel = inl out ->
     exists resp choice rest,
       unmarshalResponse body = inl resp /\
       OpenAIChatResponse.Choices resp = choice :: rest /\
       MessagesResponse.Content out <> [] /\
       MessagesResponse.StopReason out = mapFinishReason (OpenAIChoice.FinishReason choice) /\
       MessagesResponse.Model out = requestModel).
Proof.
  unfold ConvertResponse. repeat split.
  - by intros err ->.
  - by intros resp -> ->.
  - intros out Hout. destruct (unmarshalResponse body) as [resp|err]; [|done].
    destruct (OpenAIChatResponse.Choices resp) as [|choice rest] eqn:Hchoices; [done|].
    injection Hout as <-. exists resp, choice, rest. repeat split; [done|]. cbn.
    unfold buildContentBlocks.
    match goal with |- context [match ?blocks with [] => _ | _ :: _ => _ end] =>
      by destruct blocks end.
Qed.

End WithDecoders.

Section WithRequestDecoders.

Variable unmarshalString : string -> option string.
Variable unmarshalBlocks : string -> list ContentBlock.t + gerror.
Variable unmarshalObject : string -> option (option object).
Variable marshalObject : option object -> option string.

(** C10.  A user message whose content is an array of blocks with at
    least one tool_result block is converted to exactly one OpenAI user
    message with a plain string content, and that string is never empty:
    it is the trimmed concatenation of the text blocks and the
    tool-result sections, and the placeholder "..." when that is empty. *)
Theorem tool_result_message_never_empty (msg : Message.t) (blocks : list ContentBlock.t) :
  Message.Role msg = "user"%string ->
  unmarshalString (Message.Content msg) = None ->
  unmarshalBlocks (Message.Content msg) = inl blocks ->
  (exists b, b ∈ blocks /\ ContentBlock.Type_ b = "tool_result"%string) ->
  exists text,
    convertOneMessage unmarshalString unmarshalBlocks unmarshalObject marshalObject msg = inl [userMessage (ContentString text)] /\
    text <> ""%string /\
    (GoStrings.TrimSpace (toolResultText unmarshalString unmarshalBlocks unmarshalObject marshalObject blocks) = ""%string -> text = "..."%string) /\
    (GoStrings.TrimSpace (toolResultText unmarshalString unmarshalBlocks unmarshalObject marshalObject blocks) <> ""%string ->
     text = GoStrings.TrimSpace (toolResultText unmarshalString unmarshalBlocks unmarshalObject marshalObject blocks)).
Proof.
  intros Hrole Hstring Hblocks (b & Hin & Htype).
  unfold convertOneMessage. rewrite Hstring, Hblocks, Hrole. cbn [String.eqb Ascii.eqb Bool.eqb].
  unfold convertUserBlocks.
  assert (Hhas : existsb (fun b => String.eqb (ContentBlock.Type_ b) "tool_result") blocks = true).
  { apply existsb_exists. exists b. split; [by apply list_elem_of_In|].
    by apply String.eqb_eq. }
  rewrite Hhas. unfold convertUserToolResults.
  destruct (String.eqb (GoStrings.TrimSpace (toolResultText unmarshalString unmarshalBlocks unmarshalObject marshalObject blocks)) "") eqn:Hempty.
  - apply String.eqb_eq in Hempty. exists "..."%string. by repeat split.
  - apply String.eqb_neq in Hempty. exists (GoStrings.TrimSpace (toolResultText unmarshalString unmarshalBlocks unmarshalObject marshalObject blocks)).
    by repeat split.
Qed.

End WithRequestDecoders.

Example ConvertResponse_samples :
  let convert := ConvertResponse sample_unmarshalResponse (fun _ => None) sample_hex in
  convert (quoted "{'choices':[{'message':{'content':'Hello'},'finish_reason':'stop'}],'usage':{'prompt_tokens':2,'completion_tokens':1,'total_tokens':3}}") "m"
  = inl (MessagesResponse.mk "msg_0123456789abcdef01234567" "message" "assistant" "m"
           [ContentBlock.text "Hello"] "end_turn" None (Usage.mk 2 1 0 0)) /\
  convert (quoted "{'id':'chatcmpl-2','choices':[]}") "m" = inr ErrNoChoices /\
  convert "<html>" "m" = inr (ErrParseResponse "invalid character").
Proof. repeat split; reflexivity. Qed.

Lemma tool_result_message_never_empty_witness :
  exists text,
    convertOneMessage sample_unmarshalString sample_unmarshalBlocks (fun _ => None)
        (fun _ => None) (Message.mk "user" sample_tool_result_content)
    = inl [userMessage (ContentString text)] /\
    text <> ""%string /\
    (GoStrings.TrimSpace
       (toolResultText sample_unmarshalString sample_unmarshalBlocks (fun _ => None)
          (fun _ => None) sample_tool_result_blocks) = ""%string -> text = "..."%string) /\
    (GoStrings.TrimSpace
       (toolResultText sample_unmarshalString sample_unmarshalBlocks (fun _ => None)
          (fun _ => None) sample_tool_result_blocks) <> ""%string ->
     text = GoStrings.TrimSpace
       (toolResultText sample_unmarshalString sample_unmarshalBlocks (fun _ => None)
          (fun _ => None) sample_tool_result_blocks)).
Proof.
  apply (tool_result_message_never_empty sample_unmarshalString sample_unmarshalBlocks
           (fun _ => None) (fun _ => None)
           (Message.mk "user" sample_tool_result_content) sample_tool_result_blocks).
  - reflexivity.
  - reflexivity.
  - reflexivity.
  - exists (ContentBlock.mk "tool_result" "" None "" "" None "toolu_01" (quoted "'42'")).
    split; [|reflexivity]. right. left.
Defined.

(** The placeholder stands in for a text that trims to nothing; a
    tool-result section never does. *)
Example convertUserToolResults_placeholder :
  convertUserToolResults sample_unmarshalString sample_unmarshalBlocks (fun _ => None)
      (fun _ => None) [ContentBlock.text "  "; ContentBlock.text ""]
  = inl [userMessage (ContentString "...")].
Proof. reflexivity. Qed.

Example convertOneMessage_tool_result_sample :
  convertOneMessage sample_unmarshalString sample_unmarshalBlocks (fun _ => None)
      (fun _ => None) (Message.mk "user" sample_tool_result_content)
  = inl [userMessage
           (ContentString ("Tool result for toolu_01:" +:+ String "010" "42"))].
Proof. reflexivity. Qed.

Example Transform_one_tool_call :
  transform one_tool_call_stream
  = [MessageStart "msg_0123456789abcdef01234567" "claude-sonnet";
     ContentBlockStart 0 TextBlock; Ping;
     ContentBlockDelta 0 (TextDelta "Let"); ContentBlockDelta 0 (TextDelta " me");
     ContentBlockStop 0;
     ContentBlockStart 1 (ToolUseBlock "tc1" "sum");
     ContentBlockDelta 1 (InputJSONDelta (quoted "{'a':"));
     ContentBlockDelta 1 (InputJSONDelta "1}");
     ContentBlockStop 1;
     MessageDelta "tool_use" 0; MessageStop; DoneLine]%string.
Proof. reflexivity. Qed.

Section StreamFacts.

Variable unmarshalChunk : string -> option OpenAIChatChunk.t.
Variable randomHex : nat -> string.

Lemma scanLines_decodedChunks (lines : list string) :
  forall st,
  scanLines unmarshalChunk randomHex lines st
  = foldl (fun st chunk => processChunk randomHex chunk st) st
          (decodedChunks unmarshalChunk lines).
Proof.
  induction lines as [|line rest IH]; intros st; cbn [scanLines decodedChunks]; [done|].
  destruct (negb (GoStrings.HasPrefix line "data: ")); [by apply IH|].
  destruct (String.eqb _ "[DONE]"); [done|].
  destruct (unmarshalChunk _); [|by apply IH]. cbn [foldl]. by apply IH.
Qed.

Lemma opened_before_mono (evs : list Event) (x : list Event) (n n' : nat) (i : Z) :
  (n <= n')%nat -> opened_before evs n i -> opened_before (evs ++ x) n' i.
Proof.
  intros Hn (a & b & Ha & Hlook). exists a, b. split; [lia|].
  by apply lookup_app_l_Some.
Qed.

Lemma closed_after_mono (evs : list Event) (x : list Event) (n : nat) (i : Z) :
  closed_after evs n i -> closed_after (evs ++ x) n i.
Proof.
  intros (c & Hc & Hlook). exists c. split; [done|]. by apply lookup_app_l_Some.
Qed.

Lemma opened_before_bound (evs : list Event) (n : nat) (i : Z) :
  opened_before evs n i -> opened_before evs (length evs) i.
Proof.
  intros (a & b & Ha & Hlook). exists a, b. split; [|done].
  by eapply lookup_lt_Some.
Qed.

(** Writing an event keeps the invariant; a delta has to go to an open
    block: block 0 while the text block is not closed, or a tool block. *)
Lemma streaming_write (sa : StreamAdapter) (evs : list Event) (ev : Event) :
  streaming sa evs ->
  (forall i d, ev = ContentBlockDelta i d ->
     opened_before evs (length evs) i /\
     ((i = 0 /\ textBlockDone sa = false) \/ 1 <= i <= lastBlockIndex sa)) ->
  streaming sa (evs ++ [ev]).
Proof.
  intros (Hfin & Hopen & Hlast & Hzero & Htool & Hdelta & Htext) Hev.
  assert (Hlen : (length evs <= length (evs ++ [ev]))%nat) by (rewrite length_app; lia).
  split; [done|]. split; [done|]. split; [done|].
  split; [by eapply opened_before_mono|]. split; [|split].
  - intros Hsome. destruct (Htool Hsome) as [Hge Hstarted].
    split; [done|]. by eapply opened_before_mono.
  - intros n i d [[Hn Hlook]|[-> ->]]%lookup_snoc_Some.
    + destruct (Hdelta n i d Hlook) as [Hstart Hrange].
      split; [|done]. eapply opened_before_mono; [|done]. lia.
    + destruct (Hev i d eq_refl) as [Hstart Hrange]. split.
      * eapply opened_before_mono; [|done]. lia.
      * destruct Hrange as [[-> _]|Hrange]; [by left|by right].
  - intros Hdone n d [[Hn Hlook]|[-> ->]]%lookup_snoc_Some.
    + eapply closed_after_mono. by eapply Htext.
    + destruct (Hev 0 d eq_refl) as [_ [[_ Hnot]|Hrange]]; [congruence|lia].
Qed.

Lemma streaming_set_usage (sa : StreamAdapter) (evs : list Event) (input output : Z) :
  streaming sa evs -> streaming (set_usage sa input output) evs.
Proof. by intros H. Qed.

Lemma streaming_close_text (sa : StreamAdapter) (evs : list Event) :
  streaming sa evs ->
  streaming (set_text sa (textBlockOpen sa) true) (evs ++ [ContentBlockStop 0]).
Proof.
  intros Hinv.
  assert (Hw : streaming sa (evs ++ [ContentBlockStop 0])).
  { apply streaming_write; [done|]. intros i d Heq. discriminate Heq. }
  destruct Hw as (Hfin & Hopen & Hlast & Hzero & Htool & Hdelta & _).
  split; [done|]. split; [done|]. split; [done|]. split; [done|].
  split; [done|]. split; [done|].
  intros _ n d [[Hn Hlook]|[_ Hneq]]%lookup_snoc_Some; [|discriminate Hneq].
  exists (length evs). split; [done|]. by rewrite lookup_app_r, Nat.sub_diag by lia.
Qed.

Lemma streaming_open_tool (sa : StreamAdapter) (evs : list Event) (idx : Z) (b : Block) :
  streaming sa evs ->
  streaming (set_tool sa idx (lastBlockIndex sa + 1))
            (evs ++ [ContentBlockStart (lastBlockIndex sa + 1) b]).
Proof.
  intros Hinv.
  assert (Hw : streaming sa (evs ++ [ContentBlockStart (lastBlockIndex sa + 1) b])).
  { apply streaming_write; [done|]. intros i d Heq. discriminate Heq. }
  destruct Hw as (Hfin & Hopen & Hlast & Hzero & Htool & Hdelta & Htext).
  split; [done|]. split; [done|]. split; [cbn; lia|]. split; [done|]. split; [|split].
  - intros _. cbn. split; [lia|].
    exists (length evs), b. split; [rewrite length_app; cbn; lia|].
    by rewrite lookup_app_r, Nat.sub_diag by lia.
  - intros n i d Hlook. destruct (Hdelta n i d Hlook) as [Hstart Hrange].
    split; [done|]. cbn. destruct Hrange as [?|?]; [by left|right; lia].
  - done.
Qed.

Lemma processToolCall_streaming (tc : OpenAIToolCall.t) (sa sa' : StreamAdapter)
                                (out out' : Sink) :
  streaming sa (written out) ->
  lastBlockIndex sa < GoInt.max_int ->
  processToolCall randomHex tc (sa, out) = (sa', out') ->
  streaming sa' (written out') /\ is_Some (toolIndex sa') /\
  lastBlockIndex sa' <= lastBlockIndex sa + 1.
Proof.
  intros Hinv Hbound. unfold processToolCall.
  set (idx := default 0 (OpenAIToolCall.Index tc)).
  assert (Hwrap : GoInt.wrap (lastBlockIndex sa + 1) = lastBlockIndex sa + 1).
  { apply GoIntFacts.wrap_succ. destruct Hinv as (_ & _ & Hlast & _).
    unfold GoInt.min_int. lia. }
  rewrite Hwrap.
  assert (Hstep : forall sa1 out1,
    streaming sa1 (written out1) -> is_Some (toolIndex sa1) ->
    lastBlockIndex sa1 <= lastBlockIndex sa + 1 ->
    (if String.eqb (OpenAIFunctionCall.Arguments (OpenAIToolCall.Function tc)) ""
     then (sa1, out1)
     else (sa1, writeSSE (ContentBlockDelta (lastBlockIndex sa1)
                            (InputJSONDelta (OpenAIFunctionCall.Arguments
                                               (OpenAIToolCall.Function tc)))) out1))
    = (sa', out') ->
    streaming sa' (written out') /\ is_Some (toolIndex sa') /\
    lastBlockIndex sa' <= lastBlockIndex sa + 1).
  { intros sa1 out1 Hinv1 Htool1 Hle.
    destruct (String.eqb _ ""); intros [= <- <-]; [done|].
    split; [|done]. cbn. apply streaming_write; [done|].
    intros i d [= <- _].
    destruct Hinv1 as (_ & _ & _ & _ & Htool & _).
    destruct (Htool Htool1) as [Hge Hstarted]. split; [done|]. right. lia. }
  case_bool_decide as Hsame.
  - apply Hstep; [done|by rewrite Hsame|lia].
  - destruct (String.eqb (OpenAIToolCall.ID tc) "").
    + apply Hstep; cbn; [by apply streaming_open_tool|done|lia].
    + apply Hstep; cbn; [by apply streaming_open_tool|done|lia].
Qed.

Lemma processToolCall_fold_streaming (toolCalls : list OpenAIToolCall.t) :
  forall sa out sa' out',
  streaming sa (written out) ->
  lastBlockIndex sa + Z.of_nat (length toolCalls) <= GoInt.max_int ->
  foldl (fun st tc => processToolCall randomHex tc st) (sa, out) toolCalls = (sa', out') ->
  streaming sa' (written out') /\
  lastBlockIndex sa' <= lastBlockIndex sa + Z.of_nat (length toolCalls).
Proof.
  induction toolCalls as [|tc rest IH]; intros sa out sa' out' Hinv Hbound; cbn [foldl].
  - intros [= <- <-]. split; [done|]. cbn. lia.
  - destruct (processToolCall randomHex tc (sa, out)) as [sa1 out1] eqn:Hone.
    cbn [length] in Hbound.
    destruct (processToolCall_streaming tc sa sa1 out out1 Hinv) as (Hinv1 & _ & Hle);
      [lia|done|].
    intros Hrest. destruct (IH sa1 out1 sa' out' Hinv1) as [Hinv' Hle']; [lia|done|].
    split; [done|]. cbn [length]. lia.
Qed.

Lemma processToolCalls_streaming (toolCalls : list OpenAIToolCall.t)
                                 (sa sa' : StreamAdapter) (out out' : Sink) :
  streaming sa (written out) ->
  lastBlockIndex sa + Z.of_nat (length toolCalls) <= GoInt.max_int ->
  processToolCalls randomHex toolCalls (sa, out) = (sa', out') ->
  streaming sa' (written out') /\
  lastBlockIndex sa' <= lastBlockIndex sa + Z.of_nat (length toolCalls).
Proof.
  intros Hinv Hbound. unfold processToolCalls.
  destruct (bool_decide (toolIndex sa = None) && negb (textBlockDone sa)).
  - intros Hfold.
    eapply (processToolCall_fold_streaming toolCalls
              (set_text sa (textBlockOpen sa) true) (writeSSE (ContentBlockStop 0) out));
      [by apply streaming_close_text|done|done].
  - by apply processToolCall_fold_streaming.
Qed.

Lemma written_stops (indices : list Z) :
  forall out,
  written (foldl (fun out i => writeSSE (ContentBlockStop i) out) out indices)
  = written out ++ map ContentBlockStop indices.
Proof.
  induction indices as [|i rest IH]; intros out; cbn [foldl map].
  - by rewrite app_nil_r.
  - rewrite IH. cbn. by rewrite <- app_assoc.
Qed.

Lemma handleFinish_written (reason : string) (sa : StreamAdapter) (out : Sink) :
  finished sa = false ->
  written (snd (handleFinish reason (sa, out))) = written out ++ closing sa reason /\
  finished (fst (handleFinish reason (sa, out))) = true /\
  textBlockDone (fst (handleFinish reason (sa, out))) = true.
Proof.
  intros Hfin. unfold handleFinish, closing. rewrite Hfin.
  destruct (textBlockDone sa) eqn:Hdone; cbn; rewrite ?Hdone; cbn;
    rewrite written_stops, <- ?app_assoc; done.
Qed.

Lemma closing_no_delta (sa : StreamAdapter) (reason : string) (i : Z) (d : Delta) :
  ContentBlockDelta i d ∉ closing sa reason.
Proof.
  unfold closing. rewrite !elem_of_app, list_elem_of_fmap.
  intros [(j & Heq & _)|[Hin|Hin]]; [discriminate Heq| |].
  - destruct (textBlockDone sa); apply list_elem_of_In in Hin; cbn in Hin;
      intuition discriminate.
  - apply list_elem_of_In in Hin. cbn in Hin. intuition discriminate.
Qed.

Lemma handleFinish_closed (reason : string) (sa : StreamAdapter) (out : Sink) :
  streaming sa (written out) ->
  closed (fst (handleFinish reason (sa, out))) (written (snd (handleFinish reason (sa, out)))).
Proof.
  intros (Hfin & Hopen & Hlast & Hzero & Htool & Hdelta & Htext).
  destruct (handleFinish_written reason sa out Hfin) as (-> & Hfin' & Hdone').
  split; [done|]. split; [done|]. split.
  - intros n i d Hlook.
    assert (Hold : written out !! n = Some (ContentBlockDelta i d)).
    { apply lookup_app_Some in Hlook as [Hlook|[_ Hlook]]; [done|].
      exfalso. eapply closing_no_delta. eapply list_elem_of_lookup_2. done. }
    destruct (Hdelta n i d Hold) as [Hstart Hrange]. split.
    + eapply opened_before_mono; [|done]. lia.
    + pose proof (lookup_lt_Some _ _ _ Hold) as Hn. unfold closing.
      destruct Hrange as [->|Hrange].
      * destruct (textBlockDone sa) eqn:Hdone.
        -- eapply closed_after_mono. by eapply Htext.
        -- exists (length (written out) + length (seqZ 1 (lastBlockIndex sa)))%nat.
           split; [lia|].
           rewrite lookup_app_r by lia.
           rewrite lookup_app_r by (rewrite length_map; lia).
           rewrite length_map.
           replace (_ - _ - _)%nat with 0%nat by lia. done.
      * exists (length (written out) + Z.to_nat (i - 1))%nat. split; [lia|].
        rewrite lookup_app_r by lia.
        replace (_ + _ - _)%nat with (Z.to_nat (i - 1)) by lia.
        apply lookup_app_l_Some. rewrite list_lookup_fmap.
        rewrite (lookup_seqZ_lt 1 (lastBlockIndex sa) (Z.to_nat (i - 1))) by lia.
        cbn. f_equal. f_equal. lia.
  - unfold closing. exists (written out ++ map ContentBlockStop (seqZ 1 (lastBlockIndex sa))
      ++ (if textBlockDone sa then [] else [ContentBlockStop 0])
      ++ [MessageDelta (mapFinishReason reason) (outputTokens sa)]).
    rewrite <- !app_assoc. done.
Qed.

Lemma processChunk_streaming (chunk : OpenAIChatChunk.t) (sa sa' : StreamAdapter)
                             (out out' : Sink) :
  streaming sa (written out) ->
  lastBlockIndex sa + Z.of_nat (length (toolCallsOf chunk)) <= GoInt.max_int ->
  processChunk randomHex chunk (sa, out) = (sa', out') ->
  if finishes chunk then closed sa' (written out')
  else streaming sa' (written out') /\
       lastBlockIndex sa' <= lastBlockIndex sa + Z.of_nat (length (toolCallsOf chunk)).
Proof.
  intros Hinv Hbound. unfold processChunk, finishes, toolCallsOf in *.
  set (sa1 := match OpenAIChatChunk.Usage chunk with
              | Some usage => _
              | None => sa
              end).
  assert (Hinv1 : streaming sa1 (written out) /\ lastBlockIndex sa1 = lastBlockIndex sa
                  /\ textBlockDone sa1 = textBlockDone sa).
  { subst sa1. by destruct (OpenAIChatChunk.Usage chunk). }
  clearbody sa1. destruct Hinv1 as (Hinv1 & Hlast1 & Hdone1).
  destruct (OpenAIChatChunk.Choices chunk) as [|choice _].
  { intros [= <- <-]. split; [done|]. cbn in *. lia. }
  set (out1 := match OpenAIChunkDelta.Content (OpenAIChunkChoice.Delta choice) with
               | Some (String c text) => _
               | _ => out
               end).
  assert (Hinv2 : streaming sa1 (written out1)).
  { subst out1. destruct (OpenAIChunkDelta.Content _) as [[|c text]|]; try done.
    destruct (textBlockOpen sa1 && negb (textBlockDone sa1)) eqn:Hgate; [|done].
    apply andb_true_iff in Hgate as [_ Hdone%negb_true_iff].
    cbn. apply streaming_write; [done|]. intros i d [= <- _].
    split; [|by left]. by destruct Hinv1 as (_ & _ & _ & ? & _). }
  clearbody out1.
  set (st := match OpenAIChunkDelta.ToolCalls (OpenAIChunkChoice.Delta choice) with
             | [] => (sa1, out1)
             | _ => _
             end).
  assert (Hinv3 : streaming (fst st) (written (snd st)) /\
            lastBlockIndex (fst st) <= lastBlockIndex sa
              + Z.of_nat (length (OpenAIChunkDelta.ToolCalls (OpenAIChunkChoice.Delta choice)))).
  { subst st. destruct (OpenAIChunkDelta.ToolCalls _) as [|tc tcs] eqn:Hcalls.
    - split; [done|]. cbn. lia.
    - destruct (processToolCalls randomHex (tc :: tcs) (sa1, out1)) as [sa2 out2] eqn:Htools.
      rewrite <- Hlast1.
      eapply (processToolCalls_streaming (tc :: tcs) sa1 sa2 out1 out2); [done|lia|done]. }
  clearbody st. destruct st as [sa3 out3]. cbn [fst snd] in Hinv3.
  destruct Hinv3 as [Hinv3 Hlast3].
  destruct (OpenAIChunkChoice.FinishReason choice) as [reason|].
  - rewrite bool_decide_true by done. intros Hfinish.
    pose proof (handleFinish_closed reason sa3 out3 Hinv3) as Hclosed.
    by rewrite Hfinish in Hclosed.
  - rewrite bool_decide_false by (by intros [? ?]). by intros [= <- <-].
Qed.

Lemma processChunk_closed (chunk : OpenAIChatChunk.t) (sa sa' : StreamAdapter)
                          (out out' : Sink) :
  closed sa (written out) ->
  toolCallsOf chunk = [] ->
  processChunk randomHex chunk (sa, out) = (sa', out') ->
  closed sa' (written out').
Proof.
  intros (Hfin & Hdone & Hbr & Hlast) Hquiet. unfold processChunk, toolCallsOf in *.
  set (sa1 := match OpenAIChatChunk.Usage chunk with
              | Some usage => _
              | None => sa
              end).
  assert (Hsa1 : finished sa1 = true /\ textBlockDone sa1 = true).
  { subst sa1. by destruct (OpenAIChatChunk.Usage chunk). }
  clearbody sa1. destruct Hsa1 as [Hfin1 Hdone1].
  destruct (OpenAIChatChunk.Choices chunk) as [|choice _]; [by intros [= <- <-]|].
  rewrite Hquiet, Hdone1, andb_false_r.
  assert (Hout : match OpenAIChunkDelta.Content (OpenAIChunkChoice.Delta choice) with
                 | Some (String _ _) => out
                 | _ => out
                 end = out).
  { by destruct (OpenAIChunkDelta.Content _) as [[|? ?]|]. }
  rewrite Hout. unfold handleFinish. rewrite Hfin1.
  by destruct (OpenAIChunkChoice.FinishReason choice); intros [= <- <-].
Qed.

Lemma processChunks_closed (chunks : list OpenAIChatChunk.t) :
  forall sa out,
  closed sa (written out) ->
  forallb (fun c => bool_decide (toolCallsOf c = [])) chunks = true ->
  let st := foldl (fun st chunk => processChunk randomHex chunk st) (sa, out) chunks in
  closed (fst st) (written (snd st)).
Proof.
  induction chunks as [|chunk rest IH]; intros sa out Hclosed Hquiet; cbn [foldl]; [done|].
  cbn [forallb] in Hquiet. apply andb_true_iff in Hquiet as [Hq Hrest].
  apply bool_decide_eq_true in Hq.
  destruct (processChunk randomHex chunk (sa, out)) as [sa1 out1] eqn:Hone.
  apply IH; [|done]. by eapply processChunk_closed.
Qed.

Lemma processChunks_streaming (chunks : list OpenAIChatChunk.t) :
  forall sa out,
  streaming sa (written out) ->
  quietAfterFinish chunks = true ->
  lastBlockIndex sa + Z.of_nat (toolCallCount chunks) <= GoInt.max_int ->
  let st := foldl (fun st chunk => processChunk randomHex chunk st) (sa, out) chunks in
  closed (fst st) (written (snd st)) \/ streaming (fst st) (written (snd st)).
Proof.
  induction chunks as [|chunk rest IH]; intros sa out Hinv Hquiet Hbound; cbn [foldl];
    [by right|].
  unfold toolCallCount in Hbound. cbn [map concat] in Hbound.
  rewrite length_app in Hbound. fold (toolCallCount rest) in Hbound.
  destruct (processChunk randomHex chunk (sa, out)) as [sa1 out1] eqn:Hone.
  pose proof (processChunk_streaming chunk sa sa1 out out1 Hinv) as Hstep.
  cbn [quietAfterFinish] in Hquiet.
  destruct (finishes chunk).
  - left. apply processChunks_closed; [|done]. apply Hstep; [lia|done].
  - destruct (Hstep ltac:(lia) Hone) as [Hinv1 Hlast1]. apply IH; [done|done|lia].
Qed.

Lemma streaming_start (id model : string) :
  streaming (mkAdapter model id 0 true false None 0 0 0 false)
            [MessageStart id model; ContentBlockStart 0 TextBlock; Ping].
Proof.
  unfold streaming. cbn.
  split; [done|]. split; [done|]. split; [lia|].
  split; [exists 1%nat, TextBlock; split; [lia|done]|].
  split; [by intros [? ?]|]. split.
  - intros n i d Hlook. do 3 (destruct n as [|n]; [discriminate Hlook|]). discriminate Hlook.
  - intros Hdone. discriminate Hdone.
Qed.

(** For a stream in which no tool call follows the chunk that carries
    finish_reason, the events that [Transform] writes are ordered: every
    delta lies between the start and the stop of its block, and
    [message_stop] and the [DONE] line come last. *)
Theorem Transform_ordered (lines : list string) (scanErr : option gerror) (model : string) :
  quietAfterFinish (decodedChunks unmarshalChunk lines) = true ->
  Z.of_nat (toolCallCount (decodedChunks unmarshalChunk lines)) <= GoInt.max_int ->
  let evs := written (snd (fst (Transform unmarshalChunk randomHex lines scanErr
                                  (NewStreamAdapter randomHex model)))) in
  bracketed evs /\ stops_last evs.
Proof.
  intros Hquiet Hbound. unfold Transform, NewStreamAdapter. cbn [fst snd].
  rewrite scanLines_decodedChunks.
  match goal with |- context [foldl _ (?sa0, ?out0) _] =>
    destruct (processChunks_streaming (decodedChunks unmarshalChunk lines) sa0 out0)
      as [Hclosed|Hinv] end; [|done|by cbn| |].
  - apply streaming_start.
  - unfold finalize. destruct Hclosed as (Hfin & _ & Hbr & Hlast). by rewrite Hfin.
  - unfold finalize. pose proof Hinv as (Hfin & _). rewrite Hfin.
    match goal with |- context [handleFinish ?r ?st] =>
      pose proof (handleFinish_closed r (fst st) (snd st) Hinv) as (_ & _ & Hbr & Hlast);
      by rewrite <- surjective_pairing in Hbr, Hlast end.
Qed.

End StreamFacts.

Example Transform_ordered_one_tool_call :
  bracketed (transform one_tool_call_stream) /\ stops_last (transform one_tool_call_stream).
Proof.
  apply (Transform_ordered sample_unmarshalChunk sample_hex one_tool_call_stream None
           "claude-sonnet").
  - reflexivity.
  - vm_compute. discriminate.
Defined.

(** C6, the failing stream: a chunk that carries finish_reason, then a
    chunk with a tool call.  The tool block is opened and fed after
    [message_stop] and the [DONE] line, and is never closed, so the
    written events are not ordered as the specification asks. *)
Theorem Transform_tool_call_after_finish :
  quietAfterFinish (decodedChunks sample_unmarshalChunk late_tool_call_stream) = false /\
  transform late_tool_call_stream
  = [MessageStart "msg_0123456789abcdef01234567" "claude-sonnet";
     ContentBlockStart 0 TextBlock; Ping;
     ContentBlockStop 0;
     MessageDelta "end_turn" 0; MessageStop; DoneLine;
     ContentBlockStart 1 (ToolUseBlock "tc9" "sum");
     ContentBlockDelta 1 (InputJSONDelta "{}")]%string /\
  ~ bracketed (transform late_tool_call_stream) /\
  ~ stops_last (transform late_tool_call_stream).
Proof.
  split; [reflexivity|].
  assert (Hevs : transform late_tool_call_stream
    = [MessageStart "msg_0123456789abcdef01234567" "claude-sonnet";
       ContentBlockStart 0 TextBlock; Ping;
       ContentBlockStop 0;
       MessageDelta "end_turn" 0; MessageStop; DoneLine;
       ContentBlockStart 1 (ToolUseBlock "tc9" "sum");
       ContentBlockDelta 1 (InputJSONDelta "{}")]%string) by reflexivity.
  rewrite Hevs. split; [reflexivity|]. split.
  - intros Hbr. destruct (Hbr 8%nat 1 (InputJSONDelta "{}") eq_refl) as [_ (c & Hc & Hstop)].
    do 9 (destruct c as [|c]; [lia|]). discriminate Hstop.
  - intros (before & Heq).
    apply (f_equal (@rev Event)) in Heq. rewrite rev_app_distr in Heq. discriminate Heq.
Qed.

(** *** What [Transform] reports, for every upstream *)

Lemma filter_none {A : Type} (f : A -> bool) (l : list A) :
  Forall (fun x => f x = false) l -> List.filter f l = [].
Proof. induction 1 as [|x l Hx _ IH]; [done|]. cbn. by rewrite Hx. Qed.

Lemma tool_events_not_closing (evs : list Event) :
  Forall (fun ev => is_tool_event ev = true) evs -> List.filter is_closing evs = [].
Proof.
  intros Htool. apply filter_none. eapply Forall_impl; [exact Htool|].
  by intros [|i [|]| |i [|]| | | |].
Qed.

Lemma tool_events_not_text (evs : list Event) :
  Forall (fun ev => is_tool_event ev = true) evs -> List.filter is_text_event evs = [].
Proof.
  intros Htool. apply filter_none. eapply Forall_impl; [exact Htool|].
  by intros [|i [|]| |i [|]| | | |].
Qed.

Lemma stops_not_closing (indices : list Z) :
  List.filter is_closing (map ContentBlockStop indices) = [].
Proof. by induction indices. Qed.

Lemma closing_is_closing (sa : StreamAdapter) (reason : string) :
  List.filter is_closing (closing sa reason)
  = [MessageDelta (mapFinishReason reason) (outputTokens sa); MessageStop; DoneLine].
Proof.
  unfold closing. rewrite !List.filter_app, stops_not_closing. by destruct (textBlockDone sa).
Qed.

Lemma stops_text (indices : list Z) :
  Forall (fun i => 1 <= i) indices ->
  List.filter is_text_event (map ContentBlockStop indices) = [].
Proof.
  induction 1 as [|i indices Hi _ IH]; [done|]. cbn.
  destruct (Z.eqb_spec i 0); [lia|done].
Qed.

Lemma closing_text (sa : StreamAdapter) (reason : string) :
  List.filter is_text_event (closing sa reason)
  = if textBlockDone sa then [] else [ContentBlockStop 0].
Proof.
  unfold closing. rewrite !List.filter_app, stops_text.
  - by destruct (textBlockDone sa).
  - apply Forall_forall. intros i Hi%elem_of_seqZ. lia.
Qed.

Lemma tool_events_no_stop (evs : list Event) :
  Forall (fun ev => is_tool_event ev = true) evs -> omap stopIndex evs = [].
Proof.
  induction 1 as [|ev evs Hev _ IH]; [done|].
  destruct ev as [|i [|]| |i [|]| | | |]; try discriminate Hev; done.
Qed.

Lemma stops_stopIndex (indices : list Z) :
  omap stopIndex (map ContentBlockStop indices) = indices.
Proof. induction indices as [|i indices IH]; [done|]. cbn. by rewrite IH. Qed.

Lemma stops_startIndex (indices : list Z) :
  omap startIndex (map ContentBlockStop indices) = [].
Proof. by induction indices. Qed.

Lemma closing_stopIndex (sa : StreamAdapter) (reason : string) :
  omap stopIndex (closing sa reason)
  = seqZ 1 (lastBlockIndex sa) ++ (if textBlockDone sa then [] else [0]).
Proof.
  unfold closing. rewrite !omap_app, stops_stopIndex.
  destruct (textBlockDone sa); by rewrite ?app_nil_r.
Qed.

Lemma closing_startIndex (sa : StreamAdapter) (reason : string) :
  omap startIndex (closing sa reason) = [].
Proof.
  unfold closing. rewrite !omap_app, stops_startIndex. by destruct (textBlockDone sa).
Qed.

Section StreamReports.

Variable unmarshalChunk : string -> option OpenAIChatChunk.t.
Variable randomHex : nat -> string.

Lemma same_message_refl (sa : StreamAdapter) : same_message sa sa.
Proof. by repeat split. Qed.

Lemma same_message_trans (sa sa' sa'' : StreamAdapter) :
  same_message sa sa' -> same_message sa' sa'' -> same_message sa sa''.
Proof.
  unfold same_message.
  intros (-> & -> & -> & -> & -> & ->) (-> & -> & -> & -> & -> & ->). done.
Qed.

(** What one tool call writes: at most the start of a new block, then at
    most one fragment of its input. *)
Lemma processToolCall_writes (tc : OpenAIToolCall.t) (sa : StreamAdapter) (out : Sink) :
  let st := processToolCall randomHex tc (sa, out) in
  exists evs,
    written (snd st) = written out ++ evs /\
    Forall (fun ev => is_tool_event ev = true) evs /\
    same_message sa (fst st) /\
    is_Some (toolIndex (fst st)) /\
    opens sa (fst st) evs 1.
Proof.
  cbn zeta. unfold processToolCall, opens.
  case_bool_decide as Hidx.
  - destruct (String.eqb (OpenAIFunctionCall.Arguments (OpenAIToolCall.Function tc)) "").
    + exists []. cbn. rewrite app_nil_r, Hidx.
      repeat split; [by constructor|by eexists|].
      intros _ _. exists 0. by repeat split; try lia.
    + eexists [_]. cbn. rewrite Hidx.
      repeat split; [by repeat constructor|by eexists|].
      intros _ _. exists 0. by repeat split; try lia.
  - assert (Hnext : 0 <= lastBlockIndex sa -> lastBlockIndex sa + 1 <= GoInt.max_int ->
                    GoInt.wrap (lastBlockIndex sa + 1) = lastBlockIndex sa + 1).
    { intros. apply GoIntFacts.wrap_succ. unfold GoInt.min_int. lia. }
    destruct (String.eqb (OpenAIToolCall.ID tc) "");
      destruct (String.eqb (OpenAIFunctionCall.Arguments (OpenAIToolCall.Function tc)) "");
      cbn; rewrite <- ?app_assoc; eexists; (split; [reflexivity|]);
      (split; [by repeat constructor|]); (split; [done|]); (split; [by eexists|]);
      intros Hlo Hhi; exists 1; rewrite (Hnext Hlo Hhi); repeat split; try lia; done.
Qed.

Lemma processToolCall_fold_writes (toolCalls : list OpenAIToolCall.t) :
  forall sa out,
  let st := foldl (fun st tc => processToolCall randomHex tc st) (sa, out) toolCalls in
  exists evs,
    written (snd st) = written out ++ evs /\
    Forall (fun ev => is_tool_event ev = true) evs /\
    same_message sa (fst st) /\
    (toolCalls <> [] -> is_Some (toolIndex (fst st))) /\
    opens sa (fst st) evs (length toolCalls).
Proof.
  induction toolCalls as [|tc rest IH] using rev_ind; intros sa out; cbn zeta.
  - exists []. cbn. rewrite app_nil_r. repeat split; [by constructor|done|].
    intros _ _. exists 0. by repeat split; try lia.
  - rewrite foldl_app. cbn [foldl].
    destruct (IH sa out) as (evs & Hw & Htool & Hsame & _ & Hopens).
    destruct (foldl _ (sa, out) rest) as [sa1 out1]. cbn [fst snd] in *.
    destruct (processToolCall_writes tc sa1 out1)
      as (evs' & Hw' & Htool' & Hsame' & Hsome & Hopens').
    exists (evs ++ evs'). rewrite Hw', Hw, <- app_assoc.
    split; [done|]. split; [by apply Forall_app|].
    split; [by eapply same_message_trans|]. split; [done|].
    intros Hlo Hhi. rewrite length_app in Hhi. cbn [length] in Hhi.
    destruct (Hopens Hlo ltac:(lia)) as (k & Hk & Hlast & Hstarts).
    destruct (Hopens' ltac:(lia) ltac:(lia)) as (k' & Hk' & Hlast' & Hstarts').
    exists (k + k'). rewrite length_app. cbn [length].
    split; [lia|]. split; [lia|].
    rewrite omap_app, Hstarts, Hstarts', Hlast, seqZ_app by lia.
    do 2 f_equal. lia.
Qed.

(** Whether a chunk's tool calls close the text block. *)
Lemma processToolCalls_writes (toolCalls : list OpenAIToolCall.t) (sa : StreamAdapter)
                              (out : Sink) :
  toolCalls <> [] ->
  let st := processToolCalls randomHex toolCalls (sa, out) in
  let closes := bool_decide (toolIndex sa = None) && negb (textBlockDone sa) in
  exists evs,
    written (snd st)
    = written out ++ (if closes then [ContentBlockStop 0] else []) ++ evs /\
    Forall (fun ev => is_tool_event ev = true) evs /\
    same_message (set_text sa (textBlockOpen sa) (textBlockDone sa || closes)) (fst st) /\
    is_Some (toolIndex (fst st)) /\
    opens sa (fst st) evs (length toolCalls).
Proof.
  intros Hne. cbn zeta. unfold processToolCalls.
  destruct (bool_decide (toolIndex sa = None) && negb (textBlockDone sa)) eqn:Hcloses.
  - destruct (processToolCall_fold_writes toolCalls (set_text sa (textBlockOpen sa) true)
                (writeSSE (ContentBlockStop 0) out))
      as (evs & Hw & Htool & Hsame & Hsome & Hopens).
    exists evs. rewrite Hw. cbn [writeSSE written]. rewrite <- app_assoc.
    split; [done|]. split; [done|]. split; [by rewrite orb_true_r|].
    split; [by apply Hsome|done].
  - destruct (processToolCall_fold_writes toolCalls sa out)
      as (evs & Hw & Htool & Hsame & Hsome & Hopens).
    exists evs. split; [done|]. split; [done|].
    split; [rewrite orb_false_r; by destruct sa|].
    split; [by apply Hsome|done].
Qed.

(** The events one chunk appends while the adapter goes from [sa] to the
    adapter [sa2] that [handleFinish] is entered with. *)
Lemma processChunk_writes (chunk : OpenAIChatChunk.t) (sa : StreamAdapter) (out : Sink) :
  let tokens :=
    match OpenAIChatChunk.Usage chunk with
    | Some usage => OpenAIUsage.CompletionTokens usage
    | None => outputTokens sa
    end in
  match OpenAIChatChunk.Choices chunk with
  | [] =>
      exists sa2,
        processChunk randomHex chunk (sa, out) = (sa2, out) /\
        same_message (set_usage sa (inputTokens sa) tokens) sa2 /\
        toolIndex sa2 = toolIndex sa /\ lastBlockIndex sa2 = lastBlockIndex sa
  | choice :: _ =>
      let delta := OpenAIChunkChoice.Delta choice in
      let texts :=
        match OpenAIChunkDelta.Content delta with
        | Some (String c text) =>
            if textBlockOpen sa && negb (textBlockDone sa)
            then [ContentBlockDelta 0 (TextDelta (String c text))] else []
        | _ => []
        end in
      let closes :=
        match OpenAIChunkDelta.ToolCalls delta with
        | [] => false
        | _ => bool_decide (toolIndex sa = None) && negb (textBlockDone sa)
        end in
      exists sa2 out2 tools,
        processChunk randomHex chunk (sa, out)
        = match OpenAIChunkChoice.FinishReason choice with
          | Some reason => handleFinish reason (sa2, out2)
          | None => (sa2, out2)
          end /\
        written out2
        = written out ++ texts ++ (if closes then [ContentBlockStop 0] else []) ++ tools /\
        Forall (fun ev => is_tool_event ev = true) tools /\
        same_message
          (set_text (set_usage sa (inputTokens sa) tokens) (textBlockOpen sa)
                    (textBlockDone sa || closes)) sa2 /\
        match OpenAIChunkDelta.ToolCalls delta with
        | [] => tools = [] /\ toolIndex sa2 = toolIndex sa /\ lastBlockIndex sa2 = lastBlockIndex sa
        | _ => is_Some (toolIndex sa2)
        end /\
        opens sa sa2 tools (length (OpenAIChunkDelta.ToolCalls delta))
  end.
Proof.
  cbn zeta. unfold processChunk.
  set (sa1 := match OpenAIChatChunk.Usage chunk with
              | Some usage => _
              | None => sa
              end).
  assert (Hsa1 : same_message
            (set_usage sa (inputTokens sa)
               match OpenAIChatChunk.Usage chunk with
               | Some usage => OpenAIUsage.CompletionTokens usage
               | None => outputTokens sa
               end) sa1 /\
            toolIndex sa1 = toolIndex sa /\ lastBlockIndex sa1 = lastBlockIndex sa
            /\ textBlockDone sa1 = textBlockDone sa /\ textBlockOpen sa1 = textBlockOpen sa).
  { subst sa1. by destruct (OpenAIChatChunk.Usage chunk). }
  clearbody sa1. destruct Hsa1 as (Hsame1 & Htool1 & Hlast1 & Hdone1 & Hopen1).
  destruct (OpenAIChatChunk.Choices chunk) as [|choice _]; [by exists sa1|].
  set (texts := match OpenAIChunkDelta.Content (OpenAIChunkChoice.Delta choice) with
                | Some (String c text) =>
                    if textBlockOpen sa && negb (textBlockDone sa)
                    then [ContentBlockDelta 0 (TextDelta (String c text))] else []
                | _ => []
                end).
  set (out1 := match OpenAIChunkDelta.Content (OpenAIChunkChoice.Delta choice) with
               | Some (String c text) => _
               | _ => out
               end).
  assert (Hout1 : written out1 = written out ++ texts).
  { subst out1 texts. rewrite Hopen1, Hdone1.
    destruct (OpenAIChunkDelta.Content _) as [[|c text]|]; rewrite ?app_nil_r; try done.
    destruct (textBlockOpen sa && negb (textBlockDone sa)); by rewrite ?app_nil_r. }
  clearbody out1.
  destruct (OpenAIChunkDelta.ToolCalls (OpenAIChunkChoice.Delta choice)) as [|tc tcs] eqn:Hcalls.
  - exists sa1, out1, []. split; [done|]. rewrite Hout1, !app_nil_r. split; [done|].
    split; [by constructor|]. split; [|split; [done|]].
    + rewrite orb_false_r. destruct Hsame1 as (? & ? & ? & ? & ? & ?). by repeat split.
    + intros _ _. exists 0. by repeat split; cbn; try lia.
  - destruct (processToolCalls_writes (tc :: tcs) sa1 out1 ltac:(done))
      as (tools & Hw & Htools & Hsame & Hsome & Hopens).
    destruct (processToolCalls randomHex (tc :: tcs) (sa1, out1)) as [sa2 out2].
    cbn [fst snd] in *.
    exists sa2, out2, tools. split; [done|].
    rewrite Hw, Hout1, Htool1, Hdone1, <- !app_assoc. split; [done|]. split; [done|].
    split; [|split; [done|]].
    + rewrite Htool1, Hdone1, Hopen1 in Hsame.
      destruct Hsame1 as (? & ? & ? & ? & ? & ?), Hsame as (? & ? & ? & ? & ? & ?).
      repeat split; cbn in *; congruence.
    + unfold opens in *. by rewrite <- Hlast1.
Qed.


Lemma processChunk_finished (chunk : OpenAIChatChunk.t) (sa : StreamAdapter) (out : Sink) :
  finished sa = true ->
  let st := processChunk randomHex chunk (sa, out) in
  finished (fst st) = true /\
  exists evs, written (snd st) = written out ++ evs /\ List.filter is_closing evs = [].
Proof.
  intros Hfin. cbn zeta. pose proof (processChunk_writes chunk sa out) as Hw. cbn zeta in Hw.
  destruct (OpenAIChatChunk.Choices chunk) as [|choice _].
  - destruct Hw as (sa2 & -> & (_ & _ & _ & _ & _ & Hfin2) & _). cbn in *.
    split; [congruence|]. exists []. by rewrite app_nil_r.
  - destruct Hw as (sa2 & out2 & tools & -> & Hout2 & Htools & (_ & _ & _ & _ & _ & Hfin2) & _).
    cbn in Hfin2. rewrite Hfin in Hfin2.
    assert (Hsame : match OpenAIChunkChoice.FinishReason choice with
                    | Some reason => handleFinish reason (sa2, out2)
                    | None => (sa2, out2)
                    end = (sa2, out2)).
    { destruct (OpenAIChunkChoice.FinishReason choice); [|done].
      unfold handleFinish. by rewrite Hfin2. }
    rewrite Hsame. cbn [fst snd]. split; [done|]. eexists. split; [exact Hout2|].
    rewrite !List.filter_app, (tool_events_not_closing tools) by done.
    destruct (OpenAIChunkDelta.Content _) as [[|c text]|];
      destruct (OpenAIChunkDelta.ToolCalls _);
      destruct (textBlockOpen sa && negb (textBlockDone sa));
      destruct (bool_decide (toolIndex sa = None) && negb (textBlockDone sa)); done.
Qed.

Lemma processChunks_finished (chunks : list OpenAIChatChunk.t) :
  forall sa out,
  finished sa = true ->
  let st := foldl (fun st chunk => processChunk randomHex chunk st) (sa, out) chunks in
  finished (fst st) = true /\
  exists evs, written (snd st) = written out ++ evs /\ List.filter is_closing evs = [].
Proof.
  induction chunks as [|chunk rest IH]; intros sa out Hfin; cbn zeta; cbn [foldl].
  - split; [done|]. exists []. by rewrite app_nil_r.
  - destruct (processChunk_finished chunk sa out Hfin) as (Hfin1 & evs1 & Hw1 & Hquiet1).
    destruct (processChunk randomHex chunk (sa, out)) as [sa1 out1]. cbn [fst snd] in *.
    destruct (IH sa1 out1 Hfin1) as (Hfin2 & evs2 & Hw2 & Hquiet2).
    split; [done|]. exists (evs1 ++ evs2).
    by rewrite Hw2, Hw1, <- app_assoc, List.filter_app, Hquiet1, Hquiet2.
Qed.

(** The closing sequence is written once: at the first finish_reason, or
    by [finalize]. *)
Lemma processChunks_closing (chunks : list OpenAIChatChunk.t) :
  forall sa out,
  finished sa = false ->
  let st := finalize (foldl (fun st chunk => processChunk randomHex chunk st) (sa, out) chunks) in
  let report := closingReport (outputTokens sa) chunks in
  finished (fst st) = true /\
  exists evs, written (snd st) = written out ++ evs /\
    List.filter is_closing evs
    = [MessageDelta (mapFinishReason (fst report)) (snd report); MessageStop; DoneLine].
Proof.
  induction chunks as [|chunk rest IH]; intros sa out Hfin; cbn zeta; cbn [foldl closingReport].
  - unfold finalize. cbn [fst]. rewrite Hfin.
    destruct (handleFinish_written "stop" sa out Hfin) as (Hw & Hfin' & _).
    split; [done|]. eexists. split; [exact Hw|]. apply closing_is_closing.
  - pose proof (processChunk_writes chunk sa out) as Hw. cbn zeta in Hw.
    set (tokens := match OpenAIChatChunk.Usage chunk with
                   | Some usage => OpenAIUsage.CompletionTokens usage
                   | None => outputTokens sa
                   end) in *.
    destruct (OpenAIChatChunk.Choices chunk) as [|choice _].
    + destruct Hw as (sa2 & -> & (_ & _ & _ & _ & Htok & Hfin2) & _). cbn in Htok, Hfin2.
      rewrite <- Htok. apply IH. congruence.
    + destruct Hw
        as (sa2 & out2 & tools & -> & Hout2 & Htools & (_ & _ & _ & _ & Htok & Hfin2) & _).
      cbn in Htok, Hfin2. rewrite Hfin in Hfin2.
      assert (Hquiet : exists evs2, written out2 = written out ++ evs2
                                    /\ List.filter is_closing evs2 = []).
      { eexists. split; [exact Hout2|].
        rewrite !List.filter_app, (tool_events_not_closing tools) by done.
        destruct (OpenAIChunkDelta.Content _) as [[|c text]|];
          destruct (OpenAIChunkDelta.ToolCalls _);
          destruct (textBlockOpen sa && negb (textBlockDone sa));
          destruct (bool_decide (toolIndex sa = None) && negb (textBlockDone sa)); done. }
      destruct Hquiet as (evs2 & Hw2 & Hquiet2).
      destruct (OpenAIChunkChoice.FinishReason choice) as [reason|].
      * destruct (handleFinish_written reason sa2 out2 Hfin2) as (Hw3 & Hfin3 & _).
        destruct (handleFinish reason (sa2, out2)) as [sa3 out3]. cbn [fst snd] in *.
        destruct (processChunks_finished rest sa3 out3 Hfin3) as (Hfin4 & evs4 & Hw4 & Hquiet4).
        unfold finalize. rewrite Hfin4. split; [done|].
        exists (evs2 ++ closing sa2 reason ++ evs4).
        rewrite Hw4, Hw3, Hw2, <- !app_assoc. split; [done|].
        rewrite !List.filter_app, Hquiet2, Hquiet4, closing_is_closing, Htok. done.
      * destruct (IH sa2 out2 Hfin2) as (Hfin3 & evs3 & Hw3 & Hclose3).
        split; [done|]. exists (evs2 ++ evs3).
        rewrite Hw3, Hw2, <- app_assoc. split; [done|].
        by rewrite List.filter_app, Hquiet2, Hclose3, Htok.
Qed.

(** Whatever the upstream sends, [Transform] opens with [message_start],
    the start of the text block and a ping, and closes the message
    exactly once: one [message_delta], one [message_stop] and one [DONE]
    line, in this order.  The [message_delta] carries the stop reason
    mapped from the first finish_reason (["stop"] when the upstream gives
    none) and the completion tokens of the last usage seen up to that
    chunk; usage that arrives later is not reported. *)
Theorem Transform_envelope (lines : list string) (scanErr : option gerror) (model : string) :
  let result := Transform unmarshalChunk randomHex lines scanErr
                  (NewStreamAdapter randomHex model) in
  let evs := written (snd (fst result)) in
  let report := closingReport 0 (decodedChunks unmarshalChunk lines) in
  (exists body,
     evs = [MessageStart ("msg_" +:+ randomHex 0) model; ContentBlockStart 0 TextBlock; Ping]
           ++ body) /\
  List.filter is_closing evs
  = [MessageDelta (mapFinishReason (fst report)) (snd report); MessageStop; DoneLine] /\
  finished (fst (fst result)) = true /\
  snd result = scanErr.
Proof.
  cbn zeta. unfold Transform, NewStreamAdapter. cbn [fst snd].
  rewrite scanLines_decodedChunks.
  match goal with |- context [foldl _ (?sa0, ?out0) _] =>
    destruct (processChunks_closing (decodedChunks unmarshalChunk lines) sa0 out0 eq_refl)
      as (Hfin & evs & Hw & Hclose) end.
  cbn [outputTokens written writeSSE app] in Hw, Hclose.
  rewrite Hw. split; [by exists evs|]. split; [|done].
  cbn [List.filter is_closing app]. exact Hclose.
Qed.


Lemma processChunk_text_done (chunk : OpenAIChatChunk.t) (sa : StreamAdapter) (out : Sink) :
  textBlockDone sa = true ->
  let st := processChunk randomHex chunk (sa, out) in
  textBlockDone (fst st) = true /\
  exists evs, written (snd st) = written out ++ evs /\ List.filter is_text_event evs = [].
Proof.
  intros Hdone. cbn zeta. pose proof (processChunk_writes chunk sa out) as Hw. cbn zeta in Hw.
  destruct (OpenAIChatChunk.Choices chunk) as [|choice _].
  - destruct Hw as (sa2 & -> & (_ & _ & _ & Hdone2 & _) & _). cbn in *.
    split; [congruence|]. exists []. by rewrite app_nil_r.
  - destruct Hw as (sa2 & out2 & tools & -> & Hout2 & Htools & (_ & _ & _ & Hdone2 & _) & _).
    cbn in Hdone2. rewrite Hdone in Hdone2. cbn in Hdone2.
    rewrite Hdone, !andb_false_r in Hout2.
    assert (Hquiet : exists evs2, written out2 = written out ++ evs2
                                  /\ List.filter is_text_event evs2 = []).
    { eexists. split; [exact Hout2|].
      rewrite !List.filter_app, (tool_events_not_text tools) by done.
      destruct (OpenAIChunkDelta.Content _) as [[|c text]|];
        destruct (OpenAIChunkDelta.ToolCalls _); done. }
    destruct Hquiet as (evs2 & Hw2 & Hquiet2).
    destruct (OpenAIChunkChoice.FinishReason choice) as [reason|]; [|by eauto].
    destruct (finished sa2) eqn:Hfin2.
    { unfold handleFinish. rewrite Hfin2. by eauto. }
    destruct (handleFinish_written reason sa2 out2 Hfin2) as (Hw3 & _ & Hdone3).
    split; [done|]. exists (evs2 ++ closing sa2 reason).
    rewrite Hw3, Hw2, <- app_assoc. split; [done|].
    by rewrite List.filter_app, Hquiet2, closing_text, Hdone2.
Qed.

Lemma processChunks_text_done (chunks : list OpenAIChatChunk.t) :
  forall sa out,
  textBlockDone sa = true ->
  let st := finalize (foldl (fun st chunk => processChunk randomHex chunk st) (sa, out) chunks) in
  exists evs, written (snd st) = written out ++ evs /\ List.filter is_text_event evs = [].
Proof.
  induction chunks as [|chunk rest IH]; intros sa out Hdone; cbn zeta; cbn [foldl].
  - unfold finalize. cbn [fst]. destruct (finished sa) eqn:Hfin.
    + exists []. by rewrite app_nil_r.
    + destruct (handleFinish_written "stop" sa out Hfin) as (Hw & _ & _).
      eexists. split; [exact Hw|]. by rewrite closing_text, Hdone.
  - destruct (processChunk_text_done chunk sa out Hdone) as (Hdone1 & evs1 & Hw1 & Hquiet1).
    destruct (processChunk randomHex chunk (sa, out)) as [sa1 out1]. cbn [fst snd] in *.
    destruct (IH sa1 out1 Hdone1) as (evs2 & Hw2 & Hquiet2).
    exists (evs1 ++ evs2).
    by rewrite Hw2, Hw1, <- app_assoc, List.filter_app, Hquiet1, Hquiet2.
Qed.

Lemma processChunks_text_open (chunks : list OpenAIChatChunk.t) :
  forall sa out,
  finished sa = false -> textBlockOpen sa = true -> textBlockDone sa = false ->
  toolIndex sa = None ->
  let st := finalize (foldl (fun st chunk => processChunk randomHex chunk st) (sa, out) chunks) in
  exists evs, written (snd st) = written out ++ evs /\
    List.filter is_text_event evs
    = map (fun text => ContentBlockDelta 0 (TextDelta text)) (streamedText chunks)
      ++ [ContentBlockStop 0].
Proof.
  induction chunks as [|chunk rest IH]; intros sa out Hfin Hopen Hdone Htool; cbn zeta;
    cbn [foldl streamedText].
  - unfold finalize. cbn [fst]. rewrite Hfin.
    destruct (handleFinish_written "stop" sa out Hfin) as (Hw & _ & _).
    eexists. split; [exact Hw|]. by rewrite closing_text, Hdone.
  - pose proof (processChunk_writes chunk sa out) as Hw. cbn zeta in Hw.
    destruct (OpenAIChatChunk.Choices chunk) as [|choice _].
    + destruct Hw as (sa2 & -> & (_ & _ & Hopen2 & Hdone2 & _ & Hfin2) & Htool2 & _).
      cbn in Hopen2, Hdone2, Hfin2. apply IH; congruence.
    + destruct Hw as (sa2 & out2 & tools & -> & Hout2 & Htools
                      & (_ & _ & Hopen2 & Hdone2 & _ & Hfin2) & Hcalls & _).
      cbn in Hopen2, Hdone2, Hfin2. rewrite Hfin in Hfin2.
      rewrite Hopen, Hdone, Htool in *. cbn [negb andb orb] in *.
      rewrite bool_decide_true in * by done. cbn [andb] in *.
      set (texts := match OpenAIChunkDelta.Content (OpenAIChunkChoice.Delta choice) with
                    | Some (String c text) => [String c text]
                    | _ => []
                    end).
      assert (Htexts : match OpenAIChunkDelta.Content (OpenAIChunkChoice.Delta choice) with
                       | Some (String c text) => [ContentBlockDelta 0 (TextDelta (String c text))]
                       | _ => []
                       end = map (fun text => ContentBlockDelta 0 (TextDelta text)) texts).
      { subst texts. by destruct (OpenAIChunkDelta.Content _) as [[|c text]|]. }
      rewrite Htexts in Hout2. clearbody texts. clear Htexts.
      destruct (OpenAIChunkDelta.ToolCalls (OpenAIChunkChoice.Delta choice)) as [|tc tcs].
      * destruct Hcalls as (-> & Htool2 & _). rewrite app_nil_r in Hout2. cbn [app] in Hout2.
        destruct (OpenAIChunkChoice.FinishReason choice) as [reason|].
        -- destruct (handleFinish_written reason sa2 out2 Hfin2) as (Hw3 & _ & Hdone3).
           destruct (handleFinish reason (sa2, out2)) as [sa3 out3]. cbn [fst snd] in *.
           destruct (processChunks_text_done rest sa3 out3 Hdone3) as (evs4 & Hw4 & Hquiet4).
           eexists. rewrite Hw4, Hw3, Hout2, <- !app_assoc. split; [reflexivity|].
           rewrite !List.filter_app, Hquiet4, closing_text, Hdone2, app_nil_r.
           f_equal. clear. induction texts as [|t texts IH]; [done|]. cbn. by rewrite IH.
        -- destruct (IH sa2 out2 Hfin2 Hopen2 Hdone2 ltac:(congruence)) as (evs3 & Hw3 & Htext3).
           eexists. rewrite Hw3, Hout2, <- !app_assoc. split; [reflexivity|].
           rewrite List.filter_app, Htext3, map_app, <- app_assoc. f_equal.
           clear. induction texts as [|t texts IH]; [done|]. cbn. by rewrite IH.
      * assert (Hrest : exists evs4,
                  written (snd (finalize (foldl (fun st chunk => processChunk randomHex chunk st)
                                    match OpenAIChunkChoice.FinishReason choice with
                                    | Some reason => handleFinish reason (sa2, out2)
                                    | None => (sa2, out2)
                                    end rest)))
                  = written out2 ++ evs4 /\ List.filter is_text_event evs4 = []).
        { destruct (OpenAIChunkChoice.FinishReason choice) as [reason|].
          - destruct (handleFinish_written reason sa2 out2 Hfin2) as (Hw3 & _ & Hdone3).
            destruct (handleFinish reason (sa2, out2)) as [sa3 out3]. cbn [fst snd] in *.
            destruct (processChunks_text_done rest sa3 out3 Hdone3) as (evs4 & Hw4 & Hquiet4).
            exists (closing sa2 reason ++ evs4). rewrite Hw4, Hw3, <- app_assoc.
            split; [done|]. by rewrite List.filter_app, closing_text, Hdone2, Hquiet4.
          - by apply processChunks_text_done. }
        destruct Hrest as (evs4 & Hw4 & Hquiet4).
        eexists. rewrite Hw4, Hout2, <- !app_assoc. split; [reflexivity|].
        rewrite !List.filter_app, Hquiet4, (tool_events_not_text tools), !app_nil_r by done.
        cbn [List.filter is_text_event Z.eqb]. f_equal.
        clear. induction texts as [|t texts IH]; [done|]. cbn. by rewrite IH.
Qed.

(** Whatever the upstream sends, the text block carries one [text_delta]
    for every non-empty content that arrives up to and including the
    first chunk with a tool call or a finish_reason, in order, and is
    stopped exactly once, after the last of them.  Content that arrives
    later is dropped. *)
Theorem Transform_text_block (lines : list string) (scanErr : option gerror) (model : string) :
  let evs := written (snd (fst (Transform unmarshalChunk randomHex lines scanErr
                                  (NewStreamAdapter randomHex model)))) in
  List.filter is_text_event evs
  = map (fun text => ContentBlockDelta 0 (TextDelta text))
        (streamedText (decodedChunks unmarshalChunk lines))
    ++ [ContentBlockStop 0].
Proof.
  cbn zeta. unfold Transform, NewStreamAdapter. cbn [fst snd].
  rewrite scanLines_decodedChunks.
  match goal with |- context [foldl _ (?sa0, ?out0) _] =>
    destruct (processChunks_text_open (decodedChunks unmarshalChunk lines) sa0 out0
                eq_refl eq_refl eq_refl eq_refl) as (evs & Hw & Htext) end.
  cbn [written writeSSE app] in Hw. rewrite Hw. exact Htext.
Qed.


Lemma processChunk_blocks_closed (chunk : OpenAIChatChunk.t) (sa : StreamAdapter) (out : Sink) :
  finished sa = true -> toolCallsOf chunk = [] ->
  let st := processChunk randomHex chunk (sa, out) in
  finished (fst st) = true /\
  omap startIndex (written (snd st)) = omap startIndex (written out) /\
  omap stopIndex (written (snd st)) = omap stopIndex (written out).
Proof.
  intros Hfin Hquiet. cbn zeta. unfold toolCallsOf in Hquiet.
  pose proof (processChunk_writes chunk sa out) as Hw. cbn zeta in Hw.
  destruct (OpenAIChatChunk.Choices chunk) as [|choice _].
  - destruct Hw as (sa2 & -> & (_ & _ & _ & _ & _ & Hfin2) & _). cbn in *.
    split; [congruence|done].
  - rewrite Hquiet in Hw.
    destruct Hw as (sa2 & out2 & tools & -> & Hout2 & _ & (_ & _ & _ & _ & _ & Hfin2)
                    & (-> & _) & _).
    cbn in Hfin2. rewrite Hfin in Hfin2.
    assert (Hsame : match OpenAIChunkChoice.FinishReason choice with
                    | Some reason => handleFinish reason (sa2, out2)
                    | None => (sa2, out2)
                    end = (sa2, out2)).
    { destruct (OpenAIChunkChoice.FinishReason choice); [|done].
      unfold handleFinish. by rewrite Hfin2. }
    rewrite Hsame. cbn [fst snd]. split; [done|]. rewrite Hout2, !omap_app.
    destruct (OpenAIChunkDelta.Content _) as [[|c text]|];
      destruct (textBlockOpen sa && negb (textBlockDone sa)); cbn; by rewrite ?app_nil_r.
Qed.

Lemma processChunks_blocks_closed (chunks : list OpenAIChatChunk.t) :
  forall sa out,
  finished sa = true ->
  forallb (fun c => bool_decide (toolCallsOf c = [])) chunks = true ->
  let st := finalize (foldl (fun st chunk => processChunk randomHex chunk st) (sa, out) chunks) in
  omap startIndex (written (snd st)) = omap startIndex (written out) /\
  omap stopIndex (written (snd st)) = omap stopIndex (written out).
Proof.
  induction chunks as [|chunk rest IH]; intros sa out Hfin Hquiet; cbn zeta; cbn [foldl].
  - unfold finalize. cbn [fst]. by rewrite Hfin.
  - cbn [forallb] in Hquiet. apply andb_true_iff in Hquiet as [Hq%bool_decide_eq_true Hrest].
    destruct (processChunk_blocks_closed chunk sa out Hfin Hq) as (Hfin1 & Hstart1 & Hstop1).
    destruct (processChunk randomHex chunk (sa, out)) as [sa1 out1]. cbn [fst snd] in *.
    destruct (IH sa1 out1 Hfin1 Hrest) as [Hstart2 Hstop2]. split; congruence.
Qed.

Lemma handleFinish_blocks (reason : string) (sa : StreamAdapter) (out : Sink) :
  finished sa = false -> 0 <= lastBlockIndex sa ->
  omap startIndex (written out) = seqZ 0 (lastBlockIndex sa + 1) ->
  omap stopIndex (written out) = (if textBlockDone sa then [0] else []) ->
  let st := handleFinish reason (sa, out) in
  finished (fst st) = true /\
  omap startIndex (written (snd st)) = seqZ 0 (lastBlockIndex sa + 1) /\
  omap stopIndex (written (snd st)) ≡ₚ seqZ 0 (lastBlockIndex sa + 1).
Proof.
  intros Hfin Hlast Hstarts Hstops. cbn zeta.
  destruct (handleFinish_written reason sa out Hfin) as (Hw & Hfin' & _).
  split; [done|]. rewrite Hw, !omap_app, closing_startIndex, closing_stopIndex, app_nil_r.
  split; [done|]. rewrite Hstops.
  rewrite (seqZ_cons 0) by lia.
  replace (Z.pred (lastBlockIndex sa + 1)) with (lastBlockIndex sa) by lia.
  change (Z.succ 0) with 1.
  destruct (textBlockDone sa); cbn [app]; [by rewrite app_nil_r|].
  by rewrite Permutation_app_comm.
Qed.

Lemma processChunks_blocks (chunks : list OpenAIChatChunk.t) :
  forall sa out,
  finished sa = false -> 0 <= lastBlockIndex sa ->
  quietAfterFinish chunks = true ->
  lastBlockIndex sa + Z.of_nat (toolCallCount chunks) <= GoInt.max_int ->
  omap startIndex (written out) = seqZ 0 (lastBlockIndex sa + 1) ->
  omap stopIndex (written out) = (if textBlockDone sa then [0] else []) ->
  let st := finalize (foldl (fun st chunk => processChunk randomHex chunk st) (sa, out) chunks) in
  exists n, lastBlockIndex sa <= n <= lastBlockIndex sa + Z.of_nat (toolCallCount chunks) /\
    omap startIndex (written (snd st)) = seqZ 0 (n + 1) /\
    omap stopIndex (written (snd st)) ≡ₚ seqZ 0 (n + 1).
Proof.
  induction chunks as [|chunk rest IH]; intros sa out Hfin Hlast Hquiet Hbound Hstarts Hstops;
    cbn zeta; cbn [foldl].
  - unfold finalize. cbn [fst]. rewrite Hfin.
    destruct (handleFinish_blocks "stop" sa out Hfin Hlast Hstarts Hstops) as (_ & ? & ?).
    exists (lastBlockIndex sa). split; [cbn; lia|done].
  - unfold toolCallCount in Hbound. cbn [map concat] in Hbound.
    rewrite length_app in Hbound. fold (toolCallCount rest) in Hbound.
    cbn [quietAfterFinish] in Hquiet. unfold finishes, toolCallsOf in Hquiet, Hbound.
    assert (Hcount : toolCallCount (chunk :: rest)
                     = (length (toolCallsOf chunk) + toolCallCount rest)%nat).
    { unfold toolCallCount. cbn [map concat]. by rewrite length_app. }
    rewrite Hcount. unfold toolCallsOf. clear Hcount.
    pose proof (processChunk_writes chunk sa out) as Hw. cbn zeta in Hw.
    destruct (OpenAIChatChunk.Choices chunk) as [|choice _].
    + destruct Hw as (sa2 & -> & (_ & _ & _ & Hdone2 & _ & Hfin2) & _ & Hlast2).
      cbn in Hdone2, Hfin2. rewrite <- Hlast2 in *. rewrite <- Hdone2 in Hstops.
      cbn [length] in *. apply IH; try done; congruence.
    + destruct Hw as (sa2 & out2 & tools & -> & Hout2 & Htools
                      & (_ & _ & _ & Hdone2 & _ & Hfin2) & _ & Hopens).
      cbn in Hdone2, Hfin2. rewrite Hfin in Hfin2.
      destruct (Hopens Hlast ltac:(lia)) as (k & Hk & Hlast2 & Htoolstarts).
      assert (Hstarts2 : omap startIndex (written out2) = seqZ 0 (lastBlockIndex sa2 + 1)).
      { rewrite Hout2, !omap_app, Hstarts, Htoolstarts, Hlast2.
        replace (lastBlockIndex sa + k + 1) with ((lastBlockIndex sa + 1) + k) by lia.
        rewrite (seqZ_app 0 (lastBlockIndex sa + 1) k) by lia. cbn [Z.add]. f_equal.
        destruct (OpenAIChunkDelta.Content _) as [[|c text]|];
          destruct (textBlockOpen sa && negb (textBlockDone sa));
          destruct (OpenAIChunkDelta.ToolCalls _);
          destruct (bool_decide (toolIndex sa = None) && negb (textBlockDone sa)); done. }
      assert (Hstops2 : omap stopIndex (written out2) = if textBlockDone sa2 then [0] else []).
      { rewrite Hout2, !omap_app, Hstops, (tool_events_no_stop tools), Hdone2, app_nil_r by done.
        destruct (OpenAIChunkDelta.Content _) as [[|c text]|];
          destruct (textBlockOpen sa && negb (textBlockDone sa)) eqn:Hgate;
          destruct (OpenAIChunkDelta.ToolCalls _);
          destruct (textBlockDone sa);
          destruct (bool_decide (toolIndex sa = None)); done. }
      destruct (OpenAIChunkChoice.FinishReason choice) as [reason|].
      * rewrite bool_decide_true in Hquiet by done.
        destruct (handleFinish_blocks reason sa2 out2 Hfin2 ltac:(lia) Hstarts2 Hstops2)
          as (Hfin3 & Hstarts3 & Hstops3).
        destruct (handleFinish reason (sa2, out2)) as [sa3 out3]. cbn [fst snd] in *.
        destruct (processChunks_blocks_closed rest sa3 out3 Hfin3 Hquiet) as [Hstarts4 Hstops4].
        exists (lastBlockIndex sa2). split; [lia|]. rewrite Hstarts4, Hstops4. done.
      * rewrite bool_decide_false in Hquiet by (by intros [? ?]).
        destruct (IH sa2 out2 Hfin2 ltac:(lia) Hquiet ltac:(lia) Hstarts2 Hstops2)
          as (n & Hn & Hstarts3 & Hstops3).
        exists n. split; [lia|done].
Qed.

(** For a stream in which no tool call follows the chunk that carries
    finish_reason, the content blocks are numbered 0, 1, 2, ... in the
    order in which they are started, and every block that is started is
    stopped exactly once: the stops are a permutation of the starts. *)
Theorem Transform_blocks_balanced (lines : list string) (scanErr : option gerror)
                                  (model : string) :
  quietAfterFinish (decodedChunks unmarshalChunk lines) = true ->
  Z.of_nat (toolCallCount (decodedChunks unmarshalChunk lines)) <= GoInt.max_int ->
  let evs := written (snd (fst (Transform unmarshalChunk randomHex lines scanErr
                                  (NewStreamAdapter randomHex model)))) in
  exists n, 0 <= n <= Z.of_nat (toolCallCount (decodedChunks unmarshalChunk lines)) /\
    omap startIndex evs = seqZ 0 (n + 1) /\
    omap stopIndex evs ≡ₚ seqZ 0 (n + 1).
Proof.
  intros Hquiet Hbound. cbn zeta. unfold Transform, NewStreamAdapter. cbn [fst snd].
  rewrite scanLines_decodedChunks.
  match goal with |- context [foldl _ (?sa0, ?out0) _] =>
    destruct (processChunks_blocks (decodedChunks unmarshalChunk lines) sa0 out0)
      as (n & Hn & Hstarts & Hstops) end;
    cbn [lastBlockIndex textBlockDone finished] in *; try done; try lia.
  by exists n.
Qed.


Lemma scanLines_DONE (pre post : list string) :
  forall st,
  scanLines unmarshalChunk randomHex (pre ++ "data: [DONE]"%string :: post) st
  = scanLines unmarshalChunk randomHex pre st.
Proof.
  induction pre as [|line pre IH]; intros st; [done|].
  cbn [app scanLines].
  destruct (negb (GoStrings.HasPrefix line "data: ")); [by apply IH|].
  destruct (String.eqb _ "[DONE]"); [done|].
  destruct (unmarshalChunk _); by apply IH.
Qed.

(** [Transform] stops reading at the line [data: [DONE]]: the lines that
    follow it change neither the events written nor the adapter. *)
Theorem Transform_stops_at_DONE (pre post : list string) (scanErr : option gerror)
                                (st : StreamAdapter * Sink) :
  fst (Transform unmarshalChunk randomHex (pre ++ "data: [DONE]"%string :: post) scanErr st)
  = fst (Transform unmarshalChunk randomHex pre scanErr st).
Proof. unfold Transform. destruct st as [sa out]. cbn [fst]. by rewrite scanLines_DONE. Qed.

End StreamReports.

Lemma Transform_blocks_balanced_witness :
  exists n,
    0 <= n <= Z.of_nat (toolCallCount (decodedChunks sample_unmarshalChunk one_tool_call_stream)) /\
    omap startIndex (transform one_tool_call_stream) = seqZ 0 (n + 1) /\
    omap stopIndex (transform one_tool_call_stream) ≡ₚ seqZ 0 (n + 1).
Proof.
  apply (Transform_blocks_balanced sample_unmarshalChunk sample_hex one_tool_call_stream None
           "claude-sonnet").
  - reflexivity.
  - vm_compute. discriminate.
Defined.

(** *** request.go: messages, tools and tool choice *)

Section RequestFacts.

Variable unmarshalString : string -> option string.
Variable unmarshalBlocks : string -> list ContentBlock.t + gerror.
Variable unmarshalTextBlocks : string -> list (string * string) + gerror.
Variable unmarshalObject : string -> option (option object).
Variable marshalObject : option object -> option string.





Lemma assistantParts_tool_calls (blocks : list ContentBlock.t) :
  map OpenAIToolCall.ID (snd (assistantParts marshalObject blocks))
  = map ContentBlock.ID (List.filter is_tool_use blocks) /\
  map (fun tc => OpenAIFunctionCall.Name (OpenAIToolCall.Function tc))
      (snd (assistantParts marshalObject blocks))
  = map ContentBlock.Name (List.filter is_tool_use blocks) /\
  Forall (fun tc => OpenAIToolCall.Type_ tc = "function"%string)
         (snd (assistantParts marshalObject blocks)) /\
  fst (assistantParts marshalObject blocks)
  = map ContentBlock.Text
      (List.filter (fun b => is_text b && negb (String.eqb (ContentBlock.Text b) "")) blocks).
Proof.
  induction blocks as [|b rest IH]; [by repeat split|].
  cbn [assistantParts List.filter]. unfold is_tool_use, is_text in *.
  destruct (assistantParts marshalObject rest) as [textParts toolCalls]. cbn [fst snd] in *.
  destruct IH as (Hids & Hnames & Htypes & Htexts).
  destruct (String.eqb_spec (ContentBlock.Type_ b) "text") as [Htext|Hnot].
  - rewrite Htext. cbn [String.eqb Ascii.eqb Bool.eqb andb].
    destruct (String.eqb (ContentBlock.Text b) ""); cbn; by rewrite ?Htexts.
  - cbn [andb]. destruct (String.eqb (ContentBlock.Type_ b) "tool_use"); cbn [fst snd map].
    + rewrite Hids, Hnames. repeat split; try done. by constructor.
    + done.
Qed.

(** An assistant turn with content blocks becomes one assistant message
    that carries one tool call per [tool_use] block, in order and with the
    block's id and name, and the non-empty texts joined by newlines; it
    has no content when there is no such text. *)
Theorem convertAssistantBlocks_tool_calls (blocks : list ContentBlock.t) :
  exists m,
    convertAssistantBlocks marshalObject blocks = inl [m] /\
    OpenAIMessage.Role m = "assistant"%string /\
    map OpenAIToolCall.ID (OpenAIMessage.ToolCalls m)
    = map ContentBlock.ID (List.filter is_tool_use blocks) /\
    map (fun tc => OpenAIFunctionCall.Name (OpenAIToolCall.Function tc))
        (OpenAIMessage.ToolCalls m)
    = map ContentBlock.Name (List.filter is_tool_use blocks) /\
    Forall (fun tc => OpenAIToolCall.Type_ tc = "function"%string) (OpenAIMessage.ToolCalls m) /\
    let text :=
      Join (map ContentBlock.Text
              (List.filter (fun b => is_text b && negb (String.eqb (ContentBlock.Text b) ""))
                 blocks)) (String "010" "") in
    OpenAIMessage.Content m = (if String.eqb text "" then ContentNil else ContentString text).
Proof.
  unfold convertAssistantBlocks.
  destruct (assistantParts_tool_calls blocks) as (Hids & Hnames & Htypes & Htexts).
  destruct (assistantParts marshalObject blocks) as [textParts toolCalls]. cbn [fst snd] in *.
  eexists. split; [reflexivity|]. cbn. by rewrite Htexts.
Qed.


Variable unmarshalToolChoice : string -> option (string * string).
Variable marshalRequest : OpenAIChatRequest.t -> string + gerror.

Lemma convertToolChoice_total (raw : string) :
  exists choice,
    convertToolChoice unmarshalToolChoice raw = inl choice /\
    (choice = ChoiceString "auto" \/ choice = ChoiceString "required" \/
     exists name, name <> ""%string /\ choice = ChoiceFunction name /\
                  unmarshalToolChoice raw = Some ("tool"%string, name)).
Proof.
  unfold convertToolChoice. destruct (unmarshalToolChoice raw) as [[type name]|]; [|by eauto].
  destruct (String.eqb type "auto" || String.eqb type ""); [by eauto|].
  destruct (String.eqb type "any"); [by eauto 6|].
  destruct (String.eqb_spec type "tool") as [->|_]; [|by eauto].
  destruct (String.eqb_spec name "") as [->|Hname]; [by eauto|]. eauto 10.
Qed.

(** [ConvertRequest] fails only when the messages cannot be converted or
    the finished request cannot be marshalled: no tool choice, whatever
    its bytes, makes it fail.  The request it marshals names the backend's
    model when one is given, asks for usage in the stream exactly when
    streaming, offers the tools of the request in order as functions, and
    carries a tool choice only when the request has one; a choice of a
    function always names it. *)
Theorem ConvertRequest_outcome (req : MessagesRequest.t) (modelOverride : string) :
  match convertMessages unmarshalString unmarshalBlocks unmarshalTextBlocks unmarshalObject
          marshalObject (MessagesRequest.System req) (MessagesRequest.Messages req) with
  | inr err =>
      ConvertRequest unmarshalString unmarshalBlocks unmarshalTextBlocks unmarshalObject
        marshalObject unmarshalToolChoice marshalRequest req modelOverride
      = inr (ErrConvertingMessages err)
  | inl messages =>
      exists out,
        ConvertRequest unmarshalString unmarshalBlocks unmarshalTextBlocks unmarshalObject
          marshalObject unmarshalToolChoice marshalRequest req modelOverride
        = match marshalRequest out with
          | inl body => inl body
          | inr err => inr (ErrMarshalRequest err)
          end /\
        OpenAIChatRequest.Model out
        = (if String.eqb modelOverride "" then MessagesRequest.Model req else modelOverride) /\
        OpenAIChatRequest.Messages out = messages /\
        OpenAIChatRequest.MaxTokens out = MessagesRequest.MaxTokens req /\
        OpenAIChatRequest.Stream out = MessagesRequest.Stream req /\
        OpenAIChatRequest.StreamOptions out
        = (if MessagesRequest.Stream req then Some true else None) /\
        map OpenAITool.Name (OpenAIChatRequest.Tools out)
        = map Tool.Name (MessagesRequest.Tools req) /\
        Forall (fun t => OpenAITool.Type_ t = "function"%string) (OpenAIChatRequest.Tools out) /\
        (OpenAIChatRequest.ToolChoice out = None <-> MessagesRequest.ToolChoice req = ""%string) /\
        (forall name, OpenAIChatRequest.ToolChoice out = Some (ChoiceFunction name) ->
                      name <> ""%string)
  end.
Proof.
  unfold ConvertRequest.
  destruct (convertMessages _ _ _ _ _ _ _) as [messages|err]; [|done].
  set (tools := match MessagesRequest.Tools req with
                | [] => []
                | _ => _
                end).
  assert (Htools : tools = convertTools (MessagesRequest.Tools req)).
  { subst tools. by destruct (MessagesRequest.Tools req). }
  clearbody tools. subst tools.
  assert (Hnames : map OpenAITool.Name (convertTools (MessagesRequest.Tools req))
                   = map Tool.Name (MessagesRequest.Tools req)).
  { unfold convertTools. rewrite map_map. done. }
  assert (Htypes : Forall (fun t => OpenAITool.Type_ t = "function"%string)
                          (convertTools (MessagesRequest.Tools req))).
  { unfold convertTools. apply Forall_fmap. by apply Forall_true. }
  destruct (String.eqb_spec (MessagesRequest.ToolChoice req) "") as [Hnone|Hsome].
  - eexists. split; [reflexivity|]. cbn. destruct (String.eqb modelOverride "");
      repeat split; try done.
  - destruct (convertToolChoice_total (MessagesRequest.ToolChoice req))
      as (choice & -> & Hchoice).
    eexists. split; [reflexivity|]. cbn. destruct (String.eqb modelOverride "");
      repeat split; try done; intros name [= ->];
      destruct Hchoice as [?|[?|(? & ? & ? & ?)]]; congruence.
Qed.

End RequestFacts.


(** *** response.go: content blocks, and the way back *)

Section ResponseFacts.

Variable unmarshalResponse : string -> OpenAIChatResponse.t + gerror.
Variable unmarshalObject : string -> option (option object).
Variable randomHex : nat -> string.

Lemma toolUseBlocks_pairs (calls : list OpenAIToolCall.t) :
  forall draw,
  Forall2 (fun tc b =>
             is_tool_use b = true /\
             ContentBlock.Name b = OpenAIFunctionCall.Name (OpenAIToolCall.Function tc) /\
             ContentBlock.ID b <> ""%string /\
             (OpenAIToolCall.ID tc <> ""%string -> ContentBlock.ID b = OpenAIToolCall.ID tc) /\
             (let args := OpenAIFunctionCall.Arguments (OpenAIToolCall.Function tc) in
              (args = ""%string -> ContentBlock.Input b = Some []) /\
              (args <> ""%string -> unmarshalObject args = None ->
               ContentBlock.Input b = Some [("raw"%string, JString args)]) /\
              (args <> ""%string -> forall input, unmarshalObject args = Some input ->
               ContentBlock.Input b = input)))
          calls (toolUseBlocks unmarshalObject randomHex draw calls).
Proof.
  induction calls as [|tc rest IH]; intros draw; cbn [toolUseBlocks]; [constructor|].
  constructor; [|by apply IH].
  cbn [is_tool_use ContentBlock.Type_ ContentBlock.Name ContentBlock.ID ContentBlock.Input].
  split; [done|]. split; [done|]. unfold coalesce, generateToolID, parseToolArguments.
  split; [by destruct (String.eqb_spec (OpenAIToolCall.ID tc) "")|].
  split; [by destruct (String.eqb_spec (OpenAIToolCall.ID tc) "")|].
  cbn zeta.
  destruct (String.eqb_spec (OpenAIFunctionCall.Arguments (OpenAIToolCall.Function tc)) "")
    as [Hempty|Hargs].
  - by repeat split.
  - repeat split; [done| |].
    + by intros _ ->.
    + by intros _ input ->.
Qed.

(** A converted response holds at most one text block, which comes first
    and carries the text of the first choice; after it comes one
    [tool_use] block per tool call of that choice, in order, with the
    call's name, an id that is never empty (the call's own id when it has
    one), and as input the map decoded from the call's arguments: the
    empty object for empty arguments, the object that holds them under
    the key raw when they do not parse, and otherwise the decoded map,
    which is nil for the document null. *)
Theorem ConvertResponse_blocks (body requestModel : string) (out : MessagesResponse.t) :
  ConvertResponse unmarshalResponse unmarshalObject randomHex body requestModel = inl out ->
  exists resp choice rest texts tools,
    unmarshalResponse body = inl resp /\
    OpenAIChatResponse.Choices resp = choice :: rest /\
    MessagesResponse.Content out = texts ++ tools /\
    (texts = [] \/ texts = [ContentBlock.text (messageText (OpenAIChoice.Message choice))]) /\
    Forall2 (fun tc b =>
               is_tool_use b = true /\
               ContentBlock.Name b = OpenAIFunctionCall.Name (OpenAIToolCall.Function tc) /\
               ContentBlock.ID b <> ""%string /\
               (OpenAIToolCall.ID tc <> ""%string -> ContentBlock.ID b = OpenAIToolCall.ID tc) /\
               (let args := OpenAIFunctionCall.Arguments (OpenAIToolCall.Function tc) in
                (args = ""%string -> ContentBlock.Input b = Some []) /\
                (args <> ""%string -> unmarshalObject args = None ->
                 ContentBlock.Input b = Some [("raw"%string, JString args)]) /\
                (args <> ""%string -> forall input, unmarshalObject args = Some input ->
                 ContentBlock.Input b = input)))
            (OpenAIMessage.ToolCalls (OpenAIChoice.Message choice)) tools.
Proof.
  unfold ConvertResponse. destruct (unmarshalResponse body) as [resp|]; [|done].
  destruct (OpenAIChatResponse.Choices resp) as [|choice rest] eqn:Hchoices; [done|].
  intros [= <-]. cbn [MessagesResponse.Content]. unfold buildContentBlocks.
  pose proof (toolUseBlocks_pairs (OpenAIMessage.ToolCalls (OpenAIChoice.Message choice)) 0)
    as Hpairs.
  destruct (String.eqb_spec (messageText (OpenAIChoice.Message choice)) "") as [Hempty|Htext].
  - cbn [app].
    destruct (toolUseBlocks _ _ 0 _) as [|b tools] eqn:Htools.
    + exists resp, choice, rest, [ContentBlock.text ""], []. rewrite Hempty. auto 10.
    + exists resp, choice, rest, [], (b :: tools). auto 10.
  - eexists resp, choice, rest, [_], _. cbn [app]. auto 10.
Qed.

End ResponseFacts.

Section RoundTrip.

Variable unmarshalObject : string -> option (option object).
Variable marshalObject : option object -> option string.
Variable randomHex : nat -> string.

Lemma filter_tool_use_echo (blocks : list ContentBlock.t) :
  Forall echoed_tool_use blocks ->
  Forall (fun b => forall input, ContentBlock.Input b = Some input ->
            exists s, marshalObject (Some input) = Some s /\ s <> ""%string /\
                      unmarshalObject s = Some (Some input)) blocks ->
  forall draw,
  toolUseBlocks unmarshalObject randomHex draw (snd (assistantParts marshalObject blocks))
  = List.filter is_tool_use blocks.
Proof.
  intros Hecho Hcodec. induction blocks as [|b rest IH]; intros draw; [done|].
  apply Forall_cons in Hecho as [Hb Hecho]. apply Forall_cons in Hcodec as [Hinput Hcodec].
  specialize (IH Hecho Hcodec).
  cbn [assistantParts List.filter]. unfold echoed_tool_use, is_tool_use in *.
  destruct (assistantParts marshalObject rest) as [textParts toolCalls]. cbn [snd] in *.
  destruct (String.eqb_spec (ContentBlock.Type_ b) "text") as [Htext|Hnot].
  - rewrite Htext. cbn [String.eqb Ascii.eqb Bool.eqb].
    destruct (String.eqb (ContentBlock.Text b) ""); by cbn [snd].
  - destruct (String.eqb (ContentBlock.Type_ b) "tool_use") eqn:Htool; [|by cbn [snd]].
    destruct (Hb eq_refl) as (id & name & input & Hid & ->).
    destruct (Hinput input eq_refl) as (s & Hs & Hne & Hback).
    unfold ContentBlock.tool_use at 1 2 3.
    cbn [snd toolUseBlocks ContentBlock.Input ContentBlock.ID ContentBlock.Name
         OpenAIToolCall.ID OpenAIToolCall.Function OpenAIFunctionCall.Name
         OpenAIFunctionCall.Arguments].
    rewrite Hs, IH. cbn [default]. unfold Datatypes.id, coalesce, parseToolArguments.
    destruct (String.eqb_spec id "") as [|_]; [done|].
    destruct (String.eqb_spec s "") as [|_]; [done|]. by rewrite Hback.
Qed.

(** Tool calls survive the translation to OpenAI and back: when an
    assistant turn is converted by [convertAssistantBlocks] and the
    resulting message comes back as a response, [buildContentBlocks]
    yields its [tool_use] blocks again, unchanged and in order, provided
    the JSON codec reads back the inputs it writes. *)
Theorem tool_use_round_trip (blocks : list ContentBlock.t) (draw : nat) (m : OpenAIMessage.t) :
  Forall echoed_tool_use blocks ->
  Forall (fun b => forall input, ContentBlock.Input b = Some input ->
            exists s, marshalObject (Some input) = Some s /\ s <> ""%string /\
                      unmarshalObject s = Some (Some input)) blocks ->
  convertAssistantBlocks marshalObject blocks = inl [m] ->
  List.filter is_tool_use (buildContentBlocks unmarshalObject randomHex draw m)
  = List.filter is_tool_use blocks.
Proof.
  intros Hecho Hcodec. unfold convertAssistantBlocks.
  pose proof (filter_tool_use_echo blocks Hecho Hcodec draw) as Htools.
  destruct (assistantParts marshalObject blocks) as [textParts toolCalls]. cbn [snd] in Htools.
  intros [= <-]. unfold buildContentBlocks. cbn [OpenAIMessage.ToolCalls]. rewrite Htools.
  assert (Hidem : List.filter is_tool_use (List.filter is_tool_use blocks)
                  = List.filter is_tool_use blocks).
  { clear. induction blocks as [|b rest IH]; [done|]. cbn.
    destruct (is_tool_use b) eqn:Hb; cbn; rewrite ?Hb, IH; done. }
  destruct (String.eqb (messageText _) ""); cbn [app].
  - destruct (List.filter is_tool_use blocks) eqn:Hfilter; [done|exact Hidem].
  - cbn [List.filter is_tool_use ContentBlock.text ContentBlock.Type_ String.eqb Ascii.eqb
         Bool.eqb]. exact Hidem.
Qed.

End RoundTrip.

Lemma ConvertResponse_blocks_witness :
  exists resp choice rest texts tools,
    sample_unmarshalToolResponse sample_tool_response_doc = inl resp /\
    OpenAIChatResponse.Choices resp = choice :: rest /\
    MessagesResponse.Content sample_tool_message = texts ++ tools /\
    (texts = [] \/ texts = [ContentBlock.text (messageText (OpenAIChoice.Message choice))]) /\
    Forall2 (fun tc b =>
               is_tool_use b = true /\
               ContentBlock.Name b = OpenAIFunctionCall.Name (OpenAIToolCall.Function tc) /\
               ContentBlock.ID b <> ""%string /\
               (OpenAIToolCall.ID tc <> ""%string -> ContentBlock.ID b = OpenAIToolCall.ID tc) /\
               (let args := OpenAIFunctionCall.Arguments (OpenAIToolCall.Function tc) in
                (args = ""%string -> ContentBlock.Input b = Some []) /\
                (args <> ""%string -> sample_unmarshalObject args = None ->
                 ContentBlock.Input b = Some [("raw"%string, JString args)]) /\
                (args <> ""%string -> forall input, sample_unmarshalObject args = Some input ->
                 ContentBlock.Input b = input)))
            (OpenAIMessage.ToolCalls (OpenAIChoice.Message choice)) tools.
Proof.
  apply (ConvertResponse_blocks sample_unmarshalToolResponse sample_unmarshalObject sample_hex
           sample_tool_response_doc "claude-sonnet" sample_tool_message).
  reflexivity.
Defined.

Lemma tool_use_round_trip_witness :
  List.filter is_tool_use
    (buildContentBlocks sample_unmarshalObject sample_hex 0 sample_assistant_message)
  = List.filter is_tool_use sample_assistant_blocks.
Proof.
  apply (tool_use_round_trip sample_unmarshalObject sample_marshalObject sample_hex
           sample_assistant_blocks 0 sample_assistant_message).
  - repeat constructor; intros Htool; [discriminate Htool|].
    exists "toolu_01"%string, "sum"%string, sample_input. by split.
  - repeat constructor; intros input [= <-]. eexists. by repeat split.
  - reflexivity.
Defined.

End ApiformatFacts.

(** ** The Anthropic endpoints *)

Module HandlersFacts.

Import Runtime Handlers.

Section WithDecoder.

Variable unmarshalTokenCountRequest : string -> TokenCountRequest.t + gerror.

(** C7 (as amended).  For every POST request to the token count endpoint
    whose body of length L decodes as a token count request, the handler
    answers 200 with input_tokens = max(1, floor(L / 4)). *)
Theorem HandleCountTokens_estimate (bodyBytes : string) (req : TokenCountRequest.t) :
  unmarshalTokenCountRequest bodyBytes = inl req ->
  HandleCountTokens unmarshalTokenCountRequest "POST" (inl bodyBytes)
  = mkResponse 200 "application/json"
      (TokenCountResponse (Z.max 1 (Z.of_nat (String.length bodyBytes) / 4))).
Proof.
  intros Hreq. unfold HandleCountTokens. cbn [String.eqb Ascii.eqb Bool.eqb negb].
  rewrite Hreq. f_equal. f_equal.
  rewrite Z.quot_div_nonneg by lia.
  destruct (Z.ltb_spec (Z.of_nat (String.length bodyBytes) / 4) 1); lia.
Qed.

End WithDecoder.

Lemma HandleCountTokens_estimate_witness :
  HandleCountTokens decode_empty_object "POST" (inl "{          }"%string)
  = mkResponse 200 "application/json" (TokenCountResponse 3).
Proof.
  apply (HandleCountTokens_estimate decode_empty_object "{          }" (TokenCountRequest.mk "")).
  reflexivity.
Defined.

(** C7, counterexample.  The seven bytes [{     }] are valid JSON; the
    handler answers 200 with input_tokens = 1, while ceil(7/4) = 2. *)
Lemma HandleCountTokens_not_ceiling :
  let body := "{     }"%string in
  String.length body = 7%nat /\
  decode_empty_object body = inl (TokenCountRequest.mk "") /\
  HandleCountTokens decode_empty_object "POST" (inl body)
  = mkResponse 200 "application/json" (TokenCountResponse 1) /\
  ceil_quarter 7 = 2 /\
  HandleCountTokens decode_empty_object "POST" (inl body)
  <> mkResponse 200 "application/json" (TokenCountResponse (ceil_quarter 7)).
Proof. repeat split. discriminate. Qed.

(** *** The messages endpoint *)

Section MessagesFacts.

Context {W : Type} {backend : Scheduler.Backend W}.
Context {Reader : Type} {services : Services Reader}.

Lemma handleStreamingResponse_status (flusher : bool) (resp : BackendResponse.t Reader)
                                     (requestModel : string) :
  replyStatus (handleStreamingResponse flusher resp requestModel)
  = if flusher then 200 else 500.
Proof.
  unfold handleStreamingResponse. destruct flusher; cbn [negb]; [|done].
  destruct (scan _) as [lines scanErr]. by destruct (Apiformat.Transform _ _ _ _ _) as [[? ?] ?].
Qed.

Lemma handleBufferedResponse_status (resp : BackendResponse.t Reader) (requestModel : string) :
  replyStatus (handleBufferedResponse resp requestModel) = 200 \/
  replyStatus (handleBufferedResponse resp requestModel) = 500 \/
  replyStatus (handleBufferedResponse resp requestModel) = 502.
Proof.
  unfold handleBufferedResponse. destruct (ReadAll _) as [respBody [err|]]; [auto|].
  destruct (Apiformat.ConvertResponse _ _ _ _ _); auto.
Qed.

(** How [exchange] ends: without a request to the backend, with a request
    that fails, or with a response. *)
Lemma exchange_paths (req : Apiformat.MessagesRequest.t) (header : Router.Entries)
                     (flusher : bool) (instance : Instance.t) :
  let rest := exchange req header flusher instance in
  (snd rest = [] /\ (replyStatus (fst rest) = 400 \/ replyStatus (fst rest) = 502)) \/
  (exists openaiBody,
     Apiformat.ConvertRequest unmarshalString unmarshalBlocks unmarshalTextBlocks
       unmarshalObject marshalObject unmarshalToolChoice marshalRequest req
       (Router.aliasOf instance) = inl openaiBody /\
     let request :=
       Router.proxyRequest CanonicalMIMEHeaderKey "POST" "/v1/chat/completions" ""
         openaiBody header instance in
     ((snd rest = [Forward request] /\ replyStatus (fst rest) = 502 /\
       exists err, Do request = inr err) \/
      (exists resp,
         snd rest = [Forward request; CloseResponseBody] /\ Do request = inl resp /\
         fst rest = replyTo req flusher resp))).
Proof.
  cbn zeta. unfold exchange, replyTo. fold (Router.aliasOf instance).
  destruct (Apiformat.ConvertRequest _ _ _ _ _ _ _ _ _) as [openaiBody|err].
  2: { left. cbn. auto. }
  unfold Router.ForwardRequest.
  destruct (NewRequest _ _) as [err|].
  { left. cbn. auto. }
  right. exists openaiBody. split; [done|].
  destruct (Do _) as [resp|err] eqn:Hdo.
  - right. by exists resp.
  - left. cbn. eauto.
Qed.

Lemma forwarded_between (slot : Router.Slot) (inner : list Effect) :
  omap forwarded (acquired slot ++ inner ++ release slot ++ [CloseRequestBody])
  = omap forwarded inner.
Proof. rewrite !omap_app. destruct slot; cbn; by rewrite app_nil_r. Qed.

(** Where [HandleMessages] returns: before it takes a slot, with an
    error and nothing sent to the backend; or after [exchange], between
    taking the slot and releasing it. *)
Lemma HandleMessages_paths (method : string) (body : string + gerror)
    (header : Router.Entries) (flusher : bool) (m : Scheduler.Manager) (w : W) :
  let handled := HandleMessages method body header flusher m w in
  ((snd handled = [] \/ snd handled = [CloseRequestBody]) /\
   (replyStatus (fst handled) = 405 \/ replyStatus (fst handled) = 400 \/
    replyStatus (fst handled) = 404 \/
    (replyStatus (fst handled) = 503 /\ errorType (fst handled) = "overloaded_error"%string /\
     snd handled = [CloseRequestBody]))) \/
  (exists bodyBytes req instance slot,
     method = "POST"%string /\ body = inl bodyBytes /\
     unmarshalMessagesRequest bodyBytes = inl req /\
     Apiformat.MessagesRequest.Model req <> ""%string /\
     0 < Apiformat.MessagesRequest.MaxTokens req /\
     Apiformat.MessagesRequest.Messages req <> [] /\
     Router.FindInstanceByModel ToLower m w (Apiformat.MessagesRequest.Model req)
     = inl instance /\
     Router.AcquireConcurrency acquireSlot instance = inl slot /\
     handled
     = (fst (exchange req header flusher instance),
        acquired slot ++ snd (exchange req header flusher instance) ++ release slot
        ++ [CloseRequestBody])).
Proof.
  cbn zeta. unfold HandleMessages.
  destruct (String.eqb_spec method "POST") as [->|_]; cbn [negb]; [|left; cbn; auto].
  destruct body as [bodyBytes|err]; [|left; cbn; auto].
  destruct (unmarshalMessagesRequest bodyBytes) as [req|err] eqn:Hreq; [|left; cbn; auto].
  destruct (String.eqb_spec (Apiformat.MessagesRequest.Model req) "") as [|Hmodel];
    [left; cbn; auto|].
  destruct (Z.leb_spec (Apiformat.MessagesRequest.MaxTokens req) 0) as [|Htokens];
    [left; cbn; auto|].
  destruct (Apiformat.MessagesRequest.Messages req) as [|message messages] eqn:Hmessages;
    [left; cbn; auto|]. cbn [length Nat.eqb].
  destruct (Router.FindInstanceByModel _ _ _ _) as [instance|err] eqn:Hfind;
    [|left; cbn; auto].
  rewrite (RouterFacts.FindInstanceByModel_running _ _ _ _ _ Hfind).
  change (negb (String.eqb "running" "running")) with false. cbn iota.
  destruct (Router.AcquireConcurrency _ _) as [slot|err] eqn:Hslot.
  - right. exists bodyBytes, req, instance, slot. rewrite Hmessages.
    repeat split; try done. unfold first, defer. cbn [fst snd]. by rewrite <- !app_assoc.
  - left. cbn. split; [auto|]. do 3 right. done.
Qed.

(** A 503 is answered only when the concurrency limit of the instance
    refuses a slot, in which case nothing was sent to the backend, or
    when the backend itself answered 503.  The router hands out running
    instances only, so the handler never reports an instance that is not
    running. *)
Theorem HandleMessages_unavailable (method : string) (body : string + gerror)
    (header : Router.Entries) (flusher : bool) (m : Scheduler.Manager) (w : W) :
  let handled := HandleMessages method body header flusher m w in
  replyStatus (fst handled) = 503 ->
  (errorType (fst handled) = "overloaded_error"%string /\ snd handled = [CloseRequestBody]) \/
  (exists request resp,
     Forward request ∈ snd handled /\ Do request = inl resp /\
     BackendResponse.StatusCode resp = 503 /\ fst handled = forwardBackendError resp).
Proof.
  cbn zeta. intros Hstatus.
  destruct (HandleMessages_paths method body header flusher m w)
    as [[_ Hearly]|(bodyBytes & req & instance & slot & _ & _ & _ & _ & _ & _ & _ & _ & Hrun)].
  { rewrite Hstatus in Hearly. destruct Hearly as [|[|[|(_ & ? & ?)]]]; try done. by left. }
  rewrite Hrun in *. cbn [fst snd] in *.
  destruct (exchange_paths req header flusher instance)
    as [[_ [Hbad|Hbad]]
       |(openaiBody & _ & [(_ & Hbad & _)|(resp & Heffects & Hdo & Hreply)])];
    try (rewrite Hstatus in Hbad; done).
  right. eexists _, resp. rewrite Heffects. split; [|split; [exact Hdo|]].
  { rewrite !elem_of_app. right. left. apply list_elem_of_here. }
  rewrite Hreply in *. unfold replyTo in *.
  destruct (400 <=? BackendResponse.StatusCode resp); [done|].
  destruct (Apiformat.MessagesRequest.Stream req).
  - rewrite handleStreamingResponse_status in Hstatus. by destruct flusher.
  - by destruct (handleBufferedResponse_status resp (Apiformat.MessagesRequest.Model req))
      as [Hs|[Hs|Hs]]; rewrite Hs in Hstatus.
Qed.

(** The backend receives at most one request, and only for a POST whose
    body decodes to a request with a model, a positive max_tokens and at
    least one message, for which the router finds a running instance:
    the request is a POST to /v1/chat/completions on the port of that
    instance, and its body is the conversion of the client's request
    under the name the instance is matched by, its alias or else its
    model id. *)
Theorem HandleMessages_forwards (method : string) (body : string + gerror)
    (header : Router.Entries) (flusher : bool) (m : Scheduler.Manager) (w : W)
    (request : Router.ProxyRequest) :
  let handled := HandleMessages method body header flusher m w in
  Forward request ∈ snd handled ->
  exists bodyBytes req instance openaiBody,
    method = "POST"%string /\ body = inl bodyBytes /\
    unmarshalMessagesRequest bodyBytes = inl req /\
    Apiformat.MessagesRequest.Model req <> ""%string /\
    0 < Apiformat.MessagesRequest.MaxTokens req /\
    Apiformat.MessagesRequest.Messages req <> [] /\
    Router.FindInstanceByModel ToLower m w (Apiformat.MessagesRequest.Model req)
    = inl instance /\
    Instance.State instance = "running"%string /\
    Apiformat.ConvertRequest unmarshalString unmarshalBlocks unmarshalTextBlocks
      unmarshalObject marshalObject unmarshalToolChoice marshalRequest req
      (Router.aliasOf instance) = inl openaiBody /\
    request = Router.proxyRequest CanonicalMIMEHeaderKey "POST" "/v1/chat/completions" ""
                openaiBody header instance /\
    omap forwarded (snd handled) = [request].
Proof.
  cbn zeta. intros Hin.
  assert (Hsent : request ∈ omap forwarded (snd (HandleMessages method body header flusher m w))).
  { apply list_elem_of_omap. by exists (Forward request). }
  clear Hin.
  destruct (HandleMessages_paths method body header flusher m w)
    as [[Hnone _]|(bodyBytes & req & instance & slot & -> & -> & Hreq & Hmodel & Htokens
                   & Hmessages & Hfind & Hslot & Hrun)].
  { destruct Hnone as [Hnone|Hnone]; rewrite Hnone in Hsent; by apply elem_of_nil in Hsent. }
  rewrite Hrun in *. cbn [fst snd] in *. rewrite forwarded_between in *.
  destruct (exchange_paths req header flusher instance)
    as [[Hnone _]|(openaiBody & Hconvert & [(Heffects & _)|(resp & Heffects & _)])].
  { rewrite Hnone in Hsent. by apply elem_of_nil in Hsent. }
  all: rewrite Heffects in *; cbn [omap forwarded] in *.
  all: apply list_elem_of_singleton in Hsent as ->.
  all: exists bodyBytes, req, instance, openaiBody; repeat split; try done.
  all: by apply (RouterFacts.FindInstanceByModel_running _ _ _ _ _ Hfind).
Qed.

(** A slot of the concurrency limit never leaks: when [HandleMessages]
    takes one, it takes it before anything is sent to the backend and
    releases it once, after the exchange and before the request body is
    closed, whatever the backend does.  Without a limit it touches no
    slot. *)
Theorem HandleMessages_releases_slot (method : string) (body : string + gerror)
    (header : Router.Entries) (flusher : bool) (m : Scheduler.Manager) (w : W) :
  let effects := snd (HandleMessages method body header flusher m w) in
  List.filter is_slot_effect effects = [] \/
  exists instanceID maxConcurrency inner,
    0 < maxConcurrency /\
    effects = AcquireSlot instanceID maxConcurrency :: inner
              ++ [ReleaseSlot instanceID maxConcurrency; CloseRequestBody] /\
    List.filter is_slot_effect inner = [].
Proof.
  cbn zeta.
  destruct (HandleMessages_paths method body header flusher m w)
    as [[Hnone _]|(bodyBytes & req & instance & slot & _ & _ & _ & _ & _ & _ & _ & Hslot & Hrun)].
  { left. by destruct Hnone as [-> | ->]. }
  rewrite Hrun. cbn [fst snd].
  assert (Hinner : List.filter is_slot_effect (snd (exchange req header flusher instance)) = []).
  { destruct (exchange_paths req header flusher instance)
      as [[-> _]|(openaiBody & _ & [(-> & _)|(resp & -> & _)])]; done. }
  destruct slot as [|instanceID maxConcurrency]; cbn [acquired release app].
  - left. by rewrite List.filter_app, Hinner.
  - right. exists instanceID, maxConcurrency, (snd (exchange req header flusher instance)).
    split; [|done]. unfold Router.AcquireConcurrency in Hslot.
    destruct (Z.leb_spec (Router.maxConcurrency instance) 0); [done|].
    destruct (acquireSlot _ _); [done|]. injection Hslot as _ <-. lia.
Qed.

(** A reply with status 200 comes only from a backend that answered with
    a status below 400 to the one request that was sent to it.  A message
    is the conversion of the backend's response and names the model the
    client asked for, not the one of the backend; a stream is sent only
    to a client that asked for one, opens with a [message_start] naming
    the client's model, and closes with [message_delta], [message_stop]
    and the [DONE] line, whatever the backend streamed. *)
Theorem HandleMessages_success (method : string) (body : string + gerror)
    (header : Router.Entries) (flusher : bool) (m : Scheduler.Manager) (w : W) :
  let handled := HandleMessages method body header flusher m w in
  replyStatus (fst handled) = 200 ->
  exists bodyBytes req request resp,
    body = inl bodyBytes /\ unmarshalMessagesRequest bodyBytes = inl req /\
    omap forwarded (snd handled) = [request] /\ Do request = inl resp /\
    BackendResponse.StatusCode resp < 400 /\
    match fst handled with
    | ErrorReply _ => False
    | MessageReply message =>
        Apiformat.MessagesRequest.Stream req = false /\
        Apiformat.ConvertResponse unmarshalResponse unmarshalObject randomHex
          (fst (ReadAll (BackendResponse.Body resp))) (Apiformat.MessagesRequest.Model req)
        = inl message /\
        Apiformat.MessagesResponse.Model message = Apiformat.MessagesRequest.Model req
    | StreamReply events =>
        Apiformat.MessagesRequest.Stream req = true /\ flusher = true /\
        (exists between,
           events = [Apiformat.MessageStart ("msg_" +:+ randomHex 0)
                       (Apiformat.MessagesRequest.Model req);
                     Apiformat.ContentBlockStart 0 Apiformat.TextBlock; Apiformat.Ping]
                    ++ between) /\
        (exists stopReason outputTokens,
           List.filter Apiformat.is_closing events
           = [Apiformat.MessageDelta stopReason outputTokens; Apiformat.MessageStop;
              Apiformat.DoneLine])
    end.
Proof.
  cbn zeta. intros Hstatus.
  destruct (HandleMessages_paths method body header flusher m w)
    as [[_ Hearly]|(bodyBytes & req & instance & slot & _ & -> & Hreq & _ & _ & _ & _ & _ & Hrun)].
  { rewrite Hstatus in Hearly. by destruct Hearly as [|[|[|(? & _)]]]. }
  rewrite Hrun in *. cbn [fst snd] in *.
  rewrite forwarded_between.
  destruct (exchange_paths req header flusher instance)
    as [[_ [Hbad|Hbad]]
       |(openaiBody & _ & [(_ & Hbad & _)|(resp & Heffects & Hdo & Hreply)])];
    try (rewrite Hstatus in Hbad; done).
  rewrite Heffects, Hreply in *. clear Hreply Heffects.
  eexists bodyBytes, req, _, resp. split; [done|]. split; [done|]. split; [done|].
  split; [exact Hdo|]. unfold replyTo in *.
  destruct (Z.leb_spec 400 (BackendResponse.StatusCode resp)) as [Hge|Hlt].
  { cbn in Hstatus. lia. }
  split; [done|]. destruct (Apiformat.MessagesRequest.Stream req).
  - rewrite handleStreamingResponse_status in Hstatus. destruct flusher; [|done].
    unfold handleStreamingResponse. cbn [negb].
    destruct (scan _) as [lines scanErr]. unfold Apiformat.Transform, Apiformat.NewStreamAdapter.
    rewrite ApiformatFacts.scanLines_decodedChunks.
    match goal with |- context [foldl _ (?sa0, ?out0) _] =>
      destruct (ApiformatFacts.processChunks_closing randomHex
                  (Apiformat.decodedChunks unmarshalChunk lines) sa0 out0 eq_refl)
        as (_ & evs & Hw & Hclose) end.
    destruct (Apiformat.finalize _) as [sa out]. cbn [fst snd] in *.
    cbn [Apiformat.written Apiformat.writeSSE app] in Hw. rewrite Hw.
    repeat split; try done; [by exists evs|].
    eexists _, _. cbn [List.filter Apiformat.is_closing app]. exact Hclose.
  - unfold handleBufferedResponse in *.
    destruct (ReadAll _) as [respBody [err|]]; [done|]. cbn [fst].
    destruct (Apiformat.ConvertResponse _ _ _ _ _) as [message|err] eqn:Hconvert; [|done].
    split; [done|]. split; [done|].
    unfold Apiformat.ConvertResponse in Hconvert.
    destruct (unmarshalResponse respBody) as [decoded|]; [|done].
    destruct (Apiformat.OpenAIChatResponse.Choices decoded); [done|].
    by injection Hconvert as <-.
Qed.

End MessagesFacts.

Lemma HandleMessages_unavailable_witness :
  let services := sample_services 503 [] in
  let handled := sample_handled 503 [] in
  (errorType (fst handled) = "overloaded_error"%string /\ snd handled = [CloseRequestBody]) \/
  (exists request resp,
     Forward request ∈ snd handled /\ Do request = inl resp /\
     BackendResponse.StatusCode resp = 503 /\ fst handled = forwardBackendError resp).
Proof.
  apply (HandleMessages_unavailable (services := sample_services 503 []) "POST"
           (inl sample_request_doc) Router.sample_headers false Scheduler.sample_manager
           Router.sample_router_host).
  reflexivity.
Defined.

Lemma HandleMessages_forwards_witness :
  let services := sample_services 200 [sample_response_doc] in
  let handled := sample_handled 200 [sample_response_doc] in
  let request :=
    Router.proxyRequest (fun key => key) "POST" "/v1/chat/completions" ""
      (Apiformat.quoted "{'model':'Claude-Sonnet'}") Router.sample_headers
      Router.sample_claude in
  exists bodyBytes req instance openaiBody,
    "POST"%string = "POST"%string /\
    @inl string gerror sample_request_doc = inl bodyBytes /\
    unmarshalMessagesRequest bodyBytes = inl req /\
    Apiformat.MessagesRequest.Model req <> ""%string /\
    0 < Apiformat.MessagesRequest.MaxTokens req /\
    Apiformat.MessagesRequest.Messages req <> [] /\
    Router.FindInstanceByModel ToLower Scheduler.sample_manager Router.sample_router_host
      (Apiformat.MessagesRequest.Model req) = inl instance /\
    Instance.State instance = "running"%string /\
    Apiformat.ConvertRequest unmarshalString unmarshalBlocks unmarshalTextBlocks
      unmarshalObject marshalObject unmarshalToolChoice marshalRequest req
      (Router.aliasOf instance) = inl openaiBody /\
    request = Router.proxyRequest CanonicalMIMEHeaderKey "POST" "/v1/chat/completions" ""
                openaiBody Router.sample_headers instance /\
    omap forwarded (snd handled) = [request].
Proof.
  apply (HandleMessages_forwards (services := sample_services 200 [sample_response_doc])
           "POST" (inl sample_request_doc) Router.sample_headers false
           Scheduler.sample_manager Router.sample_router_host).
  vm_compute. apply list_elem_of_here.
Defined.

Lemma HandleMessages_success_witness :
  let services := sample_services 200 [sample_response_doc] in
  let handled := sample_handled 200 [sample_response_doc] in
  exists bodyBytes req request resp,
    @inl string gerror sample_request_doc = inl bodyBytes /\
    unmarshalMessagesRequest bodyBytes = inl req /\
    omap forwarded (snd handled) = [request] /\ Do request = inl resp /\
    BackendResponse.StatusCode resp < 400 /\
    match fst handled with
    | ErrorReply _ => False
    | MessageReply message =>
        Apiformat.MessagesRequest.Stream req = false /\
        Apiformat.ConvertResponse unmarshalResponse unmarshalObject randomHex
          (fst (ReadAll (BackendResponse.Body resp))) (Apiformat.MessagesRequest.Model req)
        = inl message /\
        Apiformat.MessagesResponse.Model message = Apiformat.MessagesRequest.Model req
    | StreamReply events =>
        Apiformat.MessagesRequest.Stream req = true /\ false = true /\
        (exists between,
           events = [Apiformat.MessageStart ("msg_" +:+ randomHex 0)
                       (Apiformat.MessagesRequest.Model req);
                     Apiformat.ContentBlockStart 0 Apiformat.TextBlock; Apiformat.Ping]
                    ++ between) /\
        (exists stopReason outputTokens,
           List.filter Apiformat.is_closing events
           = [Apiformat.MessageDelta stopReason outputTokens; Apiformat.MessageStop;
              Apiformat.DoneLine])
    end.
Proof.
  apply (HandleMessages_success (services := sample_services 200 [sample_response_doc])
           "POST" (inl sample_request_doc) Router.sample_headers false
           Scheduler.sample_manager Router.sample_router_host).
  reflexivity.
Defined.

End HandlersFacts.

(** ** The container create-spec *)

Module OmniInferFacts.

Import Runtime OmniInfer.

Section WithBase.

Variable ApplyTemplateParams : gmap string string -> CreateParams.t -> gmap string string.

(** C8 (as amended).  In the environment of the create-spec the canonical
    keys carry the values [Create] computes (MODEL_PATH=/mnt/model,
    MODEL_NAME=alias or model id, TENSOR_PARALLEL_SIZE, SERVER_PORT, and
    MAX_MODEL_LEN when the extra configuration gives a positive one),
    whatever the user, the sandbox or the template parameters say; every
    other key has the value the template step leaves for it; and in the
    merge of the user environment with the sandbox environment the
    sandbox value wins on every collision, the user value being kept only
    for keys the sandbox does not set. *)
Theorem containerEnv_precedence (params : CreateParams.t) (sandboxEnv : gmap string string) :
  let env := containerEnv ApplyTemplateParams params sandboxEnv in
  env !! "MODEL_PATH"%string = Some "/mnt/model"%string /\
  env !! "MODEL_NAME"%string
    = Some (if String.eqb (CreateParams.Alias params) "" then CreateParams.ModelID params
            else CreateParams.Alias params) /\
  env !! "TENSOR_PARALLEL_SIZE"%string
    = Some (GoStrings.Itoa (if 0 <? CreateParams.TensorParallel params
                            then CreateParams.TensorParallel params
                            else Z.of_nat (length (CreateParams.Devices params)))) /\
  env !! "SERVER_PORT"%string
    = Some (if 0 <? CreateParams.Port params then GoStrings.Itoa (CreateParams.Port params)
            else "8000"%string) /\
  (forall maxLen, CreateParams.ExtraConfig params !! "max_model_len"%string = Some (VInt maxLen) ->
     0 < maxLen -> env !! "MAX_MODEL_LEN"%string = Some (GoStrings.Itoa maxLen)) /\
  (forall k, k ∉ canonical_keys ->
     env !! k = ApplyTemplateParams (mergedEnv params sandboxEnv) params !! k) /\
  (forall k, mergedEnv params sandboxEnv !! k
             = match sandboxEnv !! k with
               | Some v => Some v
               | None => CreateParams.Environment params !! k
               end).
Proof.
  cbn zeta. unfold containerEnv.
  set (templated := ApplyTemplateParams (mergedEnv params sandboxEnv) params).
  set (modelName := if String.eqb (CreateParams.Alias params) "" then _ else _).
  repeat split.
  - destruct (0 <? CreateParams.Port params);
      destruct (CreateParams.ExtraConfig params !! "max_model_len"%string) as [[?|maxLen|]|];
      try destruct (0 <? maxLen);
      destruct (0 <? CreateParams.TensorParallel params);
      by simplify_map_eq.
  - destruct (0 <? CreateParams.Port params);
      destruct (CreateParams.ExtraConfig params !! "max_model_len"%string) as [[?|maxLen|]|];
      try destruct (0 <? maxLen);
      destruct (0 <? CreateParams.TensorParallel params);
      by simplify_map_eq.
  - destruct (0 <? CreateParams.Port params);
      destruct (CreateParams.ExtraConfig params !! "max_model_len"%string) as [[?|maxLen|]|];
      try destruct (0 <? maxLen);
      destruct (0 <? CreateParams.TensorParallel params);
      by simplify_map_eq.
  - destruct (0 <? CreateParams.Port params); by simplify_map_eq.
  - intros maxLen -> Hpos. apply Z.ltb_lt in Hpos. rewrite Hpos.
    destruct (0 <? CreateParams.Port params); by simplify_map_eq.
  - intros k Hk. unfold canonical_keys in Hk.
    rewrite !not_elem_of_cons in Hk. destruct Hk as (? & ? & ? & ? & ? & _).
    destruct (0 <? CreateParams.Port params);
      destruct (CreateParams.ExtraConfig params !! "max_model_len"%string) as [[?|maxLen|]|];
      try destruct (0 <? maxLen);
      destruct (0 <? CreateParams.TensorParallel params);
      by simplify_map_eq.
  - intros k. unfold mergedEnv, copyInto. rewrite lookup_union, (right_id_L ∅ (∪)).
    destruct (sandboxEnv !! k) as [v|] eqn:Hsandbox; rewrite ?Hsandbox.
    + by destruct (CreateParams.Environment params !! k).
    + by rewrite (left_id_L None _).
Qed.

End WithBase.

(** C8, counterexample.  LD_LIBRARY_PATH is not a device key; the user
    environment and the sandbox environment both set it, and the
    create-spec carries the value of the sandbox, not the user's. *)
Lemma Create_sandbox_wins_on_every_key :
  CreateParams.Environment sample_params !! "LD_LIBRARY_PATH"%string
  = Some "/opt/custom/lib"%string /\
  exists instance spec instances,
    Create (fun _ => inl sample_sandbox) (fun env _ => env)
           (fun _ _ => inl "4f5c0d4d7f3a"%string) ∅ 1700000000 sample_params
    = (inl (instance, spec), instances) /\
    Env spec !! "LD_LIBRARY_PATH"%string = Some "/usr/local/Ascend/driver/lib64"%string /\
    Env spec !! "ASCEND_VISIBLE_DEVICES"%string = Some "0,1"%string /\
    Env spec !! "MODEL_NAME"%string = Some "qwen"%string /\
    Env spec !! "TENSOR_PARALLEL_SIZE"%string = Some "2"%string /\
    Env spec !! "SERVER_PORT"%string = Some "10881"%string.
Proof.
  split; [reflexivity|]. eexists _, _, _. split; [reflexivity|].
  repeat split; by vm_compute.
Qed.

(** *** The instance map and the concurrency limit *)

Section CreateFacts.

Variable SelectSandbox : string -> DeviceSandbox + gerror.
Variable ApplyTemplateParams : gmap string string -> CreateParams.t -> gmap string string.
Variable CreateContainerWithLabels : CreateParams.t -> ContainerSpec -> string + gerror.

(** What a successful [Create] returns and registers. *)
Lemma Create_registers (instances instances' : gmap string Instance.t) (now : Z)
    (params : CreateParams.t) (instance : Instance.t) (spec : ContainerSpec) :
  Create SelectSandbox ApplyTemplateParams CreateContainerWithLabels instances now params
  = (inl (instance, spec), instances') ->
  CreateParams.InstanceID params <> ""%string /\
  instances !! CreateParams.InstanceID params = None /\
  CreateParams.Devices params <> [] /\
  instances' = <[CreateParams.InstanceID params := instance]> instances /\
  Instance.ID instance = CreateParams.InstanceID params /\
  Instance.State instance = StateCreated /\
  Instance.Port instance = CreateParams.Port params /\
  Instance.Metadata instance !! "max_concurrent"%string
  = match CreateParams.ExtraConfig params !! "max_concurrent"%string with
    | Some (VInt maxConcurrent) =>
        if 0 <? maxConcurrent then Some (GoStrings.Itoa maxConcurrent) else None
    | _ => None
    end.
Proof.
  unfold Create.
  destruct (String.eqb_spec (CreateParams.InstanceID params) "") as [|Hid]; [done|].
  case_bool_decide as Hdup; [done|].
  destruct (CreateParams.Devices params) as [|first devices] eqn:Hdevices; [done|].
  destruct (SelectSandbox _) as [sandbox|]; [|done].
  destruct (PrepareEnvironment sandbox _) as [sandboxEnv|]; [|done].
  destruct (GetDeviceMounts sandbox _) as [deviceMounts|]; [|done].
  destruct (GetDefaultImage sandbox _) as [imageName|]; [|done].
  destruct (CreateContainerWithLabels _ _) as [containerID|]; [|done].
  intros [= <- <- <-]. cbn [Instance.ID Instance.State Instance.Port Instance.Metadata].
  split; [done|]. split; [by apply eq_None_not_Some|]. split; [done|].
  split; [done|]. split; [done|]. split; [done|]. split; [done|].
  destruct (CreateParams.ExtraConfig params !! "max_concurrent"%string) as [[s|n|]|];
    try destruct (0 <? n); by simplify_map_eq.
Qed.


(** An instance id is used once: [Create] registers the instance it
    returns, in state created, without touching any other entry of the
    instance map, and a later [Create] with the same id fails and leaves
    the map as it is. *)
Theorem Create_once (instances instances' : gmap string Instance.t) (now now' : Z)
    (params params' : CreateParams.t) (instance : Instance.t) (spec : ContainerSpec) :
  Create SelectSandbox ApplyTemplateParams CreateContainerWithLabels instances now params
  = (inl (instance, spec), instances') ->
  CreateParams.InstanceID params' = CreateParams.InstanceID params ->
  instances !! CreateParams.InstanceID params = None /\
  instances' !! CreateParams.InstanceID params = Some instance /\
  Instance.State instance = StateCreated /\
  (forall other, other <> CreateParams.InstanceID params ->
     instances' !! other = instances !! other) /\
  Create SelectSandbox ApplyTemplateParams CreateContainerWithLabels instances' now' params'
  = (inr ("instance " +:+ CreateParams.InstanceID params +:+ " already exists"), instances').
Proof.
  intros (Hid & Hfresh & _ & -> & _ & Hstate & _)%Create_registers Hsame.
  split; [done|]. split; [by rewrite lookup_insert_eq|]. split; [done|]. split.
  - intros other Hother. by rewrite lookup_insert_ne.
  - unfold Create. rewrite Hsame.
    destruct (String.eqb_spec (CreateParams.InstanceID params) "") as [|_]; [done|].
    rewrite bool_decide_true; [done|]. rewrite lookup_insert_eq. by eexists.
Qed.

Variable acquireSlot : string -> Z -> option gerror.

(** The concurrency limit makes the round trip through the metadata of
    the instance: for an instance that [Create] built, the router's
    [AcquireConcurrency] waits for a slot with exactly the positive
    max_concurrent of the creation parameters, and takes no slot when
    there is none. *)
Theorem Create_limit_round_trip (instances instances' : gmap string Instance.t) (now : Z)
    (params : CreateParams.t) (instance : Instance.t) (spec : ContainerSpec) :
  Create SelectSandbox ApplyTemplateParams CreateContainerWithLabels instances now params
  = (inl (instance, spec), instances') ->
  (forall n, CreateParams.ExtraConfig params !! "max_concurrent"%string = Some (VInt n) ->
             n <= GoInt.max_int) ->
  let limit :=
    match CreateParams.ExtraConfig params !! "max_concurrent"%string with
    | Some (VInt n) => if 0 <? n then n else 0
    | _ => 0
    end in
  Router.maxConcurrency instance = limit /\
  Router.AcquireConcurrency acquireSlot instance
  = if limit <=? 0 then inl Router.Unlimited
    else match acquireSlot (CreateParams.InstanceID params) limit with
         | Some err => inr err
         | None => inl (Router.Acquired (CreateParams.InstanceID params) limit)
         end.
Proof.
  intros (_ & _ & _ & _ & Hid & _ & _ & Hmeta)%Create_registers Hint. cbn zeta.
  assert (Hlimit : Router.maxConcurrency instance
                   = match CreateParams.ExtraConfig params !! "max_concurrent"%string with
                     | Some (VInt n) => if 0 <? n then n else 0
                     | _ => 0
                     end).
  { unfold Router.maxConcurrency. rewrite Hmeta.
    destruct (CreateParams.ExtraConfig params !! "max_concurrent"%string) as [[s|n|]|];
      try done.
    destruct (Z.ltb_spec 0 n) as [Hpos|]; [|done].
    destruct (String.eqb_spec (GoStrings.Itoa n) "") as [Hempty|_];
      [by apply GoStringsFacts.Itoa_nonempty in Hempty|].
    cbn [negb].
    rewrite (GoStringsFacts.Atoi_numeral (GoStrings.Itoa n) n);
      [|apply GoStringsFacts.Itoa_numeral; lia|apply GoStringsFacts.digits_value_Itoa; lia
       |by apply Hint|lia].
    destruct (Z.ltb_spec 0 n); [done|lia]. }
  split; [done|]. unfold Router.AcquireConcurrency. by rewrite Hlimit, Hid.
Qed.

End CreateFacts.

Lemma Create_once_witness :
  (∅ : gmap string Instance.t) !! CreateParams.InstanceID sample_limited_params = None /\
  snd sample_created !! CreateParams.InstanceID sample_limited_params
  = Some sample_created_instance /\
  Instance.State sample_created_instance = StateCreated /\
  (forall other, other <> CreateParams.InstanceID sample_limited_params ->
     snd sample_created !! other = (∅ : gmap string Instance.t) !! other) /\
  sample_create (snd sample_created) 1700000060 sample_params
  = (inr ("instance " +:+ CreateParams.InstanceID sample_limited_params +:+ " already exists"),
     snd sample_created).
Proof.
  refine (Create_once (fun _ => inl sample_sandbox) (fun env _ => env)
            (fun _ _ => inl "4f5c0d4d7f3a"%string) ∅ (snd sample_created)
            1700000000 1700000060 sample_limited_params sample_params
            sample_created_instance sample_created_spec _ _); reflexivity.
Defined.

Lemma Create_limit_round_trip_witness :
  Router.maxConcurrency sample_created_instance = 4 /\
  Router.AcquireConcurrency (fun _ _ => None) sample_created_instance
  = inl (Router.Acquired "qwen-1700000000" 4).
Proof.
  refine (Create_limit_round_trip (fun _ => inl sample_sandbox) (fun env _ => env)
            (fun _ _ => inl "4f5c0d4d7f3a"%string) (fun _ _ => None) ∅ (snd sample_created)
            1700000000 sample_limited_params sample_created_instance sample_created_spec
            _ _).
  - reflexivity.
  - intros n [= <-]. vm_compute. discriminate.
Defined.

End OmniInferFacts.

(** ** Model specifications *)

Module ModelsFacts.

Import Runtime Models.

Section ValidateFacts.

Variable range : gmap string (list BackendOption.t) -> list (string * list BackendOption.t).

Hypothesis range_visits : forall devices, range devices ≡ₚ map_to_list devices.

Lemma range_lookup (devices : gmap string (list BackendOption.t)) (device : string)
                   (engines : list BackendOption.t) :
  (device, engines) ∈ range devices <-> devices !! device = Some engines.
Proof. by rewrite range_visits, elem_of_map_to_list. Qed.

Lemma size_zero (devices : gmap string (list BackendOption.t)) :
  (size devices =? 0)%nat = true <-> devices = ∅.
Proof. by rewrite Nat.eqb_eq, map_size_empty_iff. Qed.

(** What [Validate] checks: an id, a device, and an engine for every
    device. *)
Lemma Validate_accepts (m : ModelSpec.t) :
  Validate range m = None <->
  ModelSpec.ID m <> ""%string /\ ModelSpec.SupportedDevices m <> ∅ /\
  forall device engines,
    ModelSpec.SupportedDevices m !! device = Some engines -> engines <> [].
Proof.
  unfold Validate.
  destruct (String.eqb_spec (ModelSpec.ID m) "") as [Hid|Hid]; [by split; [|intros [? _]]|].
  destruct (size (ModelSpec.SupportedDevices m) =? 0)%nat eqn:Hsize.
  { apply size_zero in Hsize. by split; [|intros (_ & ? & _)]. }
  assert (Hdevices : ModelSpec.SupportedDevices m <> ∅).
  { intros Hempty. apply size_zero in Hempty. congruence. }
  destruct (find _ _) as [[device engines]|] eqn:Hfind.
  - split; [done|]. intros (_ & _ & Hengines).
    apply find_some in Hfind as [Hin Hnone]. apply list_elem_of_In, range_lookup in Hin.
    cbn [snd] in Hnone. apply Nat.eqb_eq in Hnone.
    destruct engines; [|done]. by destruct (Hengines device []).
  - split; [|done]. intros _. repeat split; [done..|].
    intros device engines Hlookup ->.
    apply range_lookup, list_elem_of_In in Hlookup.
    by apply (find_none _ _ Hfind) in Hlookup.
Qed.

(** The answers of a validated specification agree: it supports a device
    exactly when it has an engine for it, and exactly when it lists the
    device; it lists at least one device and none twice.  Without
    validation a specification with no device supports every device and
    has an engine for none. *)
Theorem Validate_devices_agree (m : ModelSpec.t) :
  Validate range m = None ->
  GetAllSupportedDevices range m <> [] /\
  NoDup (GetAllSupportedDevices range m) /\
  forall deviceType,
    (SupportsDevice m deviceType = true <-> GetEnginesForDevice m deviceType <> []) /\
    (SupportsDevice m deviceType = true <-> deviceType ∈ GetAllSupportedDevices range m).
Proof.
  intros (_ & Hdevices & Hengines)%Validate_accepts.
  assert (Hsize : (size (ModelSpec.SupportedDevices m) =? 0)%nat = false).
  { apply not_true_is_false. by rewrite size_zero. }
  assert (Hlisted : forall deviceType,
            deviceType ∈ GetAllSupportedDevices range m
            <-> is_Some (ModelSpec.SupportedDevices m !! deviceType)).
  { intros deviceType. unfold GetAllSupportedDevices. rewrite list_elem_of_fmap. split.
    - intros ([device engines] & -> & Hin). apply range_lookup in Hin. by exists engines.
    - intros [engines Hlookup]. exists (deviceType, engines). by rewrite range_lookup. }
  split; [|split].
  - apply map_choose in Hdevices as (device & engines & Hlookup).
    assert (Hin : device ∈ GetAllSupportedDevices range m)
      by (rewrite Hlisted; by exists engines).
    intros Hnone. rewrite Hnone in Hin. by apply elem_of_nil in Hin.
  - assert (Hperm : GetAllSupportedDevices range m
                    ≡ₚ (map_to_list (ModelSpec.SupportedDevices m)).*1).
    { apply fmap_Permutation, range_visits. }
    rewrite Hperm. apply NoDup_fst_map_to_list.
  - intros deviceType. rewrite Hlisted. unfold SupportsDevice, GetEnginesForDevice.
    rewrite Hsize. destruct (ModelSpec.SupportedDevices m !! deviceType) as [engines|] eqn:Hlookup.
    + split; split; try done. intros _. by apply (Hengines deviceType).
    + by split; split.
Qed.

End ValidateFacts.

Section LoaderFacts.

Variable range : gmap string (list BackendOption.t) -> list (string * list BackendOption.t).
Variable DeploymentModeDocker DeploymentModeNative : string.
Variable LoadModelsConfig : string -> list ModelConfig.t + gerror.

(** [parseEngine] accepts exactly the strings backend:mode with a
    backend that is not empty and one of the two deployment modes, cut at
    the first colon; the option it builds has no command and priority 0. *)
Theorem parseEngine_format (engine : string) (backendOpt : BackendOption.t) :
  parseEngine DeploymentModeDocker DeploymentModeNative engine = inl backendOpt <->
  engine = BackendOption.Type_ backendOpt +:+ String ":" (BackendOption.Mode backendOpt) /\
  BackendOption.Type_ backendOpt <> ""%string /\
  GoStrings.contains_byte (BackendOption.Type_ backendOpt) ":" = false /\
  (BackendOption.Mode backendOpt = DeploymentModeDocker \/
   BackendOption.Mode backendOpt = DeploymentModeNative) /\
  BackendOption.Command backendOpt = [] /\
  BackendOption.Priority backendOpt = 0.
Proof.
  unfold parseEngine. split.
  - destruct (GoStringsFacts.SplitN2_cut engine ":")
      as [[_ ->]|(backendType & deploymentMode & -> & Hnone & ->)]; [done|].
    destruct (String.eqb_spec backendType "") as [|Hbackend]; [done|].
    destruct (_ || _) eqn:Hmode; [|done]. intros [= <-]. cbn.
    repeat split; try done.
    apply orb_true_iff in Hmode as [Hmode|Hmode]; apply String.eqb_eq in Hmode; auto.
  - destruct backendOpt as [backendType deploymentMode command priority]. cbn.
    intros (-> & Hbackend & Hnone & Hmode & -> & ->).
    rewrite GoStringsFacts.SplitN2_app by done.
    destruct (String.eqb_spec backendType "") as [|_]; [done|].
    destruct Hmode as [<-|<-]; rewrite String.eqb_refl; [done|]. by rewrite orb_true_r.
Qed.

Lemma backendOptions_parsed (engines : list string) :
  Forall (fun backendOpt =>
            BackendOption.Type_ backendOpt <> ""%string /\
            (BackendOption.Mode backendOpt = DeploymentModeDocker \/
             BackendOption.Mode backendOpt = DeploymentModeNative))
         (backendOptions DeploymentModeDocker DeploymentModeNative engines).
Proof.
  induction engines as [|engine engines IH]; cbn [backendOptions]; [constructor|].
  destruct (parseEngine _ _ engine) as [backendOpt|] eqn:Hparse; [|done].
  constructor; [|done]. unfold parseEngine in Hparse.
  destruct (GoStrings.SplitN2 engine ":") as [|backendType [|deploymentMode [|]]]; try done.
  destruct (String.eqb_spec backendType "") as [|Hbackend]; [done|].
  destruct (_ || _) eqn:Hmode; [|done]. injection Hparse as <-. cbn. split; [done|].
  apply orb_true_iff in Hmode as [Hmode|Hmode]; apply String.eqb_eq in Hmode; auto.
Qed.

(** A specification loaded from the configuration keeps, for every
    device, the engines of the configuration that parse, in their order,
    each with a backend and one of the two deployment modes, and no
    device without such an engine: [Validate] can reject it only for a
    missing id or for having no device at all. *)
Theorem LoadModelsFromConfig_specs (configPath : string) (specs : list ModelSpec.t) :
  (forall devices, range devices ≡ₚ map_to_list devices) ->
  LoadModelsFromConfig DeploymentModeDocker DeploymentModeNative LoadModelsConfig configPath
  = inl specs ->
  exists models,
    LoadModelsConfig configPath = inl models /\
    Forall2 (fun model spec =>
               ModelSpec.ID spec = ModelConfig.ModelID model /\
               (forall device,
                  GetEnginesForDevice spec device
                  = backendOptions DeploymentModeDocker DeploymentModeNative
                      (default [] (ModelConfig.SupportedDevices model !! device)) /\
                  Forall (fun backendOpt =>
                            BackendOption.Type_ backendOpt <> ""%string /\
                            (BackendOption.Mode backendOpt = DeploymentModeDocker \/
                             BackendOption.Mode backendOpt = DeploymentModeNative))
                         (GetEnginesForDevice spec device)) /\
               (Validate range spec = None <->
                ModelSpec.ID spec <> ""%string /\ ModelSpec.SupportedDevices spec <> ∅))
            models specs.
Proof.
  intros Hrange. unfold LoadModelsFromConfig.
  destruct (LoadModelsConfig configPath) as [models|]; [|done]. intros [= <-].
  exists models. split; [done|]. apply Forall2_fmap_r, Forall_Forall2_diag, Forall_forall.
  intros model _. split; [done|].
  assert (Hstored : forall device engines,
            ModelSpec.SupportedDevices
              (specOf DeploymentModeDocker DeploymentModeNative model) !! device = Some engines ->
            engines <> [] /\
            engines = backendOptions DeploymentModeDocker DeploymentModeNative
                        (default [] (ModelConfig.SupportedDevices model !! device))).
  { intros device engines. cbn [specOf ModelSpec.SupportedDevices]. unfold supportedDevices.
    rewrite lookup_omap.
    destruct (ModelConfig.SupportedDevices model !! device) as [strings|]; [|done]. cbn.
    destruct (backendOptions _ _ strings) as [|backendOpt rest]; [done|]. by intros [= <-]. }
  split.
  - intros device.
    assert (Hengines : GetEnginesForDevice (specOf DeploymentModeDocker DeploymentModeNative model)
                         device
                       = backendOptions DeploymentModeDocker DeploymentModeNative
                           (default [] (ModelConfig.SupportedDevices model !! device)));
      [|rewrite Hengines; split; [done|apply backendOptions_parsed]].
    unfold GetEnginesForDevice.
    destruct (ModelSpec.SupportedDevices _ !! device) as [engines|] eqn:Hlookup.
    + by apply Hstored in Hlookup as [_ ->].
    + revert Hlookup. cbn [specOf ModelSpec.SupportedDevices]. unfold supportedDevices.
      rewrite lookup_omap.
      destruct (ModelConfig.SupportedDevices model !! device) as [strings|]; [|done]. cbn.
      by destruct (backendOptions _ _ strings).
  - rewrite Validate_accepts by done. split.
    + by intros (? & ? & _).
    + intros [? ?]. repeat split; [done..|]. intros device engines Hlookup.
      by apply Hstored in Hlookup as [? _].
Qed.

End LoaderFacts.

Lemma Validate_devices_agree_witness :
  let m := specOf "docker" "native" sample_model in
  GetAllSupportedDevices sample_range m <> [] /\
  NoDup (GetAllSupportedDevices sample_range m) /\
  forall deviceType,
    (SupportsDevice m deviceType = true <-> GetEnginesForDevice m deviceType <> []) /\
    (SupportsDevice m deviceType = true <-> deviceType ∈ GetAllSupportedDevices sample_range m).
Proof.
  apply (Validate_devices_agree sample_range).
  - intros devices. reflexivity.
  - vm_compute. reflexivity.
Defined.

Lemma LoadModelsFromConfig_specs_witness :
  exists models,
    sample_LoadModelsConfig "models.yaml" = inl models /\
    Forall2 (fun model spec =>
               ModelSpec.ID spec = ModelConfig.ModelID model /\
               (forall device,
                  GetEnginesForDevice spec device
                  = backendOptions "docker" "native"
                      (default [] (ModelConfig.SupportedDevices model !! device)) /\
                  Forall (fun backendOpt =>
                            BackendOption.Type_ backendOpt <> ""%string /\
                            (BackendOption.Mode backendOpt = "docker"%string \/
                             BackendOption.Mode backendOpt = "native"%string))
                         (GetEnginesForDevice spec device)) /\
               (Validate sample_range spec = None <->
                ModelSpec.ID spec <> ""%string /\ ModelSpec.SupportedDevices spec <> ∅))
            models [specOf "docker" "native" sample_model].
Proof.
  apply (LoadModelsFromConfig_specs sample_range "docker" "native" sample_LoadModelsConfig
           "models.yaml").
  - intros devices. reflexivity.
  - reflexivity.
Defined.

End ModelsFacts.
